(** * DoE scrapers: the fetch / extract / paginate / download / save core

    A shallow embedding of the control flow that the site scrapers of this
    repository repeat (rec_scraper.py, grants_scraper.py, rti_scraper.py,
    manuals_scraper.py, auto_scraper.py, proc_scraper.py, ocac_scraper.py,
    pfd_scraper.py), and the properties the specification states about it.

    What the scrapers talk to (the browser session, the HTTP client, the HTML
    parser, pandas) is outside the repository.  The embedding keeps the
    scrapers' own decisions and represents the collaborators by what they hand
    back: a loaded page is the record of the answers its DOM gives to the
    selectors the scrapers use, a navigation or an HTTP request is answered by
    an environment that may depend on everything done before, and a data frame
    is a list of column names with a rectangle of optional cells.

    Time is not modelled: [time.sleep] is left out, and a wait with a deadline
    is given the polls that fit before it.  A [while True:] loop is a function
    of the number of iterations it may still make; running out of them is the
    outcome [OutOfFuel], which stands for a loop that is still running. *)

From stdpp Require Import gmap strings list pretty.
From Stdlib Require Import Ascii.

Set Default Proof Using "Type".
#[local] Set Warnings "-clear-no-such-hyp".

(** ** Python string operations used by the scrapers *)

Module Py.

Definition lower_char (c : ascii) : ascii :=
  let n := nat_of_ascii c in
  if (65 <=? n)%nat && (n <=? 90)%nat then ascii_of_nat (n + 32) else c.

(** [str.lower] on the ASCII letters.  The scrapers only test the result with
    [endswith(".pdf")], and no character outside ASCII lowers to one of
    [.], [p], [d], [f], so the test is the same as Python's. *)
Fixpoint lower (s : string) : string :=
  match s with
  | EmptyString => EmptyString
  | String c s' => String (lower_char c) (lower s')
  end.

Definition upper_char (c : ascii) : ascii :=
  let n := nat_of_ascii c in
  if (97 <=? n)%nat && (n <=? 122)%nat then ascii_of_nat (n - 32) else c.

(** [str.upper] on the ASCII letters; it is applied to tag names only. *)
Fixpoint upper (s : string) : string :=
  match s with
  | EmptyString => EmptyString
  | String c s' => String (upper_char c) (upper s')
  end.

(** [s.endswith(suffix)] *)
Fixpoint endswith (s suffix : string) : bool :=
  if String.eqb s suffix then true
  else match s with
       | EmptyString => false
       | String _ s' => endswith s' suffix
       end.

(** [needle in hay] *)
Fixpoint contains (needle hay : string) : bool :=
  if String.prefix needle hay then true
  else match hay with
       | EmptyString => false
       | String _ hay' => contains needle hay'
       end.

Fixpoint occurs (c : ascii) (s : string) : bool :=
  match s with
  | EmptyString => false
  | String d s' => if Ascii.eqb c d then true else occurs c s'
  end.

(** [s.split(sep)[0]] for a one-character separator *)
Fixpoint split_head (sep : ascii) (s : string) : string :=
  match s with
  | EmptyString => EmptyString
  | String c s' => if Ascii.eqb c sep then EmptyString else String c (split_head sep s')
  end.

(** [os.path.basename] (POSIX): what follows the last slash *)
Fixpoint basename (s : string) : string :=
  match s with
  | EmptyString => EmptyString
  | String c s' =>
      if occurs "/" s' then basename s'
      else if Ascii.eqb c "/" then s' else s
  end.

(** [os.path.join(a, b)] (POSIX) *)
Definition path_join (a b : string) : string :=
  if String.prefix "/" b then b
  else if String.eqb a "" || endswith a "/" then a +:+ b
  else a +:+ "/" +:+ b.

(** [sep.join(parts)] *)
Fixpoint join (sep : string) (parts : list string) : string :=
  match parts with
  | [] => ""
  | [p] => p
  | p :: rest => p +:+ sep +:+ join sep rest
  end.

(** Truthiness of a string, and of an optional string ([None] or [""]). *)
Definition truthy (s : string) : bool := negb (String.eqb s "").

Definition truthy_opt (o : option string) : bool :=
  match o with
  | Some s => truthy s
  | None => false
  end.

(** ** Dictionaries with string keys

    A Python [dict] keeps its keys in insertion order, and pandas builds the
    columns of a frame from that order, so a record is an association list. *)

Definition dict := list (string * string).

Fixpoint get (d : dict) (k : string) : option string :=
  match d with
  | [] => None
  | (k', v) :: d' => if String.eqb k k' then Some v else get d' k
  end.

(** [d.get(k, default)] *)
Definition get_or (d : dict) (k default : string) : string :=
  match get d k with
  | Some v => v
  | None => default
  end.

(** [d[k] = v]: an existing key keeps its place *)
Fixpoint set (d : dict) (k v : string) : dict :=
  match d with
  | [] => [(k, v)]
  | (k', v') :: d' => if String.eqb k k' then (k', v) :: d' else (k', v') :: set d' k v
  end.

(** [d.setdefault(k, v)] *)
Definition setdefault (d : dict) (k v : string) : dict :=
  match get d k with
  | Some _ => d
  | None => d ++ [(k, v)]
  end.

(** [dict(zip(keys, values))]: [zip] stops at the shorter list, and a key that
    comes twice keeps its first place and its last value. *)
Fixpoint dict_zip_from (d : dict) (keys vals : list string) : dict :=
  match keys, vals with
  | k :: keys', v :: vals' => dict_zip_from (set d k v) keys' vals'
  | _, _ => d
  end.

Definition dict_zip (keys vals : list string) : dict := dict_zip_from [] keys vals.

Definition keys (d : dict) : list string := map fst d.

(** Whitespace for [str.strip()], on the ASCII range. *)
Definition is_space (c : ascii) : bool :=
  let n := nat_of_ascii c in
  ((9 <=? n)%nat && (n <=? 13)%nat) || ((28 <=? n)%nat && (n <=? 32)%nat).

Fixpoint lstrip_by (drop : ascii -> bool) (s : string) : string :=
  match s with
  | EmptyString => EmptyString
  | String c s' => if drop c then lstrip_by drop s' else s
  end.

Fixpoint rstrip_by (drop : ascii -> bool) (s : string) : string :=
  match s with
  | EmptyString => EmptyString
  | String c s' =>
      match rstrip_by drop s' with
      | EmptyString => if drop c then EmptyString else String c EmptyString
      | r => String c r
      end
  end.

Definition strip_by (drop : ascii -> bool) (s : string) : string :=
  rstrip_by drop (lstrip_by drop s).

(** [s.strip()] *)
Definition strip (s : string) : string := strip_by is_space s.

(** [s.replace(old, new)] for a non-empty [old]; [skip] counts the characters
    of a match that are still to be passed over. *)
Fixpoint replace_from (old new : string) (skip : nat) (s : string) : string :=
  match s with
  | EmptyString => EmptyString
  | String c s' =>
      match skip with
      | S k => replace_from old new k s'
      | O =>
          if String.prefix old s
          then new +:+ replace_from old new (String.length old - 1) s'
          else String c (replace_from old new 0 s')
      end
  end.

Definition replace (s old new : string) : string := replace_from old new 0 s.

(** [re.sub(r"[^...]+", "_", s)]: every maximal run of characters outside the
    class [keep] becomes one underscore.  [in_run] tells that the previous
    character was already outside the class. *)
Fixpoint sub_runs (keep : ascii -> bool) (in_run : bool) (s : string) : string :=
  match s with
  | EmptyString => EmptyString
  | String c s' =>
      if keep c then String c (sub_runs keep false s')
      else if in_run then sub_runs keep true s'
      else String "_" (sub_runs keep true s')
  end.

Definition is_alnum (c : ascii) : bool :=
  let n := nat_of_ascii c in
  ((48 <=? n)%nat && (n <=? 57)%nat) || ((65 <=? n)%nat && (n <=? 90)%nat)
  || ((97 <=? n)%nat && (n <=? 122)%nat).

(** [len(s.split())]: the number of maximal runs of characters that are not
    white space.  [in_word] tells that the previous character was in a run. *)
Fixpoint word_count_from (in_word : bool) (s : string) : nat :=
  match s with
  | EmptyString => 0
  | String c s' =>
      if is_space c then word_count_from false s'
      else (if in_word then 0 else 1) + word_count_from true s'
  end.

Definition word_count (s : string) : nat := word_count_from false s.

(** [re.search] for an opening round bracket, any characters but round
    brackets, and a closing round bracket; group 1 of the match: what stands
    between the first opening bracket that is closed before another bracket
    comes, and the bracket that closes it.  [acc] holds what was read since
    the last opening bracket, if any. *)
Fixpoint bracketed_from (acc : option string) (s : string) : option string :=
  match s with
  | EmptyString => None
  | String c s' =>
      if Ascii.eqb c "(" then bracketed_from (Some EmptyString) s'
      else if Ascii.eqb c ")" then
        match acc with
        | Some g => Some g
        | None => bracketed_from None s'
        end
      else bracketed_from (option_map (fun g => g +:+ String c EmptyString) acc) s'
  end.

Definition bracketed (s : string) : option string := bracketed_from None s.

(** The class [[A-Za-z0-9_-]] *)
Definition is_safe_char (c : ascii) : bool :=
  is_alnum c || Ascii.eqb c "_" || Ascii.eqb c "-".

(** The class [[\w\-]]: letters, digits, underscore, hyphen.  A byte of a
    character outside ASCII counts as a letter. *)
Definition is_word_or_hyphen (c : ascii) : bool :=
  is_safe_char c || (128 <=? nat_of_ascii c)%nat.

End Py.

(** ** The outside world

    Exceptions the scrapers can meet.  All of them are caught by
    [except Exception]; only the first by [except TimeoutException]. *)

Inductive exn :=
| TimeoutException     (* selenium: the page load or the wait timed out *)
| WebDriverException   (* selenium: any other driver error *)
| RequestException     (* requests: connection, HTTP status or stream error *)
| TypeError
| KeyError
| OSError.

Definition is_timeout (e : exn) : bool :=
  match e with
  | TimeoutException => true
  | _ => false
  end.

(** A loaded page, as the answers of its DOM to the selectors in use. *)

Record anchor := {
  a_class : option string;   (* get_attribute("class") *)
  a_href : option string     (* get_attribute("href") *)
}.

Record tr := {
  td_text : list string;             (* td.get_text(" ", strip=True) of each td *)
  pdf_href : option string;          (* tr.select_one("a[href$='.pdf']")["href"] *)
  http_href : option string;         (* tr.select_one("a[href^='http']")["href"] *)
  dl_link : option (string * string) (* tds[4].find("a", href=True): href, text *)
}.

Record table := {
  thead_th : list string;   (* text of the header cells *)
  tbody_tr : list tr
}.

(** One match of [soup.select(selector)]: the node and its [get_text]. *)
Record element := {
  node : nat;
  text : string
}.

Record pager := {
  next_link : option (option string)  (* the next link of the pager, and its href *)
}.

Record document := {
  current_url : string;                 (* driver.current_url *)
  first_table : option table;           (* soup.select_one("table") *)
  next_anchor : option anchor;          (* find_element "li.pager__item--next a" *)
  next_anchor_enabled : option anchor;  (* "li.pager__item--next:not(.is-disabled) a" *)
  archive_button : option string;       (* soup.select_one("a.button[href*='archive']") *)
  listing_table : option table;         (* "table.tableData, table.responsiveTable" *)
  ul_pager : option pager;              (* "ul.pager, ul.pager__items, ul.pagination" *)
  archive_listing : option string;      (* "a[href*='/archive/pay-related-matters/']" *)
  select : string -> list element       (* soup.select(selector), document order *)
}.

(** What is observable of a run, oldest first.  Of the console output the
    warnings (the lines the scrapers mark with a warning sign) are kept;
    banners and progress lines are not. *)

Inductive message :=
| NoArchive                            (* "No archive section found." *)
| HttpStatus (status : nat) (url : string)
| DownloadFailed (url : string) (e : exn)
| NoData                               (* "No data found, skipping CSV write" *)
| NoTable                              (* "No table found on this page" *)
| ContainerMissing.                    (* "Could not find a main content container ..." *)

Inductive event :=
| Nav (url : string)         (* driver.get(url) *)
| StopLoading                (* execute_script("return window.stop();") *)
| HttpGet (url : string)     (* requests.get(url) *)
| FileOpen (path : string)   (* open(path, "wb") *)
| CsvWrite (path : string)   (* df.to_csv(path) *)
| Print (m : message).

Inductive content :=
| Bytes (b : string)
| Sheet (columns : list string) (cells : list (list string)).

(** The answer of the browser to [driver.get]. *)
Record get_reply := {
  get_raises : option exn;            (* what driver.get raises, if anything *)
  stop_raises : option exn;           (* what window.stop() raises, if it is run *)
  ready_states : list (option string);(* document.readyState polls that fit the deadline;
                                         None when the script raises *)
  wait_raises : option exn;           (* what WebDriverWait(...).until raises *)
  lands_on : document                 (* what the session shows afterwards *)
}.

(** The answer of the server to [requests.get]: no response at all, or a status
    and a body that arrives in chunks and may break off. *)
Inductive http_reply :=
| NoResponse (e : exn)
| Response (status : nat) (chunks : list string) (complete : bool).

(** The environment answers from everything that happened before. *)
Record env := {
  browse : list event -> string -> get_reply;
  http : list event -> string -> http_reply;
  now : string                        (* datetime.now().strftime("%Y%m%d_%H%M%S") *)
}.

Record world := {
  shown : document;               (* the page the session shows *)
  rows : list Py.dict;            (* self.rows *)
  files : gmap string content;    (* regular files on disk *)
  trace : list event
}.

(** ** State and exceptions *)

Inductive outcome (A : Type) :=
| Return (a : A)
| Raise (e : exn)
| OutOfFuel.
Arguments Return {A} a.
Arguments Raise {A} e.
Arguments OutOfFuel {A}.

Definition M (A : Type) : Type := world -> outcome A * world.

Definition ret {A} (a : A) : M A := fun w => (Return a, w).

Definition bind {A B} (m : M A) (k : A -> M B) : M B :=
  fun w =>
    match m w with
    | (Return a, w') => k a w'
    | (Raise e, w') => (Raise e, w')
    | (OutOfFuel, w') => (OutOfFuel, w')
    end.

Notation "'let*' x ':=' m 'in' k" := (bind m (fun x => k))
  (at level 10, x name, m at level 100, k at level 200).
Notation "m ';;' k" := (bind m (fun _ => k))
  (at level 100, k at level 200, right associativity).

Definition raise {A} (e : exn) : M A := fun w => (Raise e, w).

Definition out_of_fuel {A} : M A := fun w => (OutOfFuel, w).

(** [try: m  except <caught>: handler] *)
Definition try_except {A} (m : M A) (caught : exn -> bool) (handler : exn -> M A) : M A :=
  fun w =>
    match m w with
    | (Raise e, w') => if caught e then handler e w' else (Raise e, w')
    | r => r
    end.

Definition any_exception (_ : exn) : bool := true.

(** [try: m  finally: cleanup]; the cleanup of a loop that is still running
    has not come yet. *)
Definition try_finally {A} (m : M A) (cleanup : M unit) : M A :=
  fun w =>
    match m w with
    | (OutOfFuel, w') => (OutOfFuel, w')
    | (r, w') =>
        match cleanup w' with
        | (Return _, w'') => (r, w'')
        | (Raise e, w'') => (Raise e, w'')
        | (OutOfFuel, w'') => (OutOfFuel, w'')
        end
    end.


Definition emit (e : event) : M unit :=
  fun w => (Return tt,
            {| shown := shown w; rows := rows w; files := files w;
               trace := trace w ++ [e] |}).

Definition print (m : message) : M unit := emit (Print m).

Definition get_world : M world := fun w => (Return w, w).

Definition set_shown (d : document) : M unit :=
  fun w => (Return tt,
            {| shown := d; rows := rows w; files := files w; trace := trace w |}).

Definition set_rows (rs : list Py.dict) : M unit :=
  fun w => (Return tt,
            {| shown := shown w; rows := rs; files := files w; trace := trace w |}).

Definition set_files (fs : gmap string content) : M unit :=
  fun w => (Return tt,
            {| shown := shown w; rows := rows w; files := fs; trace := trace w |}).

(** [self.rows.append(r)] *)
Definition append_row (r : Py.dict) : M unit :=
  fun w => set_rows (rows w ++ [r]) w.

(** [for x in xs: body x] *)
Fixpoint for_each {A} (xs : list A) (body : A -> M unit) : M unit :=
  match xs with
  | [] => ret tt
  | x :: xs' => body x ;; for_each xs' body
  end.

(** [n = 0; for x in xs: n += body x]: a loop that counts what its rounds
    report. *)
Fixpoint count_each {A} (xs : list A) (body : A -> M nat) : M nat :=
  match xs with
  | [] => ret 0
  | x :: xs' =>
      let* n := body x in
      let* m := count_each xs' body in
      ret (n + m)
  end.

(** Projections of the trace. *)
Definition navs (t : list event) : list string :=
  omap (fun e => match e with Nav u => Some u | _ => None end) t.

Definition http_gets (t : list event) : list string :=
  omap (fun e => match e with HttpGet u => Some u | _ => None end) t.

(** ** The browser session, the HTTP client and the disk *)

Section Collaborators.
Context (E : env).

(** [self.driver.get(url)] with the reply [r] of the browser *)
Definition driver_get (r : get_reply) (url : string) : M unit :=
  emit (Nav url) ;;
  set_shown (lands_on r) ;;
  match get_raises r with
  | Some e => raise e
  | None => ret tt
  end.

(** [self.driver.execute_script("return window.stop();")] *)
Definition window_stop (r : get_reply) : M unit :=
  emit StopLoading ;;
  match stop_raises r with
  | Some e => raise e
  | None => ret tt
  end.

(** [self.driver.quit()] leaves nothing the properties below look at. *)
Definition driver_quit : M unit := ret tt.

(** [requests.get(url, timeout=...)]: the whole body is read before the call
    returns, so a body that breaks off makes the call itself raise. *)
Definition requests_get (url : string) : M (nat * string) :=
  let* w := get_world in
  emit (HttpGet url) ;;
  match http E (trace w) url with
  | NoResponse e => raise e
  | Response status chunks complete =>
      if complete then ret (status, String.concat "" chunks)
      else raise RequestException
  end.

(** [requests.get(url, timeout=..., stream=True)]: returns once the status
    line and headers are in; the body is read later by [iter_content]. *)
Definition requests_get_stream (url : string) : M (nat * list string * bool) :=
  let* w := get_world in
  emit (HttpGet url) ;;
  match http E (trace w) url with
  | NoResponse e => raise e
  | Response status chunks complete => ret (status, chunks, complete)
  end.

(** [resp.raise_for_status()] *)
Definition raise_for_status (status : nat) : M unit :=
  if (400 <=? status)%nat && (status <? 600)%nat then raise RequestException else ret tt.
#[global] Arguments raise_for_status : simpl never.

End Collaborators.

(** The asset directory exists from the import of each scraper
    ([os.makedirs(PDF_DIR, exist_ok=True)]), so these paths exist without
    being regular files. *)
Definition is_asset_dir (p : string) : bool :=
  bool_decide (p ∈ ["pdfs/"; "pdfs/."; "pdfs/.."]).

Definition on_disk (w : world) (p : string) : bool :=
  is_asset_dir p || bool_decide (is_Some (files w !! p)).

(** [os.path.exists(p)] *)
Definition path_exists (p : string) : M bool :=
  fun w => (Return (on_disk w p), w).

(** [open(p, "wb")]: the file is created, or cut to nothing, at once. *)
Definition open_wb (p : string) : M unit :=
  if is_asset_dir p then raise OSError
  else emit (FileOpen p) ;; (fun w => set_files (<[p := Bytes ""]> (files w)) w).

(** [f.write(data)] on a file opened by [open_wb] *)
Definition file_write (p data : string) : M unit :=
  fun w =>
    match files w !! p with
    | Some (Bytes b) => set_files (<[p := Bytes (b +:+ data)]> (files w)) w
    | _ => set_files (<[p := Bytes data]> (files w)) w
    end.

(** ** Data frames *)

Record frame := {
  columns : list string;
  cells : list (list (option string))   (* None is NaN *)
}.

Definition add_key (seen : list string) (k : string) : list string :=
  if bool_decide (k ∈ seen) then seen else seen ++ [k].

(** The columns of [pd.DataFrame(rows)]: every key, by first appearance. *)
Definition union_keys (rs : list Py.dict) : list string :=
  foldl (fun seen r => foldl add_key seen (Py.keys r)) [] rs.

(** [pd.DataFrame(rows, columns=cols)] *)
Definition DataFrame_columns (rs : list Py.dict) (cols : list string) : frame :=
  {| columns := cols; cells := map (fun r => map (Py.get r) cols) rs |}.

(** [pd.DataFrame(rows)] *)
Definition DataFrame (rs : list Py.dict) : frame :=
  DataFrame_columns rs (union_keys rs).

(** [if col not in df.columns: df[col] = ""] *)
Definition ensure_column (df : frame) (col : string) : frame :=
  if bool_decide (col ∈ columns df) then df
  else {| columns := columns df ++ [col];
          cells := map (fun row => row ++ [Some ""]) (cells df) |}.

Fixpoint index_of (col : string) (cols : list string) : option nat :=
  match cols with
  | [] => None
  | c :: cols' => if String.eqb col c then Some 0 else S <$> index_of col cols'
  end.

(** [df.reindex(columns=cols)]: the named columns in the given order; a column
    the frame does not have is all NaN. *)
Definition reindex (df : frame) (cols : list string) : frame :=
  {| columns := cols;
     cells := map (fun row =>
                     map (fun c => match index_of c (columns df) with
                                   | Some i => mjoin (row !! i)
                                   | None => None
                                   end) cols)
                  (cells df) |}.

(** [df.to_csv(path, index=False)]: a header row and one row per record, NaN
    written as the empty string. *)
Definition to_csv (df : frame) (path : string) : M unit :=
  emit (CsvWrite path) ;;
  (fun w => set_files (<[path := Sheet (columns df)
                                    (map (map (default "")) (cells df))]> (files w)) w).

(** ** PageFetcher: the two shapes of [safe_get] *)

Section SafeGet.
Context (E : env).

(** rec_scraper.py, grants_scraper.py, rti_scraper.py, manuals_scraper.py,
    summary_scraper.py, annualrep_scraper.py:
<<
    try:
        self.driver.get(url)
    except TimeoutException:
        self.driver.execute_script("return window.stop();")
    time.sleep(1.2)
>> *)
Definition safe_get_short (url : string) : M unit :=
  let* w := get_world in
  let r := browse E (trace w) url in
  try_except (driver_get r url) is_timeout (fun _ => window_stop r).

Definition ready (state : string) : bool :=
  bool_decide (state ∈ ["interactive"; "complete"]).

(** The polling loop of the long [safe_get]; it runs until the deadline, which
    here is the end of the list of polls that fit before it. *)
Fixpoint wait_ready (polls : list (option string)) : M unit :=
  match polls with
  | [] => ret tt
  | p :: rest =>
      let* stop :=
        try_except
          (match p with
           | Some state => ret (ready state)
           | None => raise WebDriverException
           end)
          any_exception (fun _ => ret false) in
      if stop then ret tt else wait_ready rest
  end.

(** [WebDriverWait(self.driver, ...).until(EC.any_of(...))] *)
Definition wait_until (r : get_reply) : M unit :=
  match wait_raises r with
  | Some e => raise e
  | None => ret tt
  end.

(** ocac_scraper.py, pfd_scraper.py, fcd_scraper.py, ajnifm_scraper.py,
    auto_scraper.py, proc_scraper.py: the stop script is guarded, then the
    ready state is polled, then some content is awaited. *)
Definition safe_get_long (url : string) : M unit :=
  let* w := get_world in
  let r := browse E (trace w) url in
  try_except (driver_get r url) is_timeout
    (fun _ => try_except (window_stop r) any_exception (fun _ => ret tt)) ;;
  wait_ready (ready_states r) ;;
  try_except (wait_until r) is_timeout (fun _ => ret tt).

End SafeGet.

(** ** rec_scraper.py (RecruitmentRulesScraper) *)

Module Rec.

Definition BASE_URL : string := "https://doe.gov.in".
Definition PAGE_PATH : string := "/recruitment-rules".
Definition OUT_DIR : string := "output".
Definition PDF_DIR : string := "pdfs".

Definition META_FIELDS : list string :=
  ["section_type"; "section_name"; "element_type";
   "title"; "content"; "url"; "pdf_url"; "local_pdf_path"].

Definition default_headers : list string := ["Sr.No"; "Title"; "Date"; "Download"].

Section Scraper.
Context (E : env) (urljoin : string -> string -> string).

Definition safe_get : string -> M unit := safe_get_short E.

(** [headers = [...]; if not headers: headers = [...]] *)
Definition headers_of (t : table) : list string :=
  match thead_th t with
  | [] => default_headers
  | hs => hs
  end.

(** [row_data.get("Title") or (cells[1] if len(cells) > 1 else "Untitled")] *)
Definition title_of (row_data : Py.dict) (cells : list string) : string :=
  match Py.get row_data "Title" with
  | Some t =>
      if Py.truthy t then t
      else match cells with
           | _ :: c1 :: _ => c1
           | _ => "Untitled"
           end
  | None =>
      match cells with
      | _ :: c1 :: _ => c1
      | _ => "Untitled"
      end
  end.

(** The body of the loop over [table.select("tbody tr")]; [None] is [continue]. *)
Definition row_of (headers : list string) (section_name page_url : string) (r : tr)
  : option Py.dict :=
  let cells := td_text r in
  match cells with
  | [] => None
  | _ =>
      let row_data := Py.dict_zip headers cells in
      let title := title_of row_data cells in
      let pdf_url := match pdf_href r with
                     | Some h => urljoin BASE_URL h
                     | None => ""
                     end in
      let content_repr :=
        Py.join " | " (map (fun h => h +:+ ": " +:+ Py.get_or row_data h "") headers) in
      Some [("section_type", "Table");
            ("section_name", section_name);
            ("element_type", "Row");
            ("title", title);
            ("content", content_repr);
            ("url", page_url);
            ("pdf_url", pdf_url);
            ("local_pdf_path", "")]
  end.

Definition extract_table (soup : document) (section_name page_url : string) : M unit :=
  match first_table soup with
  | None => ret tt
  | Some t =>
      let headers := headers_of t in
      for_each (tbody_tr t)
        (fun r => match row_of headers section_name page_url r with
                  | Some d => append_row d
                  | None => ret tt
                  end)
  end.

(** The [try] block at the end of the loop body: [true] to go round again,
    [false] for [break]. *)
Definition follow_next (soup : document) : M bool :=
  try_except
    (match next_anchor soup with
     | None => raise WebDriverException
     | Some next_btn =>
         match a_class next_btn with
         | None => raise TypeError
         | Some cls =>
             if Py.contains "is-disabled" cls then ret false
             else match a_href next_btn with
                  | Some next_href =>
                      if Py.truthy next_href then safe_get next_href ;; ret true
                      else ret false
                  | None => ret false
                  end
         end
     end)
    any_exception (fun _ => ret false).

(** [while True:] of [handle_pagination], with the set [visited] it keeps. *)
Fixpoint pagination_loop (fuel : nat) (section_name : string) (visited : gset string)
  : M unit :=
  match fuel with
  | O => out_of_fuel
  | S fuel' =>
      let* w := get_world in
      let current := current_url (shown w) in
      if bool_decide (current ∈ visited) then ret tt
      else
        let visited := {[current]} ∪ visited in
        extract_table (shown w) section_name current ;;
        let* again := follow_next (shown w) in
        if again then pagination_loop fuel' section_name visited else ret tt
  end.

Definition handle_pagination (fuel : nat) (section_name start_url : string) : M unit :=
  pagination_loop fuel section_name ∅.

Definition scrape_main_and_archive (fuel : nat) : M unit :=
  let main_url := urljoin BASE_URL PAGE_PATH in
  safe_get main_url ;;
  handle_pagination fuel "Main Section" main_url ;;
  let* w := get_world in
  match archive_button (shown w) with
  | Some href =>
      let archive_url := urljoin BASE_URL href in
      safe_get archive_url ;;
      handle_pagination fuel "Archive Section" archive_url
  | None => print NoArchive
  end.

(** [filename = os.path.basename(pdf_url.split("?")[0])] and
    [local_path = os.path.join(PDF_DIR, filename)] *)
Definition filename_of (pdf_url : string) : string :=
  Py.basename (Py.split_head "?" pdf_url).

Definition local_path_of (pdf_url : string) : string :=
  Py.path_join PDF_DIR (filename_of pdf_url).

(** [pdf_url and pdf_url.lower().endswith(".pdf")] *)
Definition looks_like_pdf (pdf_url : string) : bool :=
  Py.truthy pdf_url && Py.endswith (Py.lower pdf_url) ".pdf".

(** The body of [for row in self.rows:] in [download_pdfs]; it returns the
    row as the loop leaves it. *)
Definition download_row (row : Py.dict) : M Py.dict :=
  match Py.get row "pdf_url" with
  | None => raise KeyError
  | Some pdf_url =>
      if looks_like_pdf pdf_url then
        let local_path := local_path_of pdf_url in
        let* there := path_exists local_path in
        if negb there then
          try_except
            (let* r := requests_get E pdf_url in
             if (fst r =? 200)%nat then
               open_wb local_path ;;
               file_write local_path (snd r) ;;
               ret (Py.set row "local_pdf_path" local_path)
             else
               print (HttpStatus (fst r) pdf_url) ;;
               ret row)
            any_exception
            (fun e => print (DownloadFailed pdf_url e) ;; ret row)
        else ret (Py.set row "local_pdf_path" local_path)
      else ret row
  end.

(** [self.rows[i]] is replaced by what the loop body made of it. *)
Definition update_row (i : nat) (row : Py.dict) : M unit :=
  fun w => set_rows (<[i := row]> (rows w)) w.

Definition download_pdfs : M unit :=
  let* w0 := get_world in
  for_each (seq 0 (length (rows w0)))
    (fun i =>
       let* w := get_world in
       match rows w !! i with
       | Some row => let* row' := download_row row in update_row i row'
       | None => ret tt
       end).

Definition save_csv : M unit :=
  let* w := get_world in
  let df := DataFrame_columns (rows w) META_FIELDS in
  let out_path := Py.path_join OUT_DIR ("recruitment_rules_" +:+ now E +:+ ".csv") in
  to_csv df out_path.

Definition run (fuel : nat) : M unit :=
  try_finally
    (scrape_main_and_archive fuel ;;
     download_pdfs ;;
     save_csv)
    driver_quit.

End Scraper.
End Rec.

(** ** grants_scraper.py (DetailedDemandsScraper)

    annualrep_scraper.py has the same [handle_pagination] and the same table
    extractor under the name [extract_table_rows]. *)

Module Grants.

Definition BASE_URL : string := "https://doe.gov.in".
Definition PAGE_PATH : string := "/detailed-demands-for-grants".

Section Scraper.
Context (E : env) (urljoin : string -> string -> string).

Definition safe_get : string -> M unit := safe_get_short E.

Definition row_of (section_name page_url : string) (r : tr) : option Py.dict :=
  let tds := td_text r in
  match tds with
  | [] => None
  | _ =>
      let title := match tds with
                   | _ :: t1 :: _ => t1
                   | _ => "Untitled"
                   end in
      let pdf_url := match pdf_href r with
                     | Some h => urljoin BASE_URL h
                     | None => ""
                     end in
      Some [("section_type", "Table");
            ("section_name", section_name);
            ("element_type", "Row");
            ("title", title);
            ("content", Py.join " | " tds);
            ("url", page_url);
            ("pdf_url", pdf_url);
            ("local_pdf_path", "")]
  end.

Definition extract_table (soup : document) (section_name page_url : string) : M unit :=
  match first_table soup with
  | None => ret tt
  | Some t =>
      for_each (tbody_tr t)
        (fun r => match row_of section_name page_url r with
                  | Some d => append_row d
                  | None => ret tt
                  end)
  end.

(** [while True:] of [handle_pagination]; no set of visited pages is kept.
    [find_element] failing leaves [next_btn] at [None]; an anchor without an
    href makes [driver.get(None)] raise. *)
Fixpoint pagination_loop (fuel : nat) (section_name page_url : string) : M unit :=
  match fuel with
  | O => out_of_fuel
  | S fuel' =>
      let* w := get_world in
      extract_table (shown w) section_name page_url ;;
      match next_anchor_enabled (shown w) with
      | None => ret tt
      | Some next_btn =>
          match a_href next_btn with
          | None => raise WebDriverException
          | Some next_href =>
              safe_get next_href ;;
              pagination_loop fuel' section_name next_href
          end
      end
  end.

Definition handle_pagination (fuel : nat) (section_name start_url : string) : M unit :=
  pagination_loop fuel section_name start_url.

End Scraper.
End Grants.

(** ** rti_scraper.py (RTIInformationScraper): the table extractor *)

Module Rti.

Definition BASE_URL : string := "https://doe.gov.in".

Definition default_headers : list string :=
  ["Sr.No"; "Title"; "Date"; "Download"; "Hyperlink"].

Section Scraper.
Context (urljoin : string -> string -> string).

Definition headers_of (t : table) : list string :=
  match thead_th t with
  | [] => default_headers
  | hs => hs
  end.

Definition row_of (headers : list string) (section_name page_url : string) (r : tr)
  : option Py.dict :=
  let cells := td_text r in
  match cells with
  | [] => None
  | _ =>
      let row_data := Py.dict_zip headers cells in
      let title := Rec.title_of row_data cells in
      let pdf_url := match pdf_href r with
                     | Some h => urljoin BASE_URL h
                     | None => ""
                     end in
      let hyperlink := default "" (http_href r) in
      let structured_content :=
        Py.join " | " (map (fun h => h +:+ ": " +:+ Py.get_or row_data h "") headers) in
      let structured_content :=
        if Py.truthy hyperlink
        then structured_content +:+ " | Hyperlink: " +:+ hyperlink
        else structured_content in
      Some [("section_type", "Table");
            ("section_name", section_name);
            ("element_type", "Row");
            ("title", title);
            ("content", structured_content);
            ("url", page_url);
            ("pdf_url", pdf_url);
            ("local_pdf_path", "")]
  end.

Definition extract_table (soup : document) (section_name page_url : string) : M unit :=
  match first_table soup with
  | None => ret tt
  | Some t =>
      let headers := headers_of t in
      for_each (tbody_tr t)
        (fun r => match row_of headers section_name page_url r with
                  | Some d => append_row d
                  | None => ret tt
                  end)
  end.

End Scraper.

(** The rest of the page pass of rti_scraper.py: the paragraphs above the
    table, the pagination loop (that of rec_scraper.py, around the extractor
    above) and [scrape_main_page]. *)

Definition PAGE_PATH : string := "/rti-information-department-of-expenditure".

(** One block of [main_container.select("div.InnerPageWrap, div.node__content,
    div.view-header, div.field--name-body")]. *)
Record intro_block := {
  holds_table : bool;        (* block.find("table") finds one *)
  block_pars : list string   (* p.get_text(" ", strip=True) of each element of
                                block.find_all(["p", "li"], recursive=True) *)
}.

Section Page.
Context (E : env) (urljoin : string -> string -> string).
(** [soup.select_one("div.region.region-content")], and the blocks selected
    under it, in document order. *)
Context (intro_blocks : document -> option (list intro_block)).

Definition safe_get : string -> M unit := safe_get_short E.

(** The body of [for p in block.find_all(...)] *)
Definition add_paragraph (page_url text : string) : M unit :=
  if Py.truthy text && (3 <? Py.word_count text)%nat then
    let* w := get_world in
    append_row [("section_type", "Introduction");
                ("section_name", "RTI Act Overview");
                ("element_type", "Paragraph");
                ("title", "Intro Paragraph " +:+ pretty (length (rows w) + 1));
                ("content", text);
                ("url", page_url);
                ("pdf_url", "");
                ("local_pdf_path", "")]
  else ret tt.

(** [for block in ...:] with its [break] at the first block that holds a
    table *)
Fixpoint blocks_loop (blocks : list intro_block) (page_url : string) : M unit :=
  match blocks with
  | [] => ret tt
  | block :: rest =>
      if holds_table block then ret tt
      else for_each (block_pars block) (add_paragraph page_url) ;;
           blocks_loop rest page_url
  end.

Definition extract_main_paragraphs (soup : document) (page_url : string) : M unit :=
  match intro_blocks soup with
  | None => ret tt
  | Some blocks => blocks_loop blocks page_url
  end.

Fixpoint pagination_loop (fuel : nat) (section_name : string) (visited : gset string)
  : M unit :=
  match fuel with
  | O => out_of_fuel
  | S fuel' =>
      let* w := get_world in
      let current := current_url (shown w) in
      if bool_decide (current ∈ visited) then ret tt
      else
        let visited := {[current]} ∪ visited in
        extract_table urljoin (shown w) section_name current ;;
        let* again := Rec.follow_next E (shown w) in
        if again then pagination_loop fuel' section_name visited else ret tt
  end.

Definition handle_pagination (fuel : nat) (section_name start_url : string) : M unit :=
  pagination_loop fuel section_name ∅.

Definition scrape_main_page (fuel : nat) : M unit :=
  let main_url := urljoin BASE_URL PAGE_PATH in
  safe_get main_url ;;
  let* w := get_world in
  let soup := shown w in
  extract_main_paragraphs soup main_url ;;
  handle_pagination fuel "RTI Table Section" main_url.

End Page.
End Rti.

(** ** manuals_scraper.py (ManualsScraper): the download pass *)

Module Manuals.

Definition PDF_DIR : string := "pdfs".

Section Scraper.
Context (E : env).

Definition download_row (r : Py.dict) : M Py.dict :=
  match Py.get r "pdf_url" with
  | None => raise KeyError
  | Some pdf_url =>
      if Py.endswith (Py.lower pdf_url) ".pdf" then
        let fn := Py.basename (Py.split_head "?" pdf_url) in
        let lp := Py.path_join PDF_DIR fn in
        let* there := path_exists lp in
        if negb there then
          try_except
            (let* res := requests_get E pdf_url in
             if (fst res =? 200)%nat then
               open_wb lp ;;
               file_write lp (snd res) ;;
               ret (Py.set r "local_pdf_path" lp)
             else
               print (HttpStatus (fst res) pdf_url) ;;
               ret r)
            any_exception
            (fun e => print (DownloadFailed pdf_url e) ;; ret r)
        else ret (Py.set r "local_pdf_path" lp)
      else ret r
  end.

Definition download_pdfs : M unit :=
  let* w0 := get_world in
  for_each (seq 0 (length (rows w0)))
    (fun i =>
       let* w := get_world in
       match rows w !! i with
       | Some r => let* r' := download_row r in Rec.update_row i r'
       | None => ret tt
       end).

End Scraper.

(** The rest of manuals_scraper.py.  Its [extract_table] and its
    [handle_pagination] are those of rec_scraper.py statement by statement,
    and its [save_csv] differs from that one in the name of the file. *)

Definition BASE_URL : string := "https://doe.gov.in".
Definition PAGE_PATH : string := "/manuals".
Definition OUT_DIR : string := "output".

Definition META_FIELDS : list string :=
  ["section_type"; "section_name"; "element_type";
   "title"; "content"; "url"; "pdf_url"; "local_pdf_path"].

Section Run.
Context (E : env) (urljoin : string -> string -> string).
(** [self.driver.find_element(By.LINK_TEXT, "Archive Manuals")] on the page
    the session shows, and the [href] of the link found; [None] when the page
    has no such link and the driver raises. *)
Context (archive_manuals : document -> option (option string)).

Definition safe_get : string -> M unit := safe_get_short E.

Definition extract_table : document -> string -> string -> M unit :=
  Rec.extract_table urljoin.

Definition handle_pagination : nat -> string -> string -> M unit :=
  Rec.handle_pagination E urljoin.

Definition scrape_section (fuel : nat) (section_url section_name : string) : M unit :=
  safe_get section_url ;;
  handle_pagination fuel section_name section_url.

Definition save_csv : M unit :=
  let* w := get_world in
  let df := DataFrame_columns (rows w) META_FIELDS in
  let out := Py.path_join OUT_DIR ("manuals_" +:+ now E +:+ ".csv") in
  to_csv df out.

Definition run (fuel : nat) : M unit :=
  try_finally
    (let main := urljoin BASE_URL PAGE_PATH in
     scrape_section fuel main "Active Manuals" ;;
     try_except
       (let* w := get_world in
        match archive_manuals (shown w) with
        | None => raise WebDriverException
        | Some archive_link =>
            if Py.truthy_opt archive_link
            then scrape_section fuel (default "" archive_link) "Archived Manuals"
            else ret tt
        end)
       any_exception
       (fun _ => print NoArchive) ;;
     download_pdfs E ;;
     save_csv)
    driver_quit.

End Run.
End Manuals.

(** ** auto_scraper.py (AutonomousBodiesPayRelatedScraper) *)

Module Auto.

Definition BASE_URL : string := "https://doe.gov.in".
Definition MAIN_PATH : string := "/pay-related-matters/88".
Definition OUT_DIR : string := "output".
Definition PDF_DIR : string := "pdfs".

(** [re.sub(r"[^\w\-]+", "_", text.strip())], then
    [re.sub(r"_+", "_", text).strip("_")], then [text or "file"] *)
Definition slugify (text : string) : string :=
  let text := Py.sub_runs Py.is_word_or_hyphen false (Py.strip text) in
  let text := Py.strip_by (Ascii.eqb "_")
                (Py.sub_runs (fun c => negb (Ascii.eqb c "_")) false text) in
  if Py.truthy text then text else "file".

Section Scraper.
Context (E : env) (urljoin : string -> string -> string).

Definition safe_get : string -> M unit := safe_get_long E.

(** [slug_memo = self.slugify(memo_no or "memo")],
    [filename = f"autonomous_bodies_{listing_type}_{slug_memo}.pdf"] and
    [local_path = os.path.join(PDF_DIR, filename)] *)
Definition filename_of (memo_no listing_type : string) : string :=
  let slug_memo := slugify (if Py.truthy memo_no then memo_no else "memo") in
  "autonomous_bodies_" +:+ listing_type +:+ "_" +:+ slug_memo +:+ ".pdf".

Definition local_path_of (memo_no listing_type : string) : string :=
  Py.path_join PDF_DIR (filename_of memo_no listing_type).

Definition download_pdf (pdf_url memo_no listing_type : string) : M string :=
  if negb (Py.truthy pdf_url) then ret ""
  else
    let local_path := local_path_of memo_no listing_type in
    let* there := path_exists local_path in
    if there then ret local_path
    else
      try_except
        (let* resp := requests_get E pdf_url in
         raise_for_status (fst resp) ;;
         open_wb local_path ;;
         file_write local_path (snd resp) ;;
         ret local_path)
        any_exception
        (fun e => print (DownloadFailed pdf_url e) ;; ret "").

(** The body of [for tr in body_rows:] *)
Definition parse_row (headers : list string) (page_url listing_type : string) (r : tr)
  : M unit :=
  match td_text r with
  | sr_no :: memo_no :: subject :: date_text :: dl_cell_text :: _ =>
      let pdf_url := match dl_link r with
                     | Some (href, _) => urljoin BASE_URL href
                     | None => ""
                     end in
      let dl_text := match dl_link r with
                     | Some (_, t) => t
                     | None => ""
                     end in
      let size_text :=
        if Py.truthy dl_text then Py.strip (Py.replace dl_cell_text dl_text "")
        else dl_cell_text in
      let* local_pdf := download_pdf pdf_url memo_no listing_type in
      append_row [("section_type", "Pay Related Matters");
                  ("section_name", "Autonomous Bodies");
                  ("listing_type", listing_type);
                  ("element_type", "Row");
                  ("sr_no", sr_no);
                  ("office_memorandum_no", memo_no);
                  ("subject", subject);
                  ("date", date_text);
                  ("download_text", dl_text);
                  ("file_size", size_text);
                  ("pdf_url", pdf_url);
                  ("local_pdf_path", local_pdf);
                  ("page_url", page_url);
                  ("headers_snapshot", Py.join " | " headers)]
  | _ => ret tt
  end.

Definition parse_table (soup : document) (page_url listing_type : string) : M unit :=
  match listing_table soup with
  | None => print NoTable
  | Some t =>
      let headers := thead_th t in
      for_each (tbody_tr t) (parse_row headers page_url listing_type)
  end.

(** [while True:] of [paginate_listing] *)
Fixpoint listing_loop (fuel : nat) (listing_type : string) (visited : gset string)
    (current : string) : M unit :=
  match fuel with
  | O => out_of_fuel
  | S fuel' =>
      if bool_decide (current ∈ visited) then ret tt
      else
        let visited := {[current]} ∪ visited in
        safe_get current ;;
        let* w := get_world in
        let soup := shown w in
        parse_table soup current listing_type ;;
        match ul_pager soup with
        | None => ret tt
        | Some pg =>
            match next_link pg with
            | None => ret tt
            | Some href =>
                if Py.truthy_opt href then
                  let next_url := urljoin BASE_URL (default "" href) in
                  if bool_decide (next_url ∈ visited) then ret tt
                  else listing_loop fuel' listing_type visited next_url
                else ret tt
            end
        end
  end.

Definition paginate_listing (fuel : nat) (start_url listing_type : string) : M unit :=
  listing_loop fuel listing_type ∅ start_url.

Definition run (fuel : nat) : M unit :=
  try_finally
    (let main_url := urljoin BASE_URL MAIN_PATH in
     safe_get main_url ;;
     let* w := get_world in
     let archive_url := urljoin BASE_URL <$> archive_listing (shown w) in
     paginate_listing fuel main_url "Active" ;;
     match archive_url with
     | Some u => paginate_listing fuel u "Archive"
     | None => print NoArchive
     end ;;
     let* w := get_world in
     match rows w with
     | [] => print NoData
     | rs =>
         let df := DataFrame rs in
         let out_path :=
           Py.path_join OUT_DIR ("autonomous_bodies_pay_related_" +:+ now E +:+ ".csv") in
         to_csv df out_path
     end)
    driver_quit.

End Scraper.
End Auto.

(** ** proc_scraper.py (ProcurementPolicyOMScraper): the downloader *)

Module Proc.

Definition PDF_DIR : string := "pdfs".

Section Scraper.
(** [urlparse(url).path] is urllib's. *)
Context (E : env) (urlparse_path : string -> string).

(** [for chunk in resp.iter_content(chunk_size=8192): if chunk: f.write(chunk)]
    on a body that arrives as [chunks] and then ends or breaks off *)
Fixpoint write_chunks (p : string) (chunks : list string) (complete : bool) : M unit :=
  match chunks with
  | [] => if complete then ret tt else raise RequestException
  | chunk :: rest =>
      (if Py.truthy chunk then file_write p chunk else ret tt) ;;
      write_chunks p rest complete
  end.

(** The name and the path the downloader computes before it looks at the
    disk: the basename of the URL's path (or "document.pdf"), given the
    extension if it lacks it, behind the cleaned prefix if there is one. *)
Definition base_name_of (url prefix : string) : string :=
  let base_name := Py.basename (urlparse_path url) in
  let base_name := if Py.truthy base_name then base_name else "document.pdf" in
  let base_name :=
    if Py.endswith (Py.lower base_name) ".pdf" then base_name
    else base_name +:+ ".pdf" in
  if Py.truthy prefix then
    Py.sub_runs Py.is_safe_char false (Py.strip prefix) +:+ "_" +:+ base_name
  else base_name.

Definition local_path_of (url prefix : string) : string :=
  Py.path_join PDF_DIR (base_name_of url prefix).

Definition download_pdf (url prefix : string) : M string :=
  try_except
    (let local_path := local_path_of url prefix in
     let* there := path_exists local_path in
     if there then ret local_path
     else
       let* resp := requests_get_stream E url in
       let '(status, chunks, complete) := resp in
       raise_for_status status ;;
       open_wb local_path ;;
       write_chunks local_path chunks complete ;;
       ret local_path)
    any_exception
    (fun e => print (DownloadFailed url e) ;; ret "").

End Scraper.

(** The rest of proc_scraper.py: the parser of one page, the loop over the
    pages of a section, the sink and the runner. *)

Definition BASE_URL : string := "https://doe.gov.in".
Definition SECTION_NAME : string := "Procurement Policy/O.M".
Definition OUT_DIR : string := "output".

(** One [span.file] of a download cell, or the cell itself in its place. *)
Record file_span := {
  span_link : option (string * string); (* fspan.find("a", href=True): a["href"] and
                                           a.get_text(" ", strip=True) *)
  span_text : string                    (* fspan.get_text(" ", strip=True) *)
}.

Record om_row := {
  om_cells : list string;          (* td.get_text(" ", strip=True) of each td *)
  om_file_spans : list file_span;  (* tds[4].select("span.file") *)
  om_download_td : file_span       (* tds[4], looked at the way a span is *)
}.

(** The table the page parser finds, with [table.find("tbody")] and the
    [tr] elements under it. *)
Record om_table := {
  om_tbody : option (list om_row)
}.

(** The columns [save_csv] orders the sheet by; they are the keys of the
    record literal, in its order. *)
Definition cols : list string :=
  ["section_type"; "section_name"; "sr_no"; "office_memorandum_no"; "title"; "date";
   "pdf_label"; "pdf_size"; "pdf_url"; "local_pdf_path"; "page_url"].

Section Pages.
Context (E : env) (urljoin : string -> string -> string) (urlparse_path : string -> string).
(** [soup.select_one("table.responsiveTable.tableData")
     or soup.select_one("table.tableData")] on the soup of a page *)
Context (table_of : document -> option om_table).

Definition safe_get : string -> M unit := safe_get_long E.

(** [size_match.group(1).strip() if size_match else ""] *)
Definition size_of (full_text : string) : string :=
  match Py.bracketed full_text with
  | Some g => Py.strip g
  | None => ""
  end.

(** The body of [for fspan in file_spans:]; it reports what it adds to
    [processed_rows]. *)
Definition parse_span (section_type page_url sr_no office_mem_no title date_text : string)
    (fspan : file_span) : M nat :=
  match span_link fspan with
  | None => ret 0
  | Some (a_href, a_text) =>
      let href := urljoin BASE_URL (Py.strip a_href) in
      let label := if Py.truthy a_text then a_text else "Download" in
      let size_text := size_of (span_text fspan) in
      let prefix := section_type +:+ "_sr" +:+ sr_no in
      let* local_path := download_pdf E urlparse_path href prefix in
      append_row [("section_type", section_type);
                  ("section_name", SECTION_NAME);
                  ("sr_no", sr_no);
                  ("office_memorandum_no", office_mem_no);
                  ("title", title);
                  ("date", date_text);
                  ("pdf_label", label);
                  ("pdf_size", size_text);
                  ("pdf_url", href);
                  ("local_pdf_path", local_path);
                  ("page_url", page_url)] ;;
      ret 1
  end.

(** The body of [for tr in tbody.find_all("tr"):] *)
Definition parse_row (section_type page_url : string) (r : om_row) : M nat :=
  match om_cells r with
  | sr_no :: office_mem_no :: title :: date_text :: _ :: _ =>
      let file_spans := match om_file_spans r with
                        | [] => [om_download_td r]
                        | spans => spans
                        end in
      count_each file_spans
        (parse_span section_type page_url sr_no office_mem_no title date_text)
  | _ => ret 0
  end.

Definition parse_table_page (soup : document) (page_url section_type : string) : M nat :=
  match table_of soup with
  | None => print NoTable ;; ret 0
  | Some table =>
      match om_tbody table with
      | None => ret 0
      | Some trs => count_each trs (parse_row section_type page_url)
      end
  end.

(** The URL of a page of a section: the path, and from the second page on
    the path with [?page=N]. *)
Definition page_url_of (path : string) (page_index : nat) : string :=
  if (page_index =? 0)%nat then urljoin BASE_URL path
  else urljoin BASE_URL (path +:+ "?page=" +:+ pretty page_index).

(** [while True:] of [scrape_section], from the page [page_index] on.  The
    warning for a first page without data is recorded as [NoData]. *)
Fixpoint section_loop (fuel : nat) (path section_type : string) (page_index : nat)
  : M unit :=
  match fuel with
  | O => out_of_fuel
  | S fuel' =>
      let url := page_url_of path page_index in
      safe_get url ;;
      let* w := get_world in
      let soup := shown w in
      let* rows_on_page := parse_table_page soup url section_type in
      if (rows_on_page =? 0)%nat then
        if (page_index =? 0)%nat then print NoData else ret tt
      else section_loop fuel' path section_type (S page_index)
  end.

Definition scrape_section (fuel : nat) (path section_type : string) : M unit :=
  section_loop fuel path section_type 0.

Definition save_csv : M unit :=
  let* w := get_world in
  match rows w with
  | [] => print NoData
  | _ =>
      let df := DataFrame (rows w) in
      let df := foldl ensure_column df cols in
      let df := reindex df cols in
      let out_path := Py.path_join OUT_DIR ("procurement_policy_om_" +:+ now E +:+ ".csv") in
      to_csv df out_path
  end.

Definition run (fuel : nat) : M unit :=
  try_finally
    (scrape_section fuel "/orders-circulars/459" "Current" ;;
     scrape_section fuel "/archive/orders-circulars/459" "Archive" ;;
     save_csv)
    driver_quit.

End Pages.
End Proc.

(** ** ocac_scraper.py (OfficeChiefAdviserCostScraper)

    pfd_scraper.py, fcd_scraper.py and ajnifm_scraper.py have the same [save];
    their [self.table_headers] is set to the empty list in [__init__] and
    never assigned again. *)

Module Ocac.

Definition OUT_DIR : string := "output".

Definition META_FIELDS : list string :=
  ["section_type"; "section_name"; "element_type"; "title"; "content";
   "url"; "image_url"; "pdf_url"; "local_image_path"; "local_pdf_path"].

Definition meta_left : list string :=
  ["section_type"; "section_name"; "element_type"; "title"; "content"].

Definition meta_right : list string :=
  ["url"; "image_url"; "pdf_url"; "local_image_path"; "local_pdf_path"].

Definition table_headers : list string := [].

Definition selectors : list string :=
  ["div.node__content";
   "article.node div.node__content";
   "div.text-content.clearfix.field.field--name-body";
   "div.field--name-body";
   "div.region.region--content"].

(** The three variables the search keeps: [best], [best_len], [best_sel]. *)
Record best := {
  best_elem : option element;
  best_len : nat;
  best_sel : option string
}.

(** The body of the inner loop of [find_main_content] *)
Definition consider (sel : string) (b : best) (cand : element) : best :=
  let text := text cand in
  if Py.truthy text && (best_len b <? String.length text)%nat
  then {| best_elem := Some cand; best_len := String.length text; best_sel := Some sel |}
  else b.

Definition search (soup : document) : best :=
  foldl (fun b sel => foldl (consider sel) b (select soup sel))
        {| best_elem := None; best_len := 0; best_sel := None |}
        selectors.

Definition find_main_content (soup : document) : M (option element) :=
  let b := search soup in
  match best_elem b with
  | Some _ => ret tt
  | None => print ContainerMissing
  end ;;
  ret (best_elem b).

Section Scraper.
Context (E : env).

Definition safe_get : string -> M unit := safe_get_long E.

(** [for r in self.rows: for f in META_FIELDS: r.setdefault(f, "")] *)
Definition fill_meta (r : Py.dict) : Py.dict :=
  foldl (fun r f => Py.setdefault r f "") r META_FIELDS.

Definition save : M unit :=
  let* w := get_world in
  match rows w with
  | [] => print NoData
  | _ =>
      set_rows (map fill_meta (rows w)) ;;
      let final_cols := meta_left ++ table_headers ++ meta_right in
      let* w := get_world in
      let df := DataFrame (rows w) in
      let df := foldl ensure_column df final_cols in
      let df := reindex df final_cols in
      let out_path :=
        Py.path_join OUT_DIR ("office_chief_adviser_cost_" +:+ now E +:+ ".csv") in
      to_csv df out_path
  end.

End Scraper.
End Ocac.

(** ** Test doubles

    Pages, replies and environments for the concrete runs below. *)

(** urllib's [urljoin] on the two kinds of reference the examples use: an
    absolute URL is kept, a path from the root is put after the origin. *)
Definition urljoin_doe (base href : string) : string :=
  if String.prefix "http" href then href else base +:+ href.

Definition blank (url : string) : document :=
  {| current_url := url; first_table := None; next_anchor := None;
     next_anchor_enabled := None; archive_button := None; listing_table := None;
     ul_pager := None; archive_listing := None; select := fun _ => [] |}.

Definition loaded (d : document) : get_reply :=
  {| get_raises := None; stop_raises := None; ready_states := [Some "complete"];
     wait_raises := None; lands_on := d |}.

Definition fresh : world :=
  {| shown := blank "about:blank"; rows := []; files := ∅; trace := [] |}.

(** A browser that cannot reach the site: [driver.get] raises a
    [WebDriverException] (net::ERR_NAME_NOT_RESOLVED and the like). *)
Definition unreachable : env :=
  {| browse := fun _ _ =>
       {| get_raises := Some WebDriverException; stop_raises := None;
          ready_states := []; wait_raises := None;
          lands_on := blank "chrome-error://chromewebdata/" |};
     http := fun _ _ => NoResponse RequestException;
     now := "20240101_000000" |}.

(** A listing whose pager always offers the same page again. *)
Definition again_url : string := "https://doe.gov.in/listing?page=1".

Definition again_page : document :=
  {| current_url := again_url;
     first_table := Some {| thead_th := []; tbody_tr := [] |};
     next_anchor := Some {| a_class := Some "pager__link"; a_href := Some again_url |};
     next_anchor_enabled := Some {| a_class := Some "pager__link"; a_href := Some again_url |};
     archive_button := None;
     listing_table := Some {| thead_th := []; tbody_tr := [] |};
     ul_pager := Some {| next_link := Some (Some again_url) |};
     archive_listing := None;
     select := fun _ => [] |}.

Definition again_site : env :=
  {| browse := fun _ _ => loaded again_page;
     http := fun _ _ => NoResponse RequestException;
     now := "20240101_000000" |}.

Definition on_again_page : world :=
  {| shown := again_page; rows := []; files := ∅; trace := [Nav again_url] |}.

(** A two-page listing of auto_scraper.py, one memorandum with a file on each
    page, and a server that delivers every file. *)
Definition listing_url : string := "https://doe.gov.in/pay-related-matters/88".

Definition listing_page_1 : document :=
  {| current_url := listing_url;
     first_table := None; next_anchor := None; next_anchor_enabled := None;
     archive_button := None;
     listing_table :=
       Some {| thead_th := ["Sr. No."; "O.M. No."; "Subject"; "Date"; "Download"];
               tbody_tr :=
                 [{| td_text := ["1"; "OM-1/2024"; "Pay revision"; "01-02-2024";
                                 "Download (120 KB)"];
                     pdf_href := Some "/files/om1.pdf"; http_href := None;
                     dl_link := Some ("/files/om1.pdf", "Download") |}] |};
     ul_pager := Some {| next_link := Some (Some "/pay-related-matters/88?page=1") |};
     archive_listing := None;
     select := fun _ => [] |}.

Definition listing_page_2 : document :=
  {| current_url := "https://doe.gov.in/pay-related-matters/88?page=1";
     first_table := None; next_anchor := None; next_anchor_enabled := None;
     archive_button := None;
     listing_table :=
       Some {| thead_th := ["Sr. No."; "O.M. No."; "Subject"; "Date"; "Download"];
               tbody_tr :=
                 [{| td_text := ["2"; "OM-2/2024"; "Allowances"; "05-03-2024";
                                 "Download (80 KB)"];
                     pdf_href := Some "/files/om2.pdf"; http_href := None;
                     dl_link := Some ("/files/om2.pdf", "Download") |}] |};
     ul_pager := None;
     archive_listing := None;
     select := fun _ => [] |}.

Definition listing_site : env :=
  {| browse := fun _ url =>
       if String.eqb url listing_url then loaded listing_page_1 else loaded listing_page_2;
     http := fun _ _ => Response 200 ["%PDF-1.4"] true;
     now := "20240101_000000" |}.

(** Servers: one that delivers every file, one that has none of them, and one
    whose connection breaks after the first part of the body. *)
Definition serves_all : env :=
  {| browse := fun _ url => loaded (blank url);
     http := fun _ _ => Response 200 ["%PDF-1.4 "; "rules"] true;
     now := "20240101_000000" |}.

Definition serves_none : env :=
  {| browse := fun _ url => loaded (blank url);
     http := fun _ _ => Response 404 ["Not Found"] true;
     now := "20240101_000000" |}.

Definition breaks_off : env :=
  {| browse := fun _ url => loaded (blank url);
     http := fun _ _ => Response 200 ["%PDF-1.4 "] false;
     now := "20240101_000000" |}.

Definition rules_url : string := "https://doe.gov.in/files/rules.pdf".

(** A row as [extract_table] of rec_scraper.py makes it. *)
Definition table_row (title pdf_url : string) : Py.dict :=
  [("section_type", "Table"); ("section_name", "Main Section");
   ("element_type", "Row"); ("title", title); ("content", "Title: " +:+ title);
   ("url", "https://doe.gov.in/recruitment-rules"); ("pdf_url", pdf_url);
   ("local_pdf_path", "")].

(** Two reports under different directories, the second with a query string;
    a server whose body names the URL it was asked for; and one where the
    first report is missing. *)
Definition report_2023 : string := "https://doe.gov.in/sites/2023/report.pdf".
Definition report_2024 : string :=
  "https://doe.gov.in/sites/2024/report.pdf?download=report.pdf".

Definition echo_server : env :=
  {| browse := fun _ url => loaded (blank url);
     http := fun _ url => Response 200 [url] true;
     now := "20240101_000000" |}.

Definition first_missing : env :=
  {| browse := fun _ url => loaded (blank url);
     http := fun _ url => if String.eqb url report_2023
                          then Response 404 ["Not Found"] true
                          else Response 200 [url] true;
     now := "20240101_000000" |}.

Definition two_reports : world :=
  {| shown := blank "https://doe.gov.in/recruitment-rules";
     rows := [table_row "Report 2023" report_2023; table_row "Report 2024" report_2024];
     files := ∅; trace := [] |}.

(** [urlparse(url).path] on the URLs of the examples: what follows the origin
    https://doe.gov.in, up to the query string. *)
Definition url_path_doe (url : string) : string :=
  Py.split_head "?" (String.substring 18 (String.length url - 18) url).

(** Two collected records of unlike shape: the first has every field of the
    common schema, the second lacks some and carries one of its own. *)
Definition mixed_rows : world :=
  {| shown := blank "https://doe.gov.in/office-chief-adviser-cost";
     rows :=
       [[("section_type", "Page Title"); ("section_name", "Main Heading");
         ("element_type", "H1 Title"); ("title", "Office of Chief Adviser Cost");
         ("content", "Office of Chief Adviser Cost");
         ("url", "https://doe.gov.in/office-chief-adviser-cost");
         ("image_url", ""); ("pdf_url", ""); ("local_image_path", "");
         ("local_pdf_path", "")];
        [("section_type", "Divisions"); ("title", "Paragraph 1");
         ("content", "The office advises on cost matters.");
         ("listing_type", "Active")]];
     files := ∅; trace := [] |}.

(** Pages for the search of the main content container. *)
Definition filler (n : nat) : string :=
  String.string_of_list_ascii (replicate n "x"%char).

Definition with_containers (sel : string -> list element) : document :=
  {| current_url := "https://doe.gov.in/office-chief-adviser-cost";
     first_table := None; next_anchor := None; next_anchor_enabled := None;
     archive_button := None; listing_table := None; ul_pager := None;
     archive_listing := None; select := sel |}.

(** A short block under the first selector and a long one under the fourth. *)
Definition short_and_long : document :=
  with_containers (fun sel =>
    if String.eqb sel "div.node__content" then [{| node := 1; text := filler 50 |}]
    else if String.eqb sel "div.field--name-body" then [{| node := 2; text := filler 500 |}]
    else []).

(** Two blocks of the same length under different selectors, and an empty one. *)
Definition equal_lengths : document :=
  with_containers (fun sel =>
    if String.eqb sel "div.node__content"
    then [{| node := 1; text := "" |}; {| node := 2; text := filler 80 |}]
    else if String.eqb sel "div.region.region--content"
    then [{| node := 3; text := filler 80 |}]
    else []).





(** The recruitment rules on two pages: two rows on the first, of which the
    first links a file, and one row on the second, whose next control is
    disabled. *)
Definition rules_page_1 : document :=
  {| current_url := "https://doe.gov.in/recruitment-rules";
     first_table :=
       Some {| thead_th := [];
               tbody_tr :=
                 [{| td_text := ["1"; "Rules A"; "2020"; "Download"];
                     pdf_href := Some "/files/a.pdf"; http_href := None;
                     dl_link := None |};
                  {| td_text := ["2"; "Rules B"; "2021"; ""];
                     pdf_href := None; http_href := None; dl_link := None |}] |};
     next_anchor :=
       Some {| a_class := Some "pager__link";
               a_href := Some "https://doe.gov.in/recruitment-rules?page=1" |};
     next_anchor_enabled :=
       Some {| a_class := Some "pager__link";
               a_href := Some "https://doe.gov.in/recruitment-rules?page=1" |};
     archive_button := None; listing_table := None; ul_pager := None;
     archive_listing := None; select := fun _ => [] |}.

Definition rules_page_2 : document :=
  {| current_url := "https://doe.gov.in/recruitment-rules?page=1";
     first_table :=
       Some {| thead_th := [];
               tbody_tr :=
                 [{| td_text := ["3"; "Rules C"];
                     pdf_href := None; http_href := None; dl_link := None |}] |};
     next_anchor :=
       Some {| a_class := Some "pager__link is-disabled";
               a_href := Some "https://doe.gov.in/recruitment-rules?page=2" |};
     next_anchor_enabled := None;
     archive_button := None; listing_table := None; ul_pager := None;
     archive_listing := None; select := fun _ => [] |}.

Definition rules_site : env :=
  {| browse := fun _ url =>
       if String.eqb url "https://doe.gov.in/recruitment-rules"
       then loaded rules_page_1 else loaded rules_page_2;
     http := fun _ _ => Response 200 ["%PDF-1.4 "; "rules"] true;
     now := "20240101_000000" |}.

(** The manuals: one page with one manual and a link to the archive, and an
    archive the browser cannot load. *)
Definition manuals_url : string := "https://doe.gov.in/manuals".

Definition manuals_page : document :=
  {| current_url := manuals_url;
     first_table :=
       Some {| thead_th := ["Sr.No"; "Title"; "Date"; "Download"];
               tbody_tr :=
                 [{| td_text := ["1"; "Manual on Procurement"; "2022"; "Download"];
                     pdf_href := Some "/files/manual.pdf"; http_href := None;
                     dl_link := None |}] |};
     next_anchor := None; next_anchor_enabled := None;
     archive_button := None; listing_table := None; ul_pager := None;
     archive_listing := None; select := fun _ => [] |}.

Definition manuals_site : env :=
  {| browse := fun _ url =>
       if String.eqb url manuals_url then loaded manuals_page
       else {| get_raises := Some WebDriverException; stop_raises := None;
               ready_states := []; wait_raises := None;
               lands_on := blank "chrome-error://chromewebdata/" |};
     http := fun _ _ => Response 200 ["%PDF-1.4 "; "manual"] true;
     now := "20240101_000000" |}.

(** The link with the text Archive Manuals: on the page of the manuals, and
    nowhere else. *)
Definition manuals_archive_link (d : document) : option (option string) :=
  if String.eqb (current_url d) manuals_url
  then Some (Some "https://doe.gov.in/archive/manuals")
  else None.

(** The orders and circulars of proc_scraper.py: one memorandum with one file.
    [orders_first_page] is the table of a section that has it on its first
    page and nothing after; [orders_every_page] is that of a site that takes
    no notice of [?page=N] and serves the same table for every page. *)
Definition orders_row : Proc.om_row :=
  {| Proc.om_cells := ["1"; "F.1/2024-PPD"; "Procurement of goods"; "01-04-2024";
                       "Download (559.58 KB)"];
     Proc.om_file_spans :=
       [{| Proc.span_link := Some ("/files/om.pdf", "Download");
           Proc.span_text := "Download (559.58 KB)" |}];
     Proc.om_download_td :=
       {| Proc.span_link := Some ("/files/om.pdf", "Download");
          Proc.span_text := "Download (559.58 KB)" |} |}.

Definition orders_first_page (d : document) : option Proc.om_table :=
  if String.eqb (current_url d) "https://doe.gov.in/orders-circulars/459"
  then Some {| Proc.om_tbody := Some [orders_row] |}
  else Some {| Proc.om_tbody := Some [] |}.

Definition orders_every_page (d : document) : option Proc.om_table :=
  Some {| Proc.om_tbody := Some [orders_row] |}.

(** The page of rti_scraper.py: two blocks of text above the block with the
    table, and what stands in them. *)
Definition rti_intro (d : document) : option (list Rti.intro_block) :=
  Some [{| Rti.holds_table := false;
           Rti.block_pars := ["The Right to Information Act came into force in 2005.";
                              "Home"; ""] |};
        {| Rti.holds_table := false;
           Rti.block_pars := ["Every public authority appoints an information officer."] |};
        {| Rti.holds_table := true;
           Rti.block_pars := ["Applications are listed in the table below this text."] |};
        {| Rti.holds_table := false;
           Rti.block_pars := ["This block comes after the table and is never read."] |}].

(** * Properties *)

(** ** Tools *)

Ltac unfold_monad :=
  unfold bind, ret, raise, out_of_fuel, try_except, try_finally, emit, print,
    get_world, set_shown, set_rows, set_files, append_row, any_exception in *.

Ltac run_monad := unfold_monad; simpl.

Lemma world_eta (w : world) :
  {| shown := shown w; rows := rows w; files := files w; trace := trace w |} = w.
Proof. by destruct w. Qed.

Lemma navs_app (t1 t2 : list event) : navs (t1 ++ t2) = navs t1 ++ navs t2.
Proof. unfold navs. apply omap_app. Qed.

Lemma http_gets_app (t1 t2 : list event) :
  http_gets (t1 ++ t2) = http_gets t1 ++ http_gets t2.
Proof. unfold http_gets. apply omap_app. Qed.

Lemma lookup_map {A B} (f : A -> B) (l : list A) (i : nat) :
  map f l !! i = f <$> l !! i.
Proof. apply (list_lookup_fmap f l i). Qed.



Lemma for_each_append_rows {A} (f : A -> option Py.dict) (xs : list A) (w : world) :
  for_each xs (fun x => match f x with Some d => append_row d | None => ret tt end) w
  = (Return tt, {| shown := shown w; rows := rows w ++ omap f xs;
                   files := files w; trace := trace w |}).
Proof.
  revert w. induction xs as [|x xs IH]; intros w; simpl.
  - rewrite app_nil_r, world_eta. reflexivity.
  - unfold bind at 1. destruct (f x) as [d|]; run_monad.
    + rewrite IH. simpl. by rewrite <- app_assoc.
    + rewrite IH. reflexivity.
Qed.

(** ** What a computation adds to the trace *)

Definition emits {A} (P : event -> Prop) (m : M A) : Prop :=
  ∀ w, ∃ t, trace (snd (m w)) = trace w ++ t ∧ Forall P t.

Lemma emits_silent {A} (P : event -> Prop) (m : M A) :
  (∀ w, trace (snd (m w)) = trace w) → emits P m.
Proof. intros H w. exists []. rewrite H, app_nil_r. by split. Qed.

Lemma emits_ret {A} (P : event -> Prop) (a : A) : emits P (ret a).
Proof. by apply emits_silent. Qed.

Lemma emits_raise {A} (P : event -> Prop) (e : exn) : emits P (@raise A e).
Proof. by apply emits_silent. Qed.

Lemma emits_out_of_fuel {A} (P : event -> Prop) : emits P (@out_of_fuel A).
Proof. by apply emits_silent. Qed.

Lemma emits_emit (P : event -> Prop) (e : event) : P e → emits P (emit e).
Proof. intros H w. exists [e]. split; [reflexivity | by constructor]. Qed.

Lemma emits_bind {A B} (P : event -> Prop) (m : M A) (k : A -> M B) :
  emits P m → (∀ a, emits P (k a)) → emits P (bind m k).
Proof.
  intros Hm Hk w. unfold bind. destruct (Hm w) as (t & Ht & HP).
  destruct (m w) as [[a|e|] w1]; simpl in *.
  - destruct (Hk a w1) as (t' & Ht' & HP'). exists (t ++ t').
    rewrite Ht', Ht, app_assoc. split; [done | by apply Forall_app].
  - by exists t.
  - by exists t.
Qed.

Lemma emits_try_except {A} (P : event -> Prop) (m : M A) caught handler :
  emits P m → (∀ e, emits P (handler e)) → emits P (try_except m caught handler).
Proof.
  intros Hm Hh w. unfold try_except. destruct (Hm w) as (t & Ht & HP).
  destruct (m w) as [[a|e|] w1]; simpl in *; [by exists t| |by exists t].
  destruct (caught e); [|by exists t].
  destruct (Hh e w1) as (t' & Ht' & HP'). exists (t ++ t').
  rewrite Ht', Ht, app_assoc. split; [done | by apply Forall_app].
Qed.

Lemma emits_try_finally {A} (P : event -> Prop) (m : M A) cleanup :
  emits P m → emits P cleanup → emits P (try_finally m cleanup).
Proof.
  intros Hm Hc w. unfold try_finally. destruct (Hm w) as (t & Ht & HP).
  destruct (m w) as [[a|e|] w1]; simpl in *; [| |by exists t].
  all: destruct (Hc w1) as (t' & Ht' & HP');
    destruct (cleanup w1) as [[[]|e'|] w2]; simpl in *;
    exists (t ++ t'); rewrite Ht', Ht, app_assoc; (split; [done | by apply Forall_app]).
Qed.

Lemma emits_for_each {A} (P : event -> Prop) (xs : list A) (body : A -> M unit) :
  (∀ x, emits P (body x)) → emits P (for_each xs body).
Proof.
  intros Hb. induction xs as [|x xs IH]; simpl.
  - apply emits_ret.
  - apply emits_bind; [apply Hb | intros _; apply IH].
Qed.

Lemma emits_weaken {A} (P Q : event -> Prop) (m : M A) :
  (∀ e, P e → Q e) → emits P m → emits Q m.
Proof.
  intros HPQ Hm w. destruct (Hm w) as (t & Ht & HP). exists t. split; [done|].
  eapply Forall_impl; eauto.
Qed.

Create HintDb emits.
#[local] Hint Resolve emits_ret emits_raise emits_out_of_fuel emits_emit emits_bind
  emits_try_except emits_try_finally emits_for_each : emits.

(** Two computations in a row: the trace of the first, then of the second,
    and nothing of the second unless the first returned. *)
Lemma emits_then {A B} (P Q : event -> Prop) (m : M A) (k : M B) (w : world) :
  emits P m → emits Q k →
  ∃ t1 t2, trace (snd ((m ;; k) w)) = trace w ++ t1 ++ t2
           ∧ trace (snd (m w)) = trace w ++ t1
           ∧ Forall P t1 ∧ Forall Q t2
           ∧ ((∀ a, fst (m w) ≠ Return a) → t2 = []).
Proof.
  intros Hm Hk. unfold bind. destruct (Hm w) as (t1 & Ht1 & HP).
  destruct (m w) as [[a|e|] w1]; simpl in *.
  - destruct (Hk w1) as (t2 & Ht2 & HQ). exists t1, t2.
    rewrite Ht2, Ht1, app_assoc. repeat split; try done.
    intros Hno. by destruct (Hno a).
  - exists t1, []. rewrite app_nil_r. by repeat split.
  - exists t1, []. rewrite app_nil_r. by repeat split.
Qed.

(** The three kinds of event a run of rec_scraper.py leaves. *)
Definition browsing (e : event) : Prop :=
  match e with
  | Nav _ | StopLoading | Print NoArchive => True
  | _ => False
  end.

Definition downloading (e : event) : Prop :=
  match e with
  | HttpGet _ | FileOpen _ | Print (HttpStatus _ _) | Print (DownloadFailed _ _) => True
  | _ => False
  end.

Definition saving (e : event) : Prop :=
  match e with
  | CsvWrite _ => True
  | _ => False
  end.

(** Events other than the write of the CSV file, and events other than page
    loads. *)
Definition before_saving (e : event) : Prop :=
  match e with
  | CsvWrite _ => False
  | _ => True
  end.

Definition asset_event (e : event) : Prop :=
  match e with
  | HttpGet _ | FileOpen _ | Print _ => True
  | _ => False
  end.

Lemma navs_asset_events (t : list event) : Forall asset_event t → navs t = [].
Proof.
  induction 1 as [|e t He _ IH]; [reflexivity|].
  destruct e; simpl in *; try done.
Qed.

Lemma emits_append_rows {A} P (f : A -> option Py.dict) (xs : list A) :
  emits P (for_each xs (fun x => match f x with Some d => append_row d | None => ret tt end)).
Proof. apply emits_silent. intros w. by rewrite for_each_append_rows. Qed.

Lemma emits_path_exists P p : emits P (path_exists p).
Proof. by apply emits_silent. Qed.

Lemma emits_open_wb p : emits downloading (open_wb p).
Proof.
  unfold open_wb. destruct (is_asset_dir p); [apply emits_raise|].
  apply emits_bind; [by apply emits_emit | intros _]. by apply emits_silent.
Qed.

Lemma emits_file_write P p data : emits P (file_write p data).
Proof.
  apply emits_silent. intros w. unfold file_write.
  by destruct (files w !! p) as [[]|].
Qed.

Lemma emits_requests_get E url : emits downloading (requests_get E url).
Proof.
  unfold requests_get.
  apply emits_bind; [by apply emits_silent | intros w].
  apply emits_bind; [by apply emits_emit | intros _].
  destruct (http _ _ _) as [|? ? []]; auto with emits.
Qed.

Lemma emits_to_csv df path : emits saving (to_csv df path).
Proof.
  unfold to_csv. apply emits_bind; [by apply emits_emit | intros _].
  by apply emits_silent.
Qed.

(** A trace in two parts: what comes before the CSV file is written, and the
    write. *)
Definition saves_last {A} (m : M A) : Prop :=
  ∀ w, ∃ t t_sink, trace (snd (m w)) = trace w ++ t ++ t_sink
                   ∧ Forall before_saving t ∧ Forall saving t_sink.

Lemma saves_last_before {A} (m : M A) : emits before_saving m → saves_last m.
Proof.
  intros Hm w. destruct (Hm w) as (t & Ht & HP). exists t, [].
  rewrite app_nil_r. by repeat split.
Qed.

Lemma saves_last_saving {A} (m : M A) : emits saving m → saves_last m.
Proof.
  intros Hm w. destruct (Hm w) as (t & Ht & HP). exists [], t. by repeat split.
Qed.

Lemma saves_last_bind {A B} (m : M A) (k : A -> M B) :
  emits before_saving m → (∀ a, saves_last (k a)) → saves_last (bind m k).
Proof.
  intros Hm Hk w. unfold bind. destruct (Hm w) as (t & Ht & HP).
  destruct (m w) as [[a|e|] w1]; simpl in *.
  - destruct (Hk a w1) as (t1 & t2 & Ht' & HP1 & HP2). exists (t ++ t1), t2.
    rewrite Ht', Ht, <- !app_assoc. repeat split; [|done]. by apply Forall_app.
  - exists t, []. rewrite app_nil_r. by repeat split.
  - exists t, []. rewrite app_nil_r. by repeat split.
Qed.

(** ** PageFetcher *)

(** The readiness poll neither raises nor touches the world. *)
Lemma wait_ready_returns (polls : list (option string)) (w : world) :
  wait_ready polls w = (Return tt, w).
Proof.
  induction polls as [|p polls IH]; [reflexivity|].
  simpl. destruct p as [state|]; run_monad.
  - destruct (ready state); [reflexivity | apply IH].
  - apply IH.
Qed.

(** What escapes an [except TimeoutException] clause. *)
Definition past_timeout_handler (raised : option exn) : outcome unit :=
  match raised with
  | Some e => if is_timeout e then Return tt else Raise e
  | None => Return tt
  end.

(** The stop script is run after a timeout of [driver.get], and only then. *)
Definition stop_after (raised : option exn) : list event :=
  match raised with
  | Some e => if is_timeout e then [StopLoading] else []
  | None => []
  end.

(** C5, as the code has it.  [safe_get] swallows a navigation timeout: it
    runs [window.stop()] and goes on with the document the session then shows.
    Every other exception of [driver.get] reaches the caller.  In the short
    form an exception of the stop script reaches the caller too; in the long
    form it is swallowed, the readiness polls never raise, and of the final
    wait only a timeout is swallowed. *)
Theorem safe_get_swallows_timeouts_only (E : env) (url : string) (w : world) :
  let r := browse E (trace w) url in
  fst (safe_get_short E url w) =
    match get_raises r with
    | None => Return tt
    | Some e =>
        if is_timeout e
        then match stop_raises r with
             | None => Return tt
             | Some e' => Raise e'
             end
        else Raise e
    end
  ∧ fst (safe_get_long E url w) =
    match get_raises r with
    | None => past_timeout_handler (wait_raises r)
    | Some e => if is_timeout e then past_timeout_handler (wait_raises r) else Raise e
    end
  ∧ shown (snd (safe_get_short E url w)) = lands_on r
  ∧ shown (snd (safe_get_long E url w)) = lands_on r
  ∧ trace (snd (safe_get_short E url w)) = trace w ++ Nav url :: stop_after (get_raises r)
  ∧ trace (snd (safe_get_long E url w)) = trace w ++ Nav url :: stop_after (get_raises r).
Proof.
  intros r. subst r.
  unfold safe_get_short, safe_get_long, driver_get, window_stop, wait_until,
    past_timeout_handler, stop_after.
  run_monad.
  destruct (browse E (trace w) url) as [[[]|] [e1|] polls [[]|] d];
    simpl; rewrite ?wait_ready_returns; simpl;
    rewrite <- ?app_assoc; simpl; repeat split; done.
Qed.

(** C5 as stated fails: an error of [driver.get] that is not a timeout goes
    through both forms of [safe_get], and from the first page load it ends the
    run. *)
Lemma safe_get_lets_driver_errors_through :
  fst (Rec.safe_get unreachable "https://doe.gov.in/recruitment-rules" fresh)
    = Raise WebDriverException
  ∧ fst (Ocac.safe_get unreachable "https://doe.gov.in/office-chief-adviser-cost" fresh)
    = Raise WebDriverException
  ∧ fst (Rec.run unreachable urljoin_doe 5 fresh) = Raise WebDriverException.
Proof. repeat split; reflexivity. Qed.

Lemma emits_safe_get_short E url : emits browsing (safe_get_short E url).
Proof.
  unfold safe_get_short, driver_get, window_stop.
  apply emits_bind; [by apply emits_silent | intros w].
  apply emits_try_except.
  - apply emits_bind; [by apply emits_emit | intros _].
    apply emits_bind; [by apply emits_silent | intros _].
    destruct (get_raises _); auto with emits.
  - intros _. apply emits_bind; [by apply emits_emit | intros _].
    destruct (stop_raises _); auto with emits.
Qed.

Lemma emits_safe_get_long E url : emits before_saving (safe_get_long E url).
Proof.
  unfold safe_get_long, driver_get, window_stop, wait_until.
  apply emits_bind; [by apply emits_silent | intros w].
  apply emits_bind.
  { apply emits_try_except.
    - apply emits_bind; [by apply emits_emit | intros _].
      apply emits_bind; [by apply emits_silent | intros _].
      destruct (get_raises _); auto with emits.
    - intros _. apply emits_try_except; [|auto with emits].
      apply emits_bind; [by apply emits_emit | intros _].
      destruct (stop_raises _); auto with emits. }
  intros _. apply emits_bind.
  { apply emits_silent. intros w'. by rewrite wait_ready_returns. }
  intros _. apply emits_try_except; [|auto with emits].
  destruct (wait_raises _); auto with emits.
Qed.

Lemma safe_get_long_navs E url w :
  navs (trace (snd (safe_get_long E url w))) = navs (trace w) ++ [url].
Proof.
  unfold safe_get_long, driver_get, window_stop, wait_until. run_monad.
  destruct (browse E (trace w) url) as [[[]|] [e1|] polls [[]|] d];
    simpl; rewrite ?wait_ready_returns; simpl; rewrite ?navs_app; simpl;
    by rewrite ?app_nil_r.
Qed.

(** ** ContentExtractor: the main content container *)












(** The two cases of the specification on concrete pages: five hundred
    characters win over fifty, and of two equally long blocks the one under
    the earlier selector is kept. *)
Example longer_container_wins :
  fst (Ocac.find_main_content short_and_long fresh)
  = Return (Some {| node := 2; text := filler 500 |}).
Proof. vm_compute. reflexivity. Qed.

Example earlier_container_kept_on_tie :
  fst (Ocac.find_main_content equal_lengths fresh)
  = Return (Some {| node := 2; text := filler 80 |}).
Proof. vm_compute. reflexivity. Qed.

(** ** ContentExtractor: tables *)

(** The records [extract_table] adds for a page. *)
Definition table_rows (urljoin : string -> string -> string) (soup : document)
    (section_name page_url : string) : list Py.dict :=
  match first_table soup with
  | None => []
  | Some t => omap (Rec.row_of urljoin (Rec.headers_of t) section_name page_url) (tbody_tr t)
  end.

(** [extract_table] only appends rows: it never raises and leaves the
    session, the disk and the trace alone. *)
Lemma extract_table_appends urljoin soup section_name page_url w :
  Rec.extract_table urljoin soup section_name page_url w
  = (Return tt, {| shown := shown w;
                   rows := rows w ++ table_rows urljoin soup section_name page_url;
                   files := files w; trace := trace w |}).
Proof.
  unfold Rec.extract_table, table_rows. destruct (first_table soup) as [t|].
  - apply for_each_append_rows.
  - run_monad. by rewrite app_nil_r, world_eta.
Qed.

Lemma emits_rec_extract_table P urljoin soup section_name page_url :
  emits P (Rec.extract_table urljoin soup section_name page_url).
Proof. apply emits_silent. intros w. by rewrite extract_table_appends. Qed.







(** ** AssetDownloader *)

Lemma on_disk_false (w : world) (p : string) :
  on_disk w p = false → is_asset_dir p = false ∧ files w !! p = None.
Proof.
  unfold on_disk. intros [Hdir Hfile]%orb_false_elim. split; [done|].
  apply bool_decide_eq_false in Hfile. by apply eq_None_not_Some.
Qed.

Lemma on_disk_stored (w : world) (p : string) (c : content) sh rs t :
  on_disk {| shown := sh; rows := rs; files := <[p := c]> (files w); trace := t |} p = true.
Proof.
  unfold on_disk. simpl. rewrite lookup_insert_eq.
  rewrite (bool_decide_eq_true_2 _ (mk_is_Some _ _ eq_refl)). apply orb_true_r.
Qed.

(** The world after a file was fetched and written. *)
Definition stored (w : world) (p body : string) (events : list event) : world :=
  {| shown := shown w; rows := rows w; files := <[p := Bytes body]> (files w);
     trace := trace w ++ events |}.

(** The world after console output and requests that left the disk alone. *)
Definition logged (w : world) (events : list event) : world :=
  {| shown := shown w; rows := rows w; files := files w; trace := trace w ++ events |}.

Lemma raise_for_status_fails (status : nat) (w : world) :
  400 ≤ status < 600 → raise_for_status status w = (Raise RequestException, w).
Proof.
  intros [Hlo Hhi]. unfold raise_for_status.
  apply Nat.leb_le in Hlo. apply Nat.ltb_lt in Hhi. by rewrite Hlo, Hhi.
Qed.

(** The idempotent skip: a destination that exists is taken as it is. *)
Lemma rec_download_row_skips E row u w :
  Py.get row "pdf_url" = Some u →
  Rec.looks_like_pdf u = true →
  on_disk w (Rec.local_path_of u) = true →
  Rec.download_row E row w
  = (Return (Py.set row "local_pdf_path" (Rec.local_path_of u)), w).
Proof.
  intros Hurl Hpdf Hdisk. unfold Rec.download_row. rewrite Hurl, Hpdf.
  unfold path_exists. run_monad. by rewrite Hdisk.
Qed.

(** A first fetch that succeeds: one request, the body on disk, the path
    recorded. *)
Lemma rec_download_row_fetches E row u w chunks :
  Py.get row "pdf_url" = Some u →
  Rec.looks_like_pdf u = true →
  on_disk w (Rec.local_path_of u) = false →
  http E (trace w) u = Response 200 chunks true →
  Rec.download_row E row w
  = (Return (Py.set row "local_pdf_path" (Rec.local_path_of u)),
     stored w (Rec.local_path_of u) (String.concat "" chunks)
       [HttpGet u; FileOpen (Rec.local_path_of u)]).
Proof.
  intros Hurl Hpdf Hdisk Hhttp. destruct (on_disk_false _ _ Hdisk) as [Hdir Hnone].
  unfold Rec.download_row. rewrite Hurl, Hpdf.
  unfold path_exists, requests_get, open_wb, file_write. run_monad.
  rewrite Hdisk. simpl. rewrite Hhttp. simpl. rewrite Hdir. simpl.
  rewrite lookup_insert_eq, insert_insert_eq. simpl.
  unfold stored. by rewrite <- app_assoc.
Qed.

(** What rec_scraper.py takes for a failed fetch: no response, a body that
    breaks off, or a status other than 200. *)
Definition rec_fetch_fails (reply : http_reply) : Prop :=
  match reply with
  | NoResponse _ => True
  | Response status _ complete => status ≠ 200 ∨ complete = false
  end.

(** The notice rec_scraper.py prints for a failed fetch. *)
Definition rec_failure_notice (u : string) (reply : http_reply) : message :=
  match reply with
  | NoResponse e => DownloadFailed u e
  | Response status _ complete =>
      if complete then HttpStatus status u else DownloadFailed u RequestException
  end.

(** A failed fetch in rec_scraper.py: one request, one notice, the row and
    the disk as they were, and the loop goes on. *)
Lemma rec_download_row_failure E row u w :
  Py.get row "pdf_url" = Some u →
  Rec.looks_like_pdf u = true →
  on_disk w (Rec.local_path_of u) = false →
  rec_fetch_fails (http E (trace w) u) →
  Rec.download_row E row w
  = (Return row,
     logged w [HttpGet u; Print (rec_failure_notice u (http E (trace w) u))]).
Proof.
  intros Hurl Hpdf Hdisk Hfail.
  unfold Rec.download_row. rewrite Hurl, Hpdf.
  unfold path_exists, requests_get. run_monad. rewrite Hdisk. simpl.
  unfold logged.
  destruct (http E (trace w) u) as [e|status chunks [|]]; simpl in *.
  - by rewrite <- app_assoc.
  - destruct Hfail as [Hne|?]; [|done].
    destruct (Nat.eqb_spec status 200) as [->|_]; [done|].
    simpl. by rewrite <- app_assoc.
  - by rewrite <- app_assoc.
Qed.

(** manuals_scraper.py leaves out the test [pdf_url and ...] that
    rec_scraper.py makes first; the empty string does not end in ".pdf", so
    the two loop bodies are the same function. *)
Lemma manuals_download_row_is_rec E row w :
  Manuals.download_row E row w = Rec.download_row E row w.
Proof.
  unfold Manuals.download_row, Rec.download_row, Rec.looks_like_pdf.
  destruct (Py.get row "pdf_url") as [u|]; [|reflexivity].
  destruct u as [|c u]; reflexivity.
Qed.

Lemma auto_download_pdf_skips E u memo_no listing_type w :
  u ≠ "" →
  on_disk w (Auto.local_path_of memo_no listing_type) = true →
  Auto.download_pdf E u memo_no listing_type w
  = (Return (Auto.local_path_of memo_no listing_type), w).
Proof.
  intros Hu Hdisk. unfold Auto.download_pdf, Py.truthy.
  destruct (String.eqb_spec u ""); [done|].
  generalize dependent (Auto.local_path_of memo_no listing_type). intros lp Hdisk.
  unfold path_exists. run_monad. by rewrite Hdisk.
Qed.

Lemma auto_download_pdf_fetches E u memo_no listing_type w chunks :
  u ≠ "" →
  on_disk w (Auto.local_path_of memo_no listing_type) = false →
  http E (trace w) u = Response 200 chunks true →
  Auto.download_pdf E u memo_no listing_type w
  = (Return (Auto.local_path_of memo_no listing_type),
     stored w (Auto.local_path_of memo_no listing_type) (String.concat "" chunks)
       [HttpGet u; FileOpen (Auto.local_path_of memo_no listing_type)]).
Proof.
  intros Hu Hdisk Hhttp. destruct (on_disk_false _ _ Hdisk) as [Hdir Hnone].
  unfold Auto.download_pdf, Py.truthy.
  destruct (String.eqb_spec u ""); [done|].
  generalize dependent (Auto.local_path_of memo_no listing_type). intros lp Hdisk Hdir Hnone.
  unfold path_exists, requests_get, raise_for_status, open_wb, file_write. run_monad.
  rewrite Hdisk. simpl. rewrite Hhttp. simpl. rewrite Hdir. simpl.
  rewrite lookup_insert_eq, insert_insert_eq. simpl.
  unfold stored. by rewrite <- app_assoc.
Qed.

(** What auto_scraper.py takes for a failed fetch: no response, a body that
    breaks off, or a status from 400 to 599. *)
Definition auto_fetch_fails (reply : http_reply) : Prop :=
  match reply with
  | NoResponse _ => True
  | Response status _ complete => (400 ≤ status < 600) ∨ complete = false
  end.

Definition auto_failure (reply : http_reply) : exn :=
  match reply with
  | NoResponse e => e
  | Response _ _ _ => RequestException
  end.

(** A failed fetch in auto_scraper.py: one request, one notice, the empty
    path, and the disk as it was. *)
Lemma auto_download_pdf_failure E u memo_no listing_type w :
  u ≠ "" →
  on_disk w (Auto.local_path_of memo_no listing_type) = false →
  auto_fetch_fails (http E (trace w) u) →
  Auto.download_pdf E u memo_no listing_type w
  = (Return "",
     logged w [HttpGet u; Print (DownloadFailed u (auto_failure (http E (trace w) u)))]).
Proof.
  intros Hu Hdisk Hfail. unfold Auto.download_pdf, Py.truthy.
  destruct (String.eqb_spec u ""); [done|].
  generalize dependent (Auto.local_path_of memo_no listing_type). intros lp Hdisk.
  unfold path_exists, requests_get. run_monad.
  rewrite Hdisk. simpl. unfold logged.
  destruct (http E (trace w) u) as [e|status chunks [|]]; simpl in *.
  - by rewrite <- app_assoc.
  - destruct Hfail as [Hstatus|?]; [|done].
    rewrite raise_for_status_fails by done. simpl. by rewrite <- app_assoc.
  - by rewrite <- app_assoc.
Qed.

(** The downloader of auto_scraper.py always returns: whatever goes wrong
    inside is caught and turned into the empty path. *)
Lemma auto_download_pdf_returns E u memo_no listing_type w :
  ∃ p w', Auto.download_pdf E u memo_no listing_type w = (Return p, w').
Proof.
  unfold Auto.download_pdf. destruct (negb _); [by eexists _, _|].
  generalize (Auto.local_path_of memo_no listing_type). intros lp.
  unfold path_exists, requests_get, raise_for_status, open_wb, file_write.
  run_monad. destruct (on_disk w lp); simpl; [by eexists _, _|].
  destruct (http E (trace w) u) as [e|status chunks [|]]; simpl; try by eexists _, _.
  destruct (_ && _); simpl; [by eexists _, _|].
  destruct (is_asset_dir lp); simpl; [by eexists _, _|].
  rewrite lookup_insert_eq. simpl. by eexists _, _.
Qed.

Lemma looks_like_pdf_nonempty u : Rec.looks_like_pdf u = true → u ≠ "".
Proof. by intros H ->. Qed.

Lemma emits_rec_download_row E row : emits downloading (Rec.download_row E row).
Proof.
  unfold Rec.download_row. destruct (Py.get row "pdf_url") as [u|]; [|apply emits_raise].
  destruct (Rec.looks_like_pdf u); [|apply emits_ret].
  apply emits_bind; [apply emits_path_exists | intros there].
  destruct there; simpl; [apply emits_ret|].
  apply emits_try_except.
  - apply emits_bind; [apply emits_requests_get | intros r].
    destruct (_ =? _)%nat.
    + apply emits_bind; [apply emits_open_wb | intros _].
      apply emits_bind; [apply emits_file_write | intros _]. apply emits_ret.
    + apply emits_bind; [by apply emits_emit | intros _]. apply emits_ret.
  - intros e. apply emits_bind; [by apply emits_emit | intros _]. apply emits_ret.
Qed.

Lemma emits_rec_download_pdfs E : emits downloading (Rec.download_pdfs E).
Proof.
  unfold Rec.download_pdfs.
  apply emits_bind; [by apply emits_silent | intros w0].
  apply emits_for_each. intros i.
  apply emits_bind; [by apply emits_silent | intros w].
  destruct (rows w !! i); [|apply emits_ret].
  apply emits_bind; [apply emits_rec_download_row | intros row'].
  by apply emits_silent.
Qed.

Lemma emits_auto_download_pdf E u memo_no listing_type :
  emits asset_event (Auto.download_pdf E u memo_no listing_type).
Proof.
  unfold Auto.download_pdf. destruct (negb _); [apply emits_ret|].
  apply emits_bind; [apply emits_path_exists | intros there].
  destruct there; [apply emits_ret|].
  apply emits_try_except.
  - apply emits_bind.
    { unfold requests_get.
      apply emits_bind; [by apply emits_silent | intros w].
      apply emits_bind; [by apply emits_emit | intros _].
      destruct (http _ _ _) as [|? ? []]; auto with emits. }
    intros resp. apply emits_bind.
    { unfold raise_for_status. destruct (_ && _); auto with emits. }
    intros _. apply emits_bind.
    { unfold open_wb. destruct (is_asset_dir _); [apply emits_raise|].
      apply emits_bind; [by apply emits_emit | intros _]. by apply emits_silent. }
    intros _. apply emits_bind; [apply emits_file_write | intros _]. apply emits_ret.
  - intros e. apply emits_bind; [by apply emits_emit | intros _]. apply emits_ret.
Qed.

(** A call whose destination is not on disk asks the server once, whatever
    the answer turns out to be. *)
Lemma rec_download_row_requests E row u w :
  Py.get row "pdf_url" = Some u →
  Rec.looks_like_pdf u = true →
  on_disk w (Rec.local_path_of u) = false →
  http_gets (trace (snd (Rec.download_row E row w))) = http_gets (trace w) ++ [u].
Proof.
  intros Hurl Hpdf Hdisk.
  destruct (http E (trace w) u) as [e|status chunks complete] eqn:Hhttp.
  - rewrite (rec_download_row_failure E row u w) by (done || by rewrite Hhttp).
    simpl. by rewrite http_gets_app.
  - destruct complete; [destruct (decide (status = 200)) as [->|Hne]|].
    + rewrite (rec_download_row_fetches E row u w chunks) by done.
      simpl. by rewrite http_gets_app.
    + rewrite (rec_download_row_failure E row u w) by (done || (rewrite Hhttp; by left)).
      simpl. by rewrite http_gets_app.
    + rewrite (rec_download_row_failure E row u w) by (done || (rewrite Hhttp; by right)).
      simpl. by rewrite http_gets_app.
Qed.

Lemma raise_for_status_cases (status : nat) (w : world) :
  raise_for_status status w = (Raise RequestException, w)
  ∨ raise_for_status status w = (Return tt, w).
Proof.
  unfold raise_for_status. destruct (_ && _); [by left | by right].
Qed.

Lemma auto_download_pdf_requests E u memo_no listing_type w :
  u ≠ "" →
  on_disk w (Auto.local_path_of memo_no listing_type) = false →
  http_gets (trace (snd (Auto.download_pdf E u memo_no listing_type w)))
  = http_gets (trace w) ++ [u].
Proof.
  intros Hu Hdisk. destruct (on_disk_false _ _ Hdisk) as [Hdir Hnone].
  unfold Auto.download_pdf, Py.truthy.
  destruct (String.eqb_spec u ""); [done|].
  generalize dependent (Auto.local_path_of memo_no listing_type). intros lp Hdisk Hdir Hnone.
  unfold path_exists, requests_get, open_wb, file_write. run_monad.
  rewrite Hdisk. simpl.
  destruct (http E (trace w) u) as [e|status chunks [|]]; simpl.
  - rewrite !http_gets_app; simpl; by rewrite ?app_nil_r, <- ?app_assoc.
  - match goal with |- context [raise_for_status status ?w1] =>
      destruct (raise_for_status_cases status w1) as [-> | ->] end; simpl.
    + rewrite !http_gets_app; simpl; by rewrite ?app_nil_r, <- ?app_assoc.
    + rewrite Hdir. simpl. rewrite lookup_insert_eq. simpl. rewrite !http_gets_app; simpl; by rewrite ?app_nil_r, <- ?app_assoc.
  - rewrite !http_gets_app; simpl; by rewrite ?app_nil_r, <- ?app_assoc.
Qed.

(** C2, as the code has it.  The downloaders are idempotent by destination
    path, not by URL.  Take two calls that compute the same destination, for
    the same URL or for two different ones, when the destination is not on
    disk.  If the first request is answered with status 200 and a whole body,
    the first call makes that one request, writes the body and hands back the
    path; the second finds the file, makes no request, changes nothing and
    hands back the same path.  If the first request fails, the first call
    leaves no file, and the second call makes a request of its own.  In
    rec_scraper.py the destination is the basename of the URL before its
    query string; in auto_scraper.py it is made of the listing type and the
    memorandum number, and the URL plays no part in it. *)
Theorem second_download_makes_no_request (E : env) (w : world) :
  (∀ (row1 row2 : Py.dict) (u1 u2 : string) (chunks : list string),
     Py.get row1 "pdf_url" = Some u1 →
     Py.get row2 "pdf_url" = Some u2 →
     Rec.looks_like_pdf u1 = true →
     Rec.looks_like_pdf u2 = true →
     Rec.local_path_of u2 = Rec.local_path_of u1 →
     on_disk w (Rec.local_path_of u1) = false →
     http E (trace w) u1 = Response 200 chunks true →
     let first := Rec.download_row E row1 w in
     let second := Rec.download_row E row2 (snd first) in
     fst first = Return (Py.set row1 "local_pdf_path" (Rec.local_path_of u1))
     ∧ http_gets (trace (snd first)) = http_gets (trace w) ++ [u1]
     ∧ files (snd first) !! Rec.local_path_of u1 = Some (Bytes (String.concat "" chunks))
     ∧ second = (Return (Py.set row2 "local_pdf_path" (Rec.local_path_of u1)), snd first))
  ∧ (∀ (u1 memo1 type1 u2 memo2 type2 : string) (chunks : list string),
       u1 ≠ "" →
       u2 ≠ "" →
       Auto.local_path_of memo2 type2 = Auto.local_path_of memo1 type1 →
       on_disk w (Auto.local_path_of memo1 type1) = false →
       http E (trace w) u1 = Response 200 chunks true →
       let first := Auto.download_pdf E u1 memo1 type1 w in
       let second := Auto.download_pdf E u2 memo2 type2 (snd first) in
       fst first = Return (Auto.local_path_of memo1 type1)
       ∧ http_gets (trace (snd first)) = http_gets (trace w) ++ [u1]
       ∧ files (snd first) !! Auto.local_path_of memo1 type1
         = Some (Bytes (String.concat "" chunks))
       ∧ second = (Return (Auto.local_path_of memo1 type1), snd first))
  ∧ (∀ (row1 row2 : Py.dict) (u1 u2 : string),
       Py.get row1 "pdf_url" = Some u1 →
       Py.get row2 "pdf_url" = Some u2 →
       Rec.looks_like_pdf u1 = true →
       Rec.looks_like_pdf u2 = true →
       Rec.local_path_of u2 = Rec.local_path_of u1 →
       on_disk w (Rec.local_path_of u1) = false →
       rec_fetch_fails (http E (trace w) u1) →
       let first := Rec.download_row E row1 w in
       let second := Rec.download_row E row2 (snd first) in
       fst first = Return row1
       ∧ files (snd first) = files w
       ∧ http_gets (trace (snd first)) = http_gets (trace w) ++ [u1]
       ∧ http_gets (trace (snd second)) = http_gets (trace w) ++ [u1; u2])
  ∧ (∀ (u1 memo1 type1 u2 memo2 type2 : string),
       u1 ≠ "" →
       u2 ≠ "" →
       Auto.local_path_of memo2 type2 = Auto.local_path_of memo1 type1 →
       on_disk w (Auto.local_path_of memo1 type1) = false →
       auto_fetch_fails (http E (trace w) u1) →
       let first := Auto.download_pdf E u1 memo1 type1 w in
       let second := Auto.download_pdf E u2 memo2 type2 (snd first) in
       fst first = Return ""
       ∧ files (snd first) = files w
       ∧ http_gets (trace (snd first)) = http_gets (trace w) ++ [u1]
       ∧ http_gets (trace (snd second)) = http_gets (trace w) ++ [u1; u2])
  ∧ (∀ u : string,
       Rec.local_path_of u = Py.path_join "pdfs" (Py.basename (Py.split_head "?" u)))
  ∧ (∀ memo_no listing_type : string,
       Auto.local_path_of memo_no listing_type
       = Py.path_join "pdfs"
           ("autonomous_bodies_" +:+ listing_type +:+ "_"
            +:+ Auto.slugify (if Py.truthy memo_no then memo_no else "memo") +:+ ".pdf")).
Proof.
  split_and!; [| | | |done|done].
  - intros row1 row2 u1 u2 chunks Hrow1 Hrow2 Hpdf1 Hpdf2 Hsame Hdisk Hhttp. cbn zeta.
    rewrite (rec_download_row_fetches E row1 u1 w chunks) by done. cbn [fst snd].
    rewrite (rec_download_row_skips E row2 u2)
      by (done || (rewrite Hsame; apply on_disk_stored)).
    rewrite Hsame. unfold stored. cbn [files trace].
    rewrite http_gets_app, lookup_insert_eq. by split_and!.
  - intros u1 memo1 type1 u2 memo2 type2 chunks Hu1 Hu2 Hsame Hdisk Hhttp. cbn zeta.
    rewrite (auto_download_pdf_fetches E u1 memo1 type1 w chunks) by done. cbn [fst snd].
    rewrite (auto_download_pdf_skips E u2 memo2 type2)
      by (done || (rewrite Hsame; apply on_disk_stored)).
    rewrite Hsame. unfold stored. cbn [files trace].
    rewrite http_gets_app, lookup_insert_eq. by split_and!.
  - intros row1 row2 u1 u2 Hrow1 Hrow2 Hpdf1 Hpdf2 Hsame Hdisk Hfail. cbn zeta.
    rewrite (rec_download_row_failure E row1 u1 w) by done. cbn [fst snd].
    rewrite (rec_download_row_requests E row2 u2) by (by rewrite ?Hsame).
    unfold logged. cbn [files trace]. rewrite http_gets_app. simpl.
    rewrite ?app_nil_r, <- ?app_assoc. by split_and!.
  - intros u1 memo1 type1 u2 memo2 type2 Hu1 Hu2 Hsame Hdisk Hfail. cbn zeta.
    rewrite (auto_download_pdf_failure E u1 memo1 type1 w) by done. cbn [fst snd].
    rewrite (auto_download_pdf_requests E u2 memo2 type2) by (by rewrite ?Hsame).
    unfold logged. cbn [files trace]. rewrite http_gets_app. simpl.
    rewrite ?app_nil_r, <- ?app_assoc. by split_and!.
Qed.

Lemma second_download_makes_no_request_witness :
  (let row1 := table_row "Report 2023" report_2023 in
   let row2 := table_row "Report 2024" report_2024 in
   let first := Rec.download_row echo_server row1 fresh in
   let second := Rec.download_row echo_server row2 (snd first) in
   fst first = Return (Py.set row1 "local_pdf_path" (Rec.local_path_of report_2023))
   ∧ http_gets (trace (snd first)) = http_gets (trace fresh) ++ [report_2023]
   ∧ files (snd first) !! Rec.local_path_of report_2023
     = Some (Bytes (String.concat "" [report_2023]))
   ∧ second = (Return (Py.set row2 "local_pdf_path" (Rec.local_path_of report_2023)),
               snd first))
  ∧ (let first := Auto.download_pdf echo_server rules_url "OM-1/2024" "Active" fresh in
     let second := Auto.download_pdf echo_server "https://doe.gov.in/files/om1.pdf"
                     "OM-1 2024" "Active" (snd first) in
     fst first = Return (Auto.local_path_of "OM-1/2024" "Active")
     ∧ http_gets (trace (snd first)) = http_gets (trace fresh) ++ [rules_url]
     ∧ files (snd first) !! Auto.local_path_of "OM-1/2024" "Active"
       = Some (Bytes (String.concat "" [rules_url]))
     ∧ second = (Return (Auto.local_path_of "OM-1/2024" "Active"), snd first))
  ∧ (let row1 := table_row "Report 2023" report_2023 in
     let row2 := table_row "Report 2024" report_2024 in
     let first := Rec.download_row first_missing row1 fresh in
     let second := Rec.download_row first_missing row2 (snd first) in
     fst first = Return row1
     ∧ files (snd first) = files fresh
     ∧ http_gets (trace (snd first)) = http_gets (trace fresh) ++ [report_2023]
     ∧ http_gets (trace (snd second))
       = http_gets (trace fresh) ++ [report_2023; report_2024])
  ∧ (let first := Auto.download_pdf serves_none rules_url "OM-1/2024" "Active" fresh in
     let second := Auto.download_pdf serves_none "https://doe.gov.in/files/om1.pdf"
                     "OM-1 2024" "Active" (snd first) in
     fst first = Return ""
     ∧ files (snd first) = files fresh
     ∧ http_gets (trace (snd first)) = http_gets (trace fresh) ++ [rules_url]
     ∧ http_gets (trace (snd second))
       = http_gets (trace fresh) ++ [rules_url; "https://doe.gov.in/files/om1.pdf"]).
Proof.
  split_and!.
  - apply (proj1 (second_download_makes_no_request echo_server fresh)
             (table_row "Report 2023" report_2023) (table_row "Report 2024" report_2024)
             report_2023 report_2024 [report_2023]);
      vm_compute; reflexivity.
  - apply (proj1 (proj2 (second_download_makes_no_request echo_server fresh))
             rules_url "OM-1/2024" "Active" "https://doe.gov.in/files/om1.pdf"
             "OM-1 2024" "Active" [rules_url]);
      solve [discriminate | vm_compute; reflexivity].
  - apply (proj1 (proj2 (proj2 (second_download_makes_no_request first_missing fresh)))
             (table_row "Report 2023" report_2023) (table_row "Report 2024" report_2024)
             report_2023 report_2024);
      solve [vm_compute; reflexivity | vm_compute; left; discriminate].
  - apply (proj1 (proj2 (proj2 (proj2 (second_download_makes_no_request serves_none
                                         fresh))))
             rules_url "OM-1/2024" "Active" "https://doe.gov.in/files/om1.pdf"
             "OM-1 2024" "Active");
      solve [discriminate | vm_compute; reflexivity | vm_compute; left; lia].
Defined.

(** C2 as stated fails.  In auto_scraper.py the same URL under two memorandum
    numbers has two destinations and is requested twice; in rec_scraper.py a
    URL whose request fails leaves no file, so the second call requests it
    again. *)
Lemma same_url_requested_twice :
  http_gets (trace (snd ((Auto.download_pdf serves_all rules_url "OM-1/2024" "Active" ;;
                          Auto.download_pdf serves_all rules_url "OM-2/2024" "Active")
                           fresh)))
  = [rules_url; rules_url]
  ∧ http_gets (trace (snd ((Rec.download_row serves_none (table_row "Rules" rules_url) ;;
                            Rec.download_row serves_none (table_row "Rules" rules_url))
                             fresh)))
    = [rules_url; rules_url].
Proof. split; vm_compute; reflexivity. Qed.

(** C6 fails in proc_scraper.py.  Its downloader opens the destination and
    then streams the body into it, so a connection that breaks off after the
    first chunk leaves the chunk on disk under the destination's name.  The
    call hands back the empty path, as the claim says, but the file is there;
    the next call for the same file, even against a server that would deliver
    it whole, finds the path on disk and hands it back without a request. *)
Lemma proc_keeps_partial_file :
  let url := "https://doe.gov.in/files/om1.pdf" in
  let w1 := snd (Proc.download_pdf breaks_off url_path_doe url "Current_sr1" fresh) in
  let w2 := snd (Proc.download_pdf serves_all url_path_doe url "Current_sr1" w1) in
  fst (Proc.download_pdf breaks_off url_path_doe url "Current_sr1" fresh) = Return ""
  ∧ files w1 !! "pdfs/Current_sr1_om1.pdf" = Some (Bytes "%PDF-1.4 ")
  ∧ trace w1 = [HttpGet url; FileOpen "pdfs/Current_sr1_om1.pdf";
                Print (DownloadFailed url RequestException)]
  ∧ fst (Proc.download_pdf serves_all url_path_doe url "Current_sr1" w1)
    = Return "pdfs/Current_sr1_om1.pdf"
  ∧ http_gets (trace w2) = [url]
  ∧ files w2 !! "pdfs/Current_sr1_om1.pdf" = Some (Bytes "%PDF-1.4 ").
Proof. repeat split; vm_compute; reflexivity. Qed.

(** A row whose asset lands on the same file as [u1]'s. *)
Definition shares_file_with (u1 : string) (row : Py.dict) : Prop :=
  ∃ u, Py.get row "pdf_url" = Some u
       ∧ Rec.looks_like_pdf u = true
       ∧ Rec.filename_of u = Rec.filename_of u1.

Definition with_rows (w : world) (rs : list Py.dict) : world :=
  {| shown := shown w; rows := rs; files := files w; trace := trace w |}.

(** The rest of the download pass once the shared file is on disk: every
    remaining row gets the path, and nothing else happens. *)
Lemma download_pass_reuses_file E u1 (todo done : list Py.dict) (w : world) :
  Forall (shares_file_with u1) todo →
  on_disk w (Rec.local_path_of u1) = true →
  rows w = done ++ todo →
  for_each (seq (length done) (length todo))
    (fun i =>
       let* w := get_world in
       match rows w !! i with
       | Some row => let* row' := Rec.download_row E row in Rec.update_row i row'
       | None => ret tt
       end) w
  = (Return tt,
     with_rows w (done ++ map (fun row => Py.set row "local_pdf_path" (Rec.local_path_of u1))
                           todo)).
Proof.
  revert done w. induction todo as [|row todo IH]; intros done w Hall Hdisk Hrows.
  - simpl. unfold with_rows. rewrite <- Hrows. by rewrite world_eta.
  - apply Forall_cons in Hall as [(u & Hurl & Hpdf & Hname) Hall].
    assert (Rec.local_path_of u = Rec.local_path_of u1) as Hpath.
    { unfold Rec.local_path_of. by rewrite Hname. }
    cbn [length seq for_each].
    unfold bind at 1. unfold bind at 1, get_world at 1.
    rewrite Hrows, list_lookup_middle by done.
    unfold bind at 1.
    rewrite (rec_download_row_skips E row u w) by (by rewrite ?Hpath).
    unfold Rec.update_row, set_rows.
    rewrite Hrows, insert_app_r_alt, Nat.sub_diag by done. cbn [insert list_insert].
    rewrite Hpath.
    set (row' := Py.set row "local_pdf_path" (Rec.local_path_of u1)).
    replace (S (length done)) with (length (done ++ [row'])) by (rewrite length_app; simpl; lia).
    rewrite (IH (done ++ [row'])); [|done|done|by rewrite <- app_assoc].
    unfold with_rows. simpl. by rewrite <- app_assoc.
Qed.

(** C10, as the code has it.  The destination is [pdfs/] and the basename of
    the URL up to its first question mark, so URLs that differ in directory or
    query string can share it.  In one download pass over rows that share a
    destination which is not on disk, if the first row's request is answered
    with status 200 and a whole body, then that request is the only one made,
    every row is given the one path, and the file holds the first URL's
    body. *)
Theorem same_basename_shares_first_file (E : env) (u1 : string) (row1 : Py.dict)
    (later : list Py.dict) (chunks : list string) (w : world) :
  rows w = row1 :: later →
  Py.get row1 "pdf_url" = Some u1 →
  Rec.looks_like_pdf u1 = true →
  Forall (shares_file_with u1) later →
  on_disk w (Rec.local_path_of u1) = false →
  http E (trace w) u1 = Response 200 chunks true →
  Rec.local_path_of u1 = Py.path_join "pdfs" (Py.basename (Py.split_head "?" u1))
  ∧ fst (Rec.download_pdfs E w) = Return tt
  ∧ http_gets (trace (snd (Rec.download_pdfs E w))) = http_gets (trace w) ++ [u1]
  ∧ rows (snd (Rec.download_pdfs E w))
    = map (fun row => Py.set row "local_pdf_path" (Rec.local_path_of u1)) (row1 :: later)
  ∧ files (snd (Rec.download_pdfs E w)) !! Rec.local_path_of u1
    = Some (Bytes (String.concat "" chunks)).
Proof.
  intros Hrows Hurl Hpdf Hlater Hdisk Hhttp. split; [reflexivity|].
  set (row1' := Py.set row1 "local_pdf_path" (Rec.local_path_of u1)).
  set (w1 := {| shown := shown w; rows := row1' :: later;
                files := <[Rec.local_path_of u1 := Bytes (String.concat "" chunks)]> (files w);
                trace := trace w ++ [HttpGet u1; FileOpen (Rec.local_path_of u1)] |}).
  assert (Rec.download_pdfs E w
          = (Return tt,
             with_rows w1 ([row1'] ++ map (fun row => Py.set row "local_pdf_path"
                                                      (Rec.local_path_of u1)) later)))
    as ->.
  { unfold Rec.download_pdfs. unfold bind at 1, get_world at 1.
    rewrite Hrows. cbn [length seq for_each].
    unfold bind at 1. unfold bind at 1, get_world at 1.
    rewrite Hrows. cbn [lookup list_lookup].
    unfold bind at 1.
    rewrite (rec_download_row_fetches E row1 u1 w chunks) by done.
    unfold Rec.update_row at 1, set_rows at 1.
    cbn [stored rows shown files trace]. rewrite Hrows. cbn [insert list_insert].
    fold row1' w1.
    apply (download_pass_reuses_file E u1 later [row1'] w1);
      [done | apply on_disk_stored | done]. }
  simpl. rewrite http_gets_app, lookup_insert_eq. by repeat split.
Qed.

Lemma same_basename_shares_first_file_witness :
  Rec.local_path_of report_2023
  = Py.path_join "pdfs" (Py.basename (Py.split_head "?" report_2023))
  ∧ fst (Rec.download_pdfs echo_server two_reports) = Return tt
  ∧ http_gets (trace (snd (Rec.download_pdfs echo_server two_reports)))
    = http_gets (trace two_reports) ++ [report_2023]
  ∧ rows (snd (Rec.download_pdfs echo_server two_reports))
    = map (fun row => Py.set row "local_pdf_path" (Rec.local_path_of report_2023))
        [table_row "Report 2023" report_2023; table_row "Report 2024" report_2024]
  ∧ files (snd (Rec.download_pdfs echo_server two_reports)) !! Rec.local_path_of report_2023
    = Some (Bytes (String.concat "" [report_2023])).
Proof.
  apply (same_basename_shares_first_file echo_server report_2023
           (table_row "Report 2023" report_2023)
           [table_row "Report 2024" report_2024] [report_2023] two_reports).
  - reflexivity.
  - reflexivity.
  - reflexivity.
  - constructor; [|constructor]. exists report_2024. repeat split; reflexivity.
  - vm_compute. reflexivity.
  - reflexivity.
Defined.

(** C10 as stated fails when the first URL's request fails: the second URL
    is requested too, the first record keeps an empty path, and the file holds
    the second URL's body. *)
Lemma later_url_fetched_when_first_fails :
  http_gets (trace (snd (Rec.download_pdfs first_missing two_reports)))
  = [report_2023; report_2024]
  ∧ map (fun row => Py.get row "local_pdf_path")
      (rows (snd (Rec.download_pdfs first_missing two_reports)))
    = [Some ""; Some "pdfs/report.pdf"]
  ∧ files (snd (Rec.download_pdfs first_missing two_reports)) !! "pdfs/report.pdf"
    = Some (Bytes report_2024).
Proof. repeat split; vm_compute; reflexivity. Qed.

(** ** Paginator *)

(** The loop that keeps a visited set and reads the browser's URL
    (rec_scraper.py; rti_scraper.py and manuals_scraper.py have the same
    loop).  From an iteration on a page not yet visited, whose next control is
    enabled and leads the browser to a page already visited (this one
    included), the loop fetches once more, the revisit, and stops: either the
    check at the top of the next iteration finds the URL in the set, or the
    failed load is caught.  The revisited page adds no rows. *)
Lemma rec_revisit_stops_after_one_fetch (E : env) (urljoin : string -> string -> string)
    (fuel : nat) (section_name : string) (visited : gset string) (w : world)
    (cls h : string) :
  current_url (shown w) ∉ visited →
  next_anchor (shown w) = Some {| a_class := Some cls; a_href := Some h |} →
  Py.contains "is-disabled" cls = false →
  h ≠ "" →
  current_url (lands_on (browse E (trace w) h)) ∈ {[current_url (shown w)]} ∪ visited →
  ∃ w', Rec.pagination_loop E urljoin (S (S fuel)) section_name visited w = (Return tt, w')
        ∧ navs (trace w') = navs (trace w) ++ [h]
        ∧ rows w' = rows w ++ table_rows urljoin (shown w) section_name (current_url (shown w)).
Proof.
  intros Hnew Hnext Hcls Hh Hland.
  assert (Py.truthy h = true) as Htruthy.
  { unfold Py.truthy. destruct (String.eqb_spec h ""); [done | reflexivity]. }
  cbn [Rec.pagination_loop]. unfold bind at 1, get_world at 1.
  rewrite bool_decide_eq_false_2 by done.
  unfold bind at 1. rewrite extract_table_appends.
  unfold Rec.follow_next. rewrite Hnext. cbn [a_class a_href]. rewrite Hcls, Htruthy.
  unfold Rec.safe_get, safe_get_short, driver_get, window_stop.
  run_monad.
  destruct (browse E (trace w) h) as [[e|] [e'|] polls wt d]; simpl in *.
  - destruct (is_timeout e); simpl; eexists; (split; [reflexivity|]);
      simpl; rewrite !navs_app; simpl; by rewrite ?app_nil_r.
  - destruct (is_timeout e); simpl.
    + rewrite bool_decide_eq_true_2 by done.
      eexists; (split; [reflexivity|]); simpl; rewrite !navs_app; simpl;
        by rewrite ?app_nil_r.
    + eexists; (split; [reflexivity|]); simpl; rewrite !navs_app; simpl;
        by rewrite ?app_nil_r.
  - rewrite bool_decide_eq_true_2 by done.
    eexists; (split; [reflexivity|]); simpl; by rewrite !navs_app.
  - rewrite bool_decide_eq_true_2 by done.
    eexists; (split; [reflexivity|]); simpl; by rewrite !navs_app.
Qed.

(** The end of an iteration never raises; when it asks for another
    iteration, the session shows what the browser landed on. *)
Lemma follow_next_returns E soup w :
  ∃ again w', Rec.follow_next E soup w = (Return again, w')
              ∧ (again = true → ∃ t u, shown w' = lands_on (browse E t u)).
Proof.
  unfold Rec.follow_next, Rec.safe_get, safe_get_short, driver_get, window_stop.
  destruct (next_anchor soup) as [[[cls|] href]|]; run_monad;
    try (by eexists false, _; split).
  destruct (Py.contains "is-disabled" cls); run_monad; [by eexists false, _; split|].
  destruct href as [h|]; run_monad; [|by eexists false, _; split].
  destruct (Py.truthy h); run_monad; [|by eexists false, _; split].
  destruct (browse E (trace w) h) as [[e|] [e'|] polls wt d] eqn:Hreply; simpl.
  - destruct (is_timeout e); simpl; by eexists false, _; split.
  - destruct (is_timeout e); simpl; [|by eexists false, _; split].
    eexists true, _. split; [reflexivity|]. intros _. exists (trace w), h. by rewrite Hreply.
  - eexists true, _. split; [reflexivity|]. intros _. exists (trace w), h. by rewrite Hreply.
  - eexists true, _. split; [reflexivity|]. intros _. exists (trace w), h. by rewrite Hreply.
Qed.

(** Every page the browser can come to show has its URL in [L]. *)
Definition lands_within (E : env) (L : gset string) : Prop :=
  ∀ t u, current_url (lands_on (browse E t u)) ∈ L.

(** X1.  The loop of rec_scraper.py (and rti_scraper.py,
    manuals_scraper.py) ends
    on every site with finitely many page URLs, however its pager is wired:
    each iteration that goes on puts one more of them in the visited set. *)
Theorem rec_pagination_ends_on_finite_site (E : env) (urljoin : string -> string -> string)
    (L : gset string) (fuel : nat) (section_name : string) (visited : gset string)
    (w : world) :
  lands_within E L →
  current_url (shown w) ∈ L →
  size (L ∖ visited) < fuel →
  ∃ w', Rec.pagination_loop E urljoin fuel section_name visited w = (Return tt, w').
Proof.
  intros Hsite. revert visited w.
  induction fuel as [|fuel IH]; intros visited w Hcur Hsize; [lia|].
  cbn [Rec.pagination_loop]. unfold bind at 1, get_world at 1.
  case_bool_decide as Hseen; [by eexists|].
  unfold bind at 1. rewrite extract_table_appends.
  set (w1 := {| shown := shown w; rows := _; files := files w; trace := trace w |}).
  unfold bind at 1.
  destruct (follow_next_returns E (shown w) w1) as (again & w2 & -> & Hshown).
  destruct again; [|by eexists]. destruct (Hshown eq_refl) as (t & u & Hw2).
  apply IH.
  - rewrite Hw2. apply Hsite.
  - assert (L ∖ ({[current_url (shown w)]} ∪ visited) ⊂ L ∖ visited) as Hless
      by set_solver.
    apply subset_size in Hless. lia.
Qed.

Lemma rec_pagination_ends_on_finite_site_witness :
  ∃ w', Rec.pagination_loop again_site urljoin_doe 2 "Main Section" ∅ on_again_page
        = (Return tt, w').
Proof.
  apply (rec_pagination_ends_on_finite_site again_site urljoin_doe {[again_url]} 2
           "Main Section" ∅ on_again_page).
  - intros t u. simpl. set_solver.
  - simpl. set_solver.
  - rewrite difference_empty_L, size_singleton. lia.
Defined.

Lemma emits_auto_parse_table E urljoin soup page_url listing_type :
  emits asset_event (Auto.parse_table E urljoin soup page_url listing_type).
Proof.
  unfold Auto.parse_table. destruct (listing_table soup) as [t|]; [|by apply emits_emit].
  apply emits_for_each. intros r. unfold Auto.parse_row.
  destruct (td_text r) as [|c0 [|c1 [|c2 [|c3 [|c4 rest]]]]]; try apply emits_ret.
  apply emits_bind; [apply emits_auto_download_pdf | intros p]. by apply emits_silent.
Qed.

Lemma auto_parse_table_returns E urljoin soup page_url listing_type w :
  ∃ w', Auto.parse_table E urljoin soup page_url listing_type w = (Return tt, w').
Proof.
  unfold Auto.parse_table. destruct (listing_table soup) as [t|]; [|by eexists].
  generalize (thead_th t). intros headers.
  generalize (tbody_tr t). intros trs. revert w.
  induction trs as [|r trs IH]; intros w; simpl; [by eexists|].
  unfold bind at 1.
  assert (∃ w1, Auto.parse_row E urljoin headers page_url listing_type r w
                = (Return tt, w1)) as [w1 ->]; [|apply IH].
  unfold Auto.parse_row.
  destruct (td_text r) as [|c0 [|c1 [|c2 [|c3 [|c4 rest]]]]]; try by eexists.
  unfold bind at 1.
  destruct (auto_download_pdf_returns E
              match dl_link r with
              | Some (href, _) => urljoin Auto.BASE_URL href
              | None => ""
              end c1 listing_type w) as (p & w2 & ->).
  by eexists.
Qed.

(** In auto_scraper.py the next URL is looked up in the visited set before
    it is loaded, so a pager that offers a visited page again ends the loop
    without the extra fetch. *)
Lemma auto_stops_before_revisit E urljoin fuel listing_type visited current w h :
  current ∉ visited →
  fst (Auto.safe_get E current w) = Return tt →
  ul_pager (shown (snd (Auto.safe_get E current w))) = Some {| next_link := Some (Some h) |} →
  h ≠ "" →
  urljoin Auto.BASE_URL h ∈ {[current]} ∪ visited →
  ∃ w', Auto.listing_loop E urljoin (S fuel) listing_type visited current w = (Return tt, w')
        ∧ navs (trace w') = navs (trace w) ++ [current].
Proof.
  intros Hnew Hget Hpager Hh Hseen.
  pose proof (safe_get_long_navs E current w) as Hnavs.
  change (safe_get_long E current w) with (Auto.safe_get E current w) in Hnavs.
  cbn [Auto.listing_loop]. rewrite bool_decide_eq_false_2 by done.
  unfold bind at 1. destruct (Auto.safe_get E current w) as [[[]| |] w1]; try done.
  simpl in Hpager, Hnavs. unfold bind at 1, get_world at 1. unfold bind at 1.
  destruct (auto_parse_table_returns E urljoin (shown w1) current listing_type w1)
    as [w2 Hparse].
  destruct (emits_auto_parse_table E urljoin (shown w1) current listing_type w1)
    as (t & Ht & Hassets).
  rewrite Hparse in *. simpl in Ht. rewrite Hpager. simpl.
  unfold Py.truthy. destruct (String.eqb_spec h ""); [done|]. simpl.
  rewrite bool_decide_eq_true_2 by done.
  eexists. split; [reflexivity|].
  by rewrite Ht, navs_app, (navs_asset_events t), app_nil_r, Hnavs.
Qed.

(** The loop of grants_scraper.py stops when the page shows no enabled next
    control, and goes round again whenever it shows one and the load
    returns. *)
Lemma grants_loop_follows_enabled_next E urljoin fuel section_name page_url w :
  match next_anchor_enabled (shown w) with
  | None =>
      Grants.pagination_loop E urljoin (S fuel) section_name page_url w
      = Grants.extract_table urljoin (shown w) section_name page_url w
  | Some next_btn =>
      ∀ h, a_href next_btn = Some h →
           let w1 := snd (Grants.extract_table urljoin (shown w) section_name page_url w) in
           fst (Grants.safe_get E h w1) = Return tt →
           Grants.pagination_loop E urljoin (S fuel) section_name page_url w
           = Grants.pagination_loop E urljoin fuel section_name h
               (snd (Grants.safe_get E h w1))
  end.
Proof.
  assert (∃ w1, Grants.extract_table urljoin (shown w) section_name page_url w
                = (Return tt, w1)) as [w1 Hextract].
  { unfold Grants.extract_table. destruct (first_table (shown w)) as [t|]; [|by eexists].
    rewrite for_each_append_rows. by eexists. }
  destruct (next_anchor_enabled (shown w)) as [next_btn|] eqn:Hnext.
  - intros h Hh w1' Hget. subst w1'.
    cbn [Grants.pagination_loop]. unfold bind at 1, get_world at 1. unfold bind at 1.
    rewrite Hextract in *. rewrite Hnext, Hh. unfold bind at 1. simpl in *.
    by destruct (Grants.safe_get E h w1) as [[[]| |] w2].
  - cbn [Grants.pagination_loop]. unfold bind at 1, get_world at 1. unfold bind at 1.
    by rewrite Hextract, Hnext.
Qed.

(** The loop of grants_scraper.py keeps no visited set: on the pager that
    offers the same page again it fetches once per iteration for as long as it
    is run. *)
Lemma grants_loop_on_again_site (fuel : nat) (section_name page_url : string) (w : world) :
  shown w = again_page →
  ∃ w', Grants.pagination_loop again_site urljoin_doe fuel section_name page_url w
        = (OutOfFuel, w')
        ∧ navs (trace w') = navs (trace w) ++ replicate fuel again_url.
Proof.
  revert page_url w. induction fuel as [|fuel IH]; intros page_url w Hshown.
  - exists w. split; [reflexivity | by rewrite app_nil_r].
  - cbn [Grants.pagination_loop]. unfold bind at 1, get_world at 1. rewrite Hshown.
    unfold Grants.extract_table, Grants.safe_get, safe_get_short, driver_get.
    run_monad.
    set (w1 := {| shown := again_page; rows := rows w; files := files w;
                  trace := trace w ++ [Nav again_url] |}).
    destruct (IH again_url w1 eq_refl) as (w' & -> & Hnavs).
    exists w'. split; [reflexivity|]. rewrite Hnavs. subst w1. simpl.
    rewrite navs_app. simpl. by rewrite <- app_assoc.
Qed.

(** C1, as the code has it.  Two loops keep a visited set.  The loop of
    rec_scraper.py (rti_scraper.py and manuals_scraper.py have the same one)
    reads the browser's URL at the top: from an iteration on a page not yet
    visited, whose next control is enabled and leads the browser to a page
    already visited, it fetches once more, the revisit, and stops, either
    because the check at the top finds the URL in the set or because the
    failed load is caught; the revisited page adds no rows.  The loop of
    auto_scraper.py looks the next URL up before it loads it: when the pager
    of the page just loaded offers a visited URL, the loop stops with no
    fetch beyond that of the page itself.  The loop of grants_scraper.py
    (annualrep_scraper.py and summary_scraper.py have the same one) keeps no
    such set: it stops when the page shown has no enabled next control, and
    goes round again whenever there is one and its load returns. *)
Theorem revisit_ends_the_visited_set_loops (E : env) (urljoin : string -> string -> string)
    (fuel : nat) :
  (∀ (section_name : string) (visited : gset string) (w : world) (cls h : string),
     current_url (shown w) ∉ visited →
     next_anchor (shown w) = Some {| a_class := Some cls; a_href := Some h |} →
     Py.contains "is-disabled" cls = false →
     h ≠ "" →
     current_url (lands_on (browse E (trace w) h)) ∈ {[current_url (shown w)]} ∪ visited →
     ∃ w', Rec.pagination_loop E urljoin (S (S fuel)) section_name visited w = (Return tt, w')
           ∧ navs (trace w') = navs (trace w) ++ [h]
           ∧ rows w' = rows w ++ table_rows urljoin (shown w) section_name
                                   (current_url (shown w)))
  ∧ (∀ (listing_type : string) (visited : gset string) (current : string) (w : world)
       (h : string),
       current ∉ visited →
       fst (Auto.safe_get E current w) = Return tt →
       ul_pager (shown (snd (Auto.safe_get E current w)))
         = Some {| next_link := Some (Some h) |} →
       h ≠ "" →
       urljoin Auto.BASE_URL h ∈ {[current]} ∪ visited →
       ∃ w', Auto.listing_loop E urljoin (S fuel) listing_type visited current w
             = (Return tt, w')
             ∧ navs (trace w') = navs (trace w) ++ [current])
  ∧ (∀ (section_name page_url : string) (w : world),
       match next_anchor_enabled (shown w) with
       | None =>
           Grants.pagination_loop E urljoin (S fuel) section_name page_url w
           = Grants.extract_table urljoin (shown w) section_name page_url w
       | Some next_btn =>
           ∀ h, a_href next_btn = Some h →
                let w1 := snd (Grants.extract_table urljoin (shown w) section_name
                                 page_url w) in
                fst (Grants.safe_get E h w1) = Return tt →
                Grants.pagination_loop E urljoin (S fuel) section_name page_url w
                = Grants.pagination_loop E urljoin fuel section_name h
                    (snd (Grants.safe_get E h w1))
       end).
Proof.
  split; [|split].
  - intros section_name visited w cls h. apply rec_revisit_stops_after_one_fetch.
  - intros listing_type visited current w h. apply auto_stops_before_revisit.
  - intros section_name page_url w. apply grants_loop_follows_enabled_next.
Qed.

Lemma revisit_ends_the_visited_set_loops_witness :
  (∃ w', Rec.pagination_loop again_site urljoin_doe 2 "Main Section" ∅ on_again_page
         = (Return tt, w')
         ∧ navs (trace w') = navs (trace on_again_page) ++ [again_url]
         ∧ rows w' = rows on_again_page
                     ++ table_rows urljoin_doe (shown on_again_page) "Main Section"
                          (current_url (shown on_again_page)))
  ∧ (∃ w', Auto.listing_loop again_site urljoin_doe 1 "Active" ∅ again_url fresh
           = (Return tt, w')
           ∧ navs (trace w') = navs (trace fresh) ++ [again_url]).
Proof.
  split.
  - apply (proj1 (revisit_ends_the_visited_set_loops again_site urljoin_doe 0)
             "Main Section" ∅ on_again_page "pager__link" again_url).
    + set_solver.
    + reflexivity.
    + reflexivity.
    + done.
    + simpl. set_solver.
  - apply (proj1 (proj2 (revisit_ends_the_visited_set_loops again_site urljoin_doe 0))
             "Active" ∅ again_url fresh again_url).
    + set_solver.
    + reflexivity.
    + reflexivity.
    + done.
    + vm_compute. set_solver.
Defined.

(** C1 as stated fails.  grants_scraper.py (and annualrep_scraper.py,
    summary_scraper.py) keeps no visited set: against the pager that offers
    the same page again no fuel is enough, and after fifty iterations its loop
    has made fifty fetches, not one.  And auto_scraper.py makes no extra fetch
    at all: its only fetch is that of the start page. *)
Lemma grants_pager_loop_runs_on :
  fst (Grants.handle_pagination again_site urljoin_doe 50 "Main Section" again_url
         on_again_page) = OutOfFuel
  ∧ length (navs (trace (snd (Grants.handle_pagination again_site urljoin_doe 50
                                "Main Section" again_url on_again_page)))) = 51
  ∧ (∀ fuel, fst (Grants.handle_pagination again_site urljoin_doe fuel "Main Section"
                    again_url on_again_page) = OutOfFuel)
  ∧ navs (trace (snd (Auto.paginate_listing again_site urljoin_doe 5 again_url "Active"
                        fresh))) = [again_url].
Proof.
  unfold Grants.handle_pagination. split; [|split; [|split]].
  - by destruct (grants_loop_on_again_site 50 "Main Section" again_url on_again_page eq_refl)
      as (w' & -> & _).
  - destruct (grants_loop_on_again_site 50 "Main Section" again_url on_again_page eq_refl)
      as (w' & -> & Hnavs).
    simpl. rewrite Hnavs. reflexivity.
  - intros fuel.
    by destruct (grants_loop_on_again_site fuel "Main Section" again_url on_again_page eq_refl)
      as (w' & -> & _).
  - vm_compute. reflexivity.
Qed.

Example auto_stops_before_revisit_on_again_site :
  navs (trace (snd (Auto.paginate_listing again_site urljoin_doe 5 again_url "Active" fresh)))
  = [again_url]
  ∧ navs (trace (snd (Rec.handle_pagination again_site urljoin_doe 5 "Main Section" again_url
                        on_again_page)))
    = [again_url; again_url].
Proof. split; vm_compute; reflexivity. Qed.

Lemma emits_rec_pagination_loop E urljoin fuel section_name visited :
  emits browsing (Rec.pagination_loop E urljoin fuel section_name visited).
Proof.
  revert visited. induction fuel as [|fuel IH]; intros visited; simpl.
  - apply emits_out_of_fuel.
  - apply emits_bind; [by apply emits_silent | intros w].
    case_bool_decide; [apply emits_ret|].
    apply emits_bind; [apply emits_rec_extract_table | intros _].
    apply emits_bind.
    + unfold Rec.follow_next. apply emits_try_except; [|auto with emits].
      destruct (next_anchor _) as [[[cls|] href]|]; simpl; auto with emits.
      destruct (Py.contains _ _); auto with emits.
      destruct href as [h|]; auto with emits.
      destruct (Py.truthy h); auto with emits.
      apply emits_bind; [apply emits_safe_get_short | auto with emits].
    + intros [|]; [apply IH | apply emits_ret].
Qed.

Lemma emits_auto_listing_loop E urljoin fuel listing_type visited current :
  emits before_saving (Auto.listing_loop E urljoin fuel listing_type visited current).
Proof.
  revert visited current. induction fuel as [|fuel IH]; intros visited current; simpl.
  - apply emits_out_of_fuel.
  - case_bool_decide; [apply emits_ret|].
    apply emits_bind; [apply emits_safe_get_long | intros _].
    apply emits_bind; [by apply emits_silent | intros w].
    apply emits_bind.
    { eapply emits_weaken; [|apply emits_auto_parse_table]. by intros []. }
    intros _. destruct (ul_pager _) as [[[href|]]|]; cbn [next_link]; try apply emits_ret.
    destruct (Py.truthy_opt href); [|apply emits_ret].
    case_bool_decide; [apply emits_ret | apply IH].
Qed.

(** ** ResultSink *)

Lemma get_None_keys (r : Py.dict) (c : string) : Py.get r c = None ↔ c ∉ Py.keys r.
Proof.
  induction r as [|[k v] r IH]; simpl.
  - split; [intros _; apply not_elem_of_nil | done].
  - destruct (String.eqb_spec c k) as [->|Hne].
    + split; [done|]. intros H. destruct H. apply list_elem_of_here.
    + rewrite IH. set_solver.
Qed.

Lemma get_app (r1 r2 : Py.dict) (c : string) :
  Py.get (r1 ++ r2) c = match Py.get r1 c with
                        | Some v => Some v
                        | None => Py.get r2 c
                        end.
Proof.
  induction r1 as [|[k v] r1 IH]; simpl; [reflexivity|].
  by destruct (String.eqb c k).
Qed.

(** [setdefault(f, "")] changes no cell of the written row. *)
Lemma setdefault_empty_cell (r : Py.dict) (f c : string) :
  default "" (Py.get (Py.setdefault r f "") c) = default "" (Py.get r c).
Proof.
  unfold Py.setdefault. destruct (Py.get r f) eqn:Hf; [reflexivity|].
  rewrite get_app. destruct (Py.get r c); [reflexivity|]. simpl.
  by destruct (String.eqb c f).
Qed.

Lemma fill_meta_cell (r : Py.dict) (c : string) :
  default "" (Py.get (Ocac.fill_meta r) c) = default "" (Py.get r c).
Proof.
  unfold Ocac.fill_meta. generalize Ocac.META_FIELDS. intros fields.
  revert r. induction fields as [|f fields IH]; intros r; simpl; [reflexivity|].
  by rewrite IH, setdefault_empty_cell.
Qed.

Lemma elem_of_add_keys (seen ks : list string) (c : string) :
  c ∈ foldl add_key seen ks ↔ c ∈ seen ∨ c ∈ ks.
Proof.
  revert seen. induction ks as [|k ks IH]; intros seen; simpl.
  - set_solver.
  - rewrite IH. unfold add_key. case_bool_decide; set_solver.
Qed.

Lemma elem_of_union_keys_from (seen : list string) (rs : list Py.dict) (c : string) :
  c ∈ foldl (fun seen r => foldl add_key seen (Py.keys r)) seen rs
  ↔ c ∈ seen ∨ ∃ r, r ∈ rs ∧ c ∈ Py.keys r.
Proof.
  revert seen. induction rs as [|r rs IH]; intros seen; simpl.
  - split; [by left | intros [?|(r & Hr & _)]; [done | by apply elem_of_nil in Hr]].
  - rewrite IH, elem_of_add_keys. split.
    + intros [[?|?]|(r' & Hr' & Hc)]; [by left | right | right].
      * exists r. split; [apply list_elem_of_here | done].
      * exists r'. split; [by apply list_elem_of_further | done].
    + intros [?|(r' & Hr' & Hc)]; [by left; left|].
      apply elem_of_cons in Hr' as [->|Hr']; [by left; right|].
      right. by exists r'.
Qed.

Lemma elem_of_union_keys (rs : list Py.dict) (c : string) :
  c ∈ union_keys rs ↔ ∃ r, r ∈ rs ∧ c ∈ Py.keys r.
Proof.
  unfold union_keys. rewrite elem_of_union_keys_from. set_solver.
Qed.

Lemma index_of_lookup (c : string) (cols : list string) (i : nat) :
  index_of c cols = Some i → cols !! i = Some c.
Proof.
  revert i. induction cols as [|c' cols IH]; intros i; simpl; [done|].
  destruct (String.eqb_spec c c') as [->|_].
  - by intros [= <-].
  - destruct (index_of c cols) as [j|]; simpl; [|done].
    intros [= <-]. by apply IH.
Qed.

Lemma index_of_elem (c : string) (cols : list string) :
  c ∈ cols → is_Some (index_of c cols).
Proof.
  induction cols as [|c' cols IH]; simpl; [by intros ?%elem_of_nil|].
  destruct (String.eqb_spec c c') as [->|Hne]; [by eexists|].
  intros [?|Hin]%elem_of_cons; [done|].
  destruct (IH Hin) as [j ->]. by eexists.
Qed.

(** The cell that the frame built from [rs], with the wanted columns added,
    holds for record [r] under column [c]. *)
Definition cell (rs : list Py.dict) (r : Py.dict) (c : string) : option string :=
  if bool_decide (c ∈ union_keys rs) then Py.get r c else Some "".

Definition frame_of (rs : list Py.dict) (df : frame) : Prop :=
  cells df = map (fun r => map (cell rs r) (columns df)) rs
  ∧ ∀ c, c ∈ union_keys rs → c ∈ columns df.

Lemma frame_of_DataFrame (rs : list Py.dict) : frame_of rs (DataFrame rs).
Proof.
  split; [|done]. simpl. apply map_ext. intros r.
  apply map_ext_in. intros c Hc%list_elem_of_In.
  unfold cell. by rewrite bool_decide_eq_true_2.
Qed.

Lemma frame_of_ensure_column (rs : list Py.dict) (df : frame) (col : string) :
  frame_of rs df → frame_of rs (ensure_column df col) ∧ col ∈ columns (ensure_column df col)
                   ∧ ∀ c, c ∈ columns df → c ∈ columns (ensure_column df col).
Proof.
  intros [Hcells Hkeys]. unfold ensure_column. case_bool_decide as Hin; [done|].
  simpl. repeat split.
  - rewrite Hcells, map_map. apply map_ext. intros r.
    cbn [columns]. rewrite map_app. simpl. f_equal. unfold cell.
    rewrite bool_decide_eq_false_2; [done|]. intros Hk. by apply Hin, Hkeys.
  - intros c Hc. apply elem_of_app. left. by apply Hkeys.
  - apply elem_of_app. right. apply list_elem_of_here.
  - intros c Hc. apply elem_of_app. by left.
Qed.

Lemma frame_of_ensure_columns (rs : list Py.dict) (cols : list string) (df : frame) :
  frame_of rs df →
  frame_of rs (foldl ensure_column df cols)
  ∧ (∀ c, c ∈ cols → c ∈ columns (foldl ensure_column df cols))
  ∧ (∀ c, c ∈ columns df → c ∈ columns (foldl ensure_column df cols)).
Proof.
  revert df. induction cols as [|col cols IH]; intros df Hdf; simpl.
  - repeat split; [apply Hdf | apply Hdf | by intros c ?%elem_of_nil | done].
  - destruct (frame_of_ensure_column rs df col Hdf) as (Hdf' & Hcol & Hold).
    destruct (IH _ Hdf') as (Hfinal & Hcols & Hkeep).
    repeat split; [apply Hfinal | apply Hfinal | | ].
    + intros c [->|Hc]%elem_of_cons; [by apply Hkeep | by apply Hcols].
    + intros c Hc. by apply Hkeep, Hold.
Qed.

(** What pandas hands to the file: for every record and every wanted column,
    the record's value, or the empty string when the record has none. *)
Lemma written_cells (rs : list Py.dict) (cols : list string) :
  map (map (default "")) (cells (reindex (foldl ensure_column (DataFrame rs) cols) cols))
  = map (fun r => map (fun c => default "" (Py.get r c)) cols) rs.
Proof.
  destruct (frame_of_ensure_columns rs cols _ (frame_of_DataFrame rs))
    as ([Hcells _] & Hcols & _).
  set (df := foldl ensure_column (DataFrame rs) cols) in *.
  unfold reindex. simpl. rewrite Hcells, !map_map.
  apply map_ext_in. intros r Hr%list_elem_of_In.
  rewrite map_map. apply map_ext_in. intros c Hc%list_elem_of_In.
  destruct (index_of_elem c (columns df) (Hcols c Hc)) as [i Hi].
  rewrite Hi. apply index_of_lookup in Hi.
  rewrite lookup_map, Hi. simpl.
  unfold cell. case_bool_decide as Hkey; [reflexivity|].
  assert (Py.get r c = None) as ->; [|reflexivity].
  apply get_None_keys. intros Hk. apply Hkey, elem_of_union_keys. by exists r.
Qed.

(** What [save] does when there is a record: the rows get their missing
    fields, and one sheet is written. *)
Lemma ocac_save_sheet E w :
  rows w ≠ [] →
  let cols := Ocac.meta_left ++ Ocac.table_headers ++ Ocac.meta_right in
  let out_path :=
    Py.path_join "output" ("office_chief_adviser_cost_" +:+ now E +:+ ".csv") in
  Ocac.save E w
  = (Return tt,
     {| shown := shown w; rows := map Ocac.fill_meta (rows w);
        files := <[out_path := Sheet cols
                                 (map (fun r => map (fun c => default "" (Py.get r c)) cols)
                                    (rows w))]> (files w);
        trace := trace w ++ [CsvWrite out_path] |}).
Proof.
  intros Hrows cols out_path.
  unfold Ocac.save. unfold bind at 1, get_world at 1.
  destruct (rows w) as [|r rs] eqn:Hrs; [done|].
  unfold to_csv. unfold_monad. cbn [rows shown files trace]. do 3 f_equal.
  fold cols. rewrite (written_cells (map Ocac.fill_meta (r :: rs)) cols).
  f_equal. rewrite map_map. apply map_ext. intros r'.
  apply map_ext. intros c. apply fill_meta_cell.
Qed.

(** C3, as the code has it.  The columns of the sheet do not depend on the
    records.  With at least one row collected, the [save] of ocac_scraper.py
    (and of pfd_scraper.py, fcd_scraper.py, ajnifm_scraper.py, which share it)
    writes one sheet whose columns are the five leading fields, then
    [self.table_headers], then the five trailing url and asset fields; no
    scraper ever puts anything in [self.table_headers], so the columns are the
    ten fixed fields.  Every record gives one row with one cell per column;
    the cell of a fixed field the record lacks is the empty string.  A field
    that is not one of the ten is not written, for the records that carry it
    no more than for the others: records that agree on the ten fields give the
    same sheet, whatever else they hold. *)
Theorem save_writes_every_column_on_every_row (E : env) (w : world) :
  rows w ≠ [] →
  let cols := Ocac.meta_left ++ Ocac.table_headers ++ Ocac.meta_right in
  let out_path :=
    Py.path_join "output" ("office_chief_adviser_cost_" +:+ now E +:+ ".csv") in
  let sheet := map (fun r => map (fun c => default "" (Py.get r c)) cols) (rows w) in
  fst (Ocac.save E w) = Return tt
  ∧ files (snd (Ocac.save E w)) !! out_path = Some (Sheet cols sheet)
  ∧ cols = ["section_type"; "section_name"; "element_type"; "title"; "content";
            "url"; "image_url"; "pdf_url"; "local_image_path"; "local_pdf_path"]
  ∧ length sheet = length (rows w)
  ∧ Forall (fun row => length row = length cols) sheet
  ∧ (∀ r c, r ∈ rows w → c ∈ cols → Py.get r c = None →
            ∃ i j, rows w !! i = Some r ∧ cols !! j = Some c
                   ∧ sheet !! i ≫= (fun row => row !! j) = Some "")
  ∧ (∀ w', Forall2 (fun r r' => ∀ c, c ∈ cols → Py.get r' c = Py.get r c)
             (rows w) (rows w') →
           fst (Ocac.save E w') = Return tt
           ∧ files (snd (Ocac.save E w')) !! out_path = Some (Sheet cols sheet)).
Proof.
  intros Hrows cols out_path sheet.
  rewrite (ocac_save_sheet E w Hrows). fold cols out_path sheet.
  cbn [fst snd files]. rewrite lookup_insert_eq. split_and!; try done.
  - subst sheet. by rewrite length_map.
  - subst sheet. apply Forall_map, Forall_forall. intros r _. by rewrite length_map.
  - intros r c [i Hi]%list_elem_of_lookup [j Hj]%list_elem_of_lookup Hnone.
    exists i, j. repeat split; [done | done |].
    subst sheet. rewrite lookup_map, Hi. cbn [fmap option_fmap option_map mbind option_bind].
    rewrite lookup_map, Hj. cbn [fmap option_fmap option_map]. by rewrite Hnone.
  - intros w' Hagree.
    assert (rows w' ≠ []) as Hrows'.
    { intros Hnil. rewrite Hnil in Hagree. by apply Forall2_nil_inv_r in Hagree. }
    rewrite (ocac_save_sheet E w' Hrows'). fold cols out_path.
    cbn [fst snd files]. rewrite lookup_insert_eq. split; [done|]. do 2 f_equal.
    subst sheet. clear Hrows Hrows'.
    induction Hagree as [|r r' rs rs' Hr _ IH]; [done|].
    cbn [map]. rewrite IH. f_equal.
    apply map_ext_in. intros c Hc%list_elem_of_In. by rewrite Hr.
Qed.

Lemma save_writes_every_column_on_every_row_witness :
  let E := serves_all in
  let w := mixed_rows in
  let cols := Ocac.meta_left ++ Ocac.table_headers ++ Ocac.meta_right in
  let out_path :=
    Py.path_join "output" ("office_chief_adviser_cost_" +:+ now E +:+ ".csv") in
  let sheet := map (fun r => map (fun c => default "" (Py.get r c)) cols) (rows w) in
  fst (Ocac.save E w) = Return tt
  ∧ files (snd (Ocac.save E w)) !! out_path = Some (Sheet cols sheet)
  ∧ cols = ["section_type"; "section_name"; "element_type"; "title"; "content";
            "url"; "image_url"; "pdf_url"; "local_image_path"; "local_pdf_path"]
  ∧ length sheet = length (rows w)
  ∧ Forall (fun row => length row = length cols) sheet
  ∧ (∀ r c, r ∈ rows w → c ∈ cols → Py.get r c = None →
            ∃ i j, rows w !! i = Some r ∧ cols !! j = Some c
                   ∧ sheet !! i ≫= (fun row => row !! j) = Some "")
  ∧ (∀ w', Forall2 (fun r r' => ∀ c, c ∈ cols → Py.get r' c = Py.get r c)
             (rows w) (rows w') →
           fst (Ocac.save E w') = Return tt
           ∧ files (snd (Ocac.save E w')) !! out_path = Some (Sheet cols sheet)).
Proof.
  apply (save_writes_every_column_on_every_row serves_all mixed_rows). discriminate.
Defined.

(** C3 as stated fails.  Of the two records above the second carries a field
    of its own, [listing_type], and the first does not.  The sheet written for
    them has the ten fixed columns and no other: [listing_type] is not a
    column, and its value is on neither row.  The fixed fields the second
    record lacks are there, left empty. *)
Lemma page_specific_field_is_not_written :
  map (fun r => Py.get r "listing_type") (rows mixed_rows) = [None; Some "Active"]
  ∧ fst (Ocac.save serves_all mixed_rows) = Return tt
  ∧ files (snd (Ocac.save serves_all mixed_rows))
      !! "output/office_chief_adviser_cost_20240101_000000.csv"
    = Some (Sheet
              ["section_type"; "section_name"; "element_type"; "title"; "content";
               "url"; "image_url"; "pdf_url"; "local_image_path"; "local_pdf_path"]
              [["Page Title"; "Main Heading"; "H1 Title"; "Office of Chief Adviser Cost";
                "Office of Chief Adviser Cost";
                "https://doe.gov.in/office-chief-adviser-cost"; ""; ""; ""; ""];
               ["Divisions"; ""; ""; "Paragraph 1"; "The office advises on cost matters.";
                ""; ""; ""; ""; ""]]).
Proof. split_and!; vm_compute; reflexivity. Qed.

(** C4, as the code has it.  With no rows, the [save] of ocac_scraper.py
    (and of pfd_scraper.py, fcd_scraper.py, ajnifm_scraper.py, which share it;
    summary_scraper.py, proc_scraper.py and auto_scraper.py make the same test)
    prints its notice, returns, and leaves the disk as it was.  The [save_csv]
    of rec_scraper.py (and of grants_scraper.py, annualrep_scraper.py,
    rti_scraper.py, manuals_scraper.py) makes no such test: it writes a file
    that holds the header row alone.  Neither raises. *)
Theorem empty_run_skips_or_writes_header (E : env) (d : document)
    (fs : gmap string content) (t : list event) :
  let w := {| shown := d; rows := []; files := fs; trace := t |} in
  let out_path := Py.path_join "output" ("recruitment_rules_" +:+ now E +:+ ".csv") in
  Ocac.save E w = (Return tt, logged w [Print NoData])
  ∧ Rec.save_csv E w
    = (Return tt,
       {| shown := d; rows := [];
          files := <[out_path := Sheet Rec.META_FIELDS []]> fs;
          trace := t ++ [CsvWrite out_path] |}).
Proof. split; reflexivity. Qed.

(** C4 as stated fails for rec_scraper.py: a run that finds no table on the
    site collects no rows and still creates its output file. *)
Lemma rec_writes_file_for_empty_run :
  rows (snd (Rec.run serves_all urljoin_doe 5 fresh)) = []
  ∧ fst (Rec.run serves_all urljoin_doe 5 fresh) = Return tt
  ∧ files (snd (Rec.run serves_all urljoin_doe 5 fresh))
      !! "output/recruitment_rules_20240101_000000.csv"
    = Some (Sheet ["section_type"; "section_name"; "element_type"; "title"; "content";
                   "url"; "pdf_url"; "local_pdf_path"] []).
Proof. repeat split; vm_compute; reflexivity. Qed.

Lemma emits_rec_save_csv E : emits saving (Rec.save_csv E).
Proof.
  unfold Rec.save_csv. apply emits_bind; [by apply emits_silent | intros w].
  apply emits_to_csv.
Qed.

(** ** Order of the passes *)

Lemma emits_rec_scrape E urljoin fuel :
  emits browsing (Rec.scrape_main_and_archive E urljoin fuel).
Proof.
  unfold Rec.scrape_main_and_archive, Rec.handle_pagination.
  apply emits_bind; [apply emits_safe_get_short | intros _].
  apply emits_bind; [apply emits_rec_pagination_loop | intros _].
  apply emits_bind; [by apply emits_silent | intros w].
  destruct (archive_button _).
  - apply emits_bind; [apply emits_safe_get_short | intros _].
    apply emits_rec_pagination_loop.
  - by apply emits_emit.
Qed.

(** The three passes of rec_scraper.py, in the order of its trace. *)
Lemma rec_run_in_three_passes (E : env) (urljoin : string -> string -> string)
    (fuel : nat) (w : world) :
  ∃ t_pages t_assets t_sink,
    trace (snd (Rec.run E urljoin fuel w)) = trace w ++ t_pages ++ t_assets ++ t_sink
    ∧ trace (snd (Rec.scrape_main_and_archive E urljoin fuel w)) = trace w ++ t_pages
    ∧ Forall browsing t_pages ∧ Forall downloading t_assets ∧ Forall saving t_sink
    ∧ (fst (Rec.scrape_main_and_archive E urljoin fuel w) ≠ Return tt
       → t_assets = [] ∧ t_sink = []).
Proof.
  destruct (emits_rec_scrape E urljoin fuel w) as (t1 & Ht1 & HP1).
  unfold Rec.run, try_finally, driver_quit. unfold bind at 1.
  destruct (Rec.scrape_main_and_archive E urljoin fuel w) as [[[]|e|] w1] eqn:Hscrape;
    simpl in Ht1.
  - destruct (emits_then downloading saving (Rec.download_pdfs E) (Rec.save_csv E) w1
                (emits_rec_download_pdfs E) (emits_rec_save_csv E))
      as (t2 & t3 & Ht & _ & HP2 & HP3 & _).
    exists t1, t2, t3. repeat split; try done.
    destruct ((Rec.download_pdfs E;; Rec.save_csv E) w1) as [[[]|e|] w2];
      simpl in *; by rewrite Ht, Ht1, <- !app_assoc.
  - exists t1, [], []. simpl. rewrite !app_nil_r. by repeat split.
  - exists t1, [], []. simpl. rewrite !app_nil_r. by repeat split.
Qed.

Lemma auto_run_saves_last E urljoin fuel : saves_last (Auto.run E urljoin fuel).
Proof.
  intros w. unfold Auto.run, try_finally, driver_quit.
  set (body := (Auto.safe_get E _ ;; _)).
  assert (saves_last body) as Hbody.
  { subst body. unfold Auto.paginate_listing.
    apply saves_last_bind; [apply emits_safe_get_long | intros _].
    apply saves_last_bind; [by apply emits_silent | intros w0].
    apply saves_last_bind; [apply emits_auto_listing_loop | intros _].
    apply saves_last_bind.
    { destruct (_ <$> _); [apply emits_auto_listing_loop | by apply emits_emit]. }
    intros _. apply saves_last_bind; [by apply emits_silent | intros w1].
    destruct (rows w1).
    - apply saves_last_before. by apply emits_emit.
    - apply saves_last_saving, emits_to_csv. }
  destruct (Hbody w) as (t & t_sink & Ht & HP1 & HP2).
  exists t, t_sink. destruct (body w) as [[[]|e|] w']; by repeat split.
Qed.

(** C9, as the code has it.  In rec_scraper.py (grants_scraper.py,
    annualrep_scraper.py, rti_scraper.py, manuals_scraper.py and
    summary_scraper.py run the same three steps) the trace of a run is page
    loads, then asset requests, then the write of the CSV file, whatever the
    site and the server do; and unless the scrape of all pages returned, no
    asset is requested and nothing is written.  In auto_scraper.py the assets
    are requested between the page loads, and only the write of the CSV file
    is kept for the end. *)
Theorem downloads_after_pages_in_rec_csv_last_in_both (E : env)
    (urljoin : string -> string -> string) (fuel : nat) (w : world) :
  (∃ t_pages t_assets t_sink,
    trace (snd (Rec.run E urljoin fuel w)) = trace w ++ t_pages ++ t_assets ++ t_sink
    ∧ trace (snd (Rec.scrape_main_and_archive E urljoin fuel w)) = trace w ++ t_pages
    ∧ Forall browsing t_pages ∧ Forall downloading t_assets ∧ Forall saving t_sink
    ∧ (fst (Rec.scrape_main_and_archive E urljoin fuel w) ≠ Return tt
       → t_assets = [] ∧ t_sink = []))
  ∧ (∃ t t_sink,
      trace (snd (Auto.run E urljoin fuel w)) = trace w ++ t ++ t_sink
      ∧ Forall before_saving t ∧ Forall saving t_sink).
Proof. split; [apply rec_run_in_three_passes | apply auto_run_saves_last]. Qed.

(** C9 as stated fails for auto_scraper.py, which downloads each file while
    it parses the row ([parse_table] calls [download_pdf]): the first file is
    requested before the second page is loaded. *)
Lemma auto_downloads_between_pages :
  trace (snd (Auto.run listing_site urljoin_doe 5 fresh))
  = [Nav "https://doe.gov.in/pay-related-matters/88";
     Nav "https://doe.gov.in/pay-related-matters/88";
     HttpGet "https://doe.gov.in/files/om1.pdf";
     FileOpen "pdfs/autonomous_bodies_Active_OM-1_2024.pdf";
     Nav "https://doe.gov.in/pay-related-matters/88?page=1";
     HttpGet "https://doe.gov.in/files/om2.pdf";
     FileOpen "pdfs/autonomous_bodies_Active_OM-2_2024.pdf";
     Print NoArchive;
     CsvWrite "output/autonomous_bodies_pay_related_20240101_000000.csv"].
Proof. vm_compute. reflexivity. Qed.

(** * Further properties *)

(** ** State relations kept by a computation *)

Section Steps.
Context (R : relation world) `{!PreOrder R}.

(** Whatever the outcome, the world a computation leaves is related to the
    one it started from. *)
Definition steps {A} (m : M A) : Prop := ∀ w, R w (snd (m w)).

Lemma steps_same {A} (m : M A) : (∀ w, snd (m w) = w) → steps m.
Proof using Type*. intros H w. by rewrite H. Qed.

Lemma steps_ret {A} (a : A) : steps (ret a).
Proof using Type*. by apply steps_same. Qed.

Lemma steps_raise {A} (e : exn) : steps (@raise A e).
Proof using Type*. by apply steps_same. Qed.

Lemma steps_out_of_fuel {A} : steps (@out_of_fuel A).
Proof using Type*. by apply steps_same. Qed.

Lemma steps_bind {A B} (m : M A) (k : A -> M B) :
  steps m → (∀ a, steps (k a)) → steps (bind m k).
Proof using Type*.
  intros Hm Hk w. unfold bind. specialize (Hm w).
  destruct (m w) as [[a|e|] w1]; simpl in *; [|done|done].
  etrans; [exact Hm | apply Hk].
Qed.

Lemma steps_try_except {A} (m : M A) caught handler :
  steps m → (∀ e, steps (handler e)) → steps (try_except m caught handler).
Proof using Type*.
  intros Hm Hh w. unfold try_except. specialize (Hm w).
  destruct (m w) as [[a|e|] w1]; simpl in *; [done| |done].
  destruct (caught e); [|done]. etrans; [exact Hm | apply Hh].
Qed.

Lemma steps_try_finally {A} (m : M A) cleanup :
  steps m → steps cleanup → steps (try_finally m cleanup).
Proof using Type*.
  intros Hm Hc w. unfold try_finally. specialize (Hm w).
  destruct (m w) as [[a|e|] w1]; simpl in *; [| |done].
  all: specialize (Hc w1); destruct (cleanup w1) as [[[]|e'|] w2]; simpl in *;
    by etrans.
Qed.

Lemma steps_for_each {A} (xs : list A) (body : A -> M unit) :
  (∀ x, steps (body x)) → steps (for_each xs body).
Proof using Type*.
  intros Hb. induction xs as [|x xs IH]; simpl.
  - apply steps_ret.
  - apply steps_bind; [apply Hb | intros _; apply IH].
Qed.

End Steps.

Ltac steps_end :=
  first [apply steps_ret | apply steps_raise | apply steps_out_of_fuel]; apply _.

Ltac steps_bind := apply steps_bind; [apply _ | | ].

Ltac steps_try := apply steps_try_except; [apply _ | | ].

(** ** Reading a run that returned *)

Lemma bind_returns {A B} (m : M A) (k : A -> M B) (w wf : world) (b : B) :
  bind m k w = (Return b, wf) →
  ∃ a w1, m w = (Return a, w1) ∧ k a w1 = (Return b, wf).
Proof.
  unfold bind. destruct (m w) as [[a|e|] w1]; [|done|done]. intros H. by exists a, w1.
Qed.

Lemma try_finally_returns {A} (m : M A) (w wf : world) (a : A) :
  try_finally m driver_quit w = (Return a, wf) → m w = (Return a, wf).
Proof.
  unfold try_finally, driver_quit, ret.
  destruct (m w) as [[a'|e|] w1]; [|done|done]. by intros [= -> ->].
Qed.

(** ** Computations that raise nothing *)

Definition no_raise {A} (m : M A) : Prop := ∀ w e, fst (m w) ≠ Raise e.

Lemma no_raise_ret {A} (a : A) : no_raise (ret a).
Proof. by intros w e. Qed.


Lemma no_raise_bind {A B} (m : M A) (k : A -> M B) :
  no_raise m → (∀ a, no_raise (k a)) → no_raise (bind m k).
Proof.
  intros Hm Hk w e. unfold bind. specialize (Hm w).
  destruct (m w) as [[a|e'|] w1]; simpl in *; [apply Hk | by destruct (Hm e') | done].
Qed.

(** [except Exception:] lets nothing through but what its handler raises. *)
Lemma no_raise_catch_all {A} (m : M A) (handler : exn -> M A) :
  (∀ e, no_raise (handler e)) → no_raise (try_except m any_exception handler).
Proof.
  intros Hh w e. unfold try_except, any_exception.
  destruct (m w) as [[a|e'|] w1]; simpl; [done | apply Hh | done].
Qed.

Lemma no_raise_try_except {A} (m : M A) caught (handler : exn -> M A) :
  no_raise m → no_raise (try_except m caught handler).
Proof.
  intros Hm w e. unfold try_except. specialize (Hm w).
  destruct (m w) as [[a|e'|] w1]; simpl in *; [done | by destruct (Hm e') | done].
Qed.

Lemma no_raise_try_finally {A} (m : M A) cleanup :
  no_raise m → no_raise cleanup → no_raise (try_finally m cleanup).
Proof.
  intros Hm Hc w e. unfold try_finally. specialize (Hm w).
  destruct (m w) as [[a|e'|] w1]; simpl in *; [|by destruct (Hm e')|done].
  specialize (Hc w1). destruct (cleanup w1) as [[[]|e''|] w2]; simpl in *;
    [done | by destruct (Hc e'') | done].
Qed.

Lemma no_raise_for_each {A} (xs : list A) (body : A -> M unit) :
  (∀ x, no_raise (body x)) → no_raise (for_each xs body).
Proof.
  intros Hb. induction xs as [|x xs IH]; simpl.
  - apply no_raise_ret.
  - apply no_raise_bind; [apply Hb | intros _; apply IH].
Qed.

(** ** Dictionaries *)

Lemma get_set (d : Py.dict) (k v k' : string) :
  Py.get (Py.set d k v) k' = if String.eqb k' k then Some v else Py.get d k'.
Proof.
  induction d as [|[k0 v0] d IH]; simpl.
  - by destruct (String.eqb k' k).
  - destruct (String.eqb_spec k k0) as [->|Hne]; simpl.
    + by destruct (String.eqb k' k0).
    + rewrite IH. destruct (String.eqb_spec k' k0) as [->|]; [|done].
      destruct (String.eqb_spec k0 k) as [->|]; done.
Qed.

Lemma keys_set (d : Py.dict) (k v : string) :
  k ∈ Py.keys d → Py.keys (Py.set d k v) = Py.keys d.
Proof.
  induction d as [|[k0 v0] d IH]; simpl; [by intros ?%elem_of_nil|].
  destruct (String.eqb_spec k k0) as [->|Hne]; [done|].
  intros [?|Hin]%elem_of_cons; [done|]. simpl. f_equal. by apply IH.
Qed.

Lemma set_set (d : Py.dict) (k v v' : string) :
  Py.set (Py.set d k v) k v' = Py.set d k v'.
Proof.
  induction d as [|[k0 v0] d IH]; simpl.
  - by rewrite String.eqb_refl.
  - destruct (String.eqb_spec k k0) as [->|Hne]; simpl.
    + by rewrite String.eqb_refl.
    + destruct (String.eqb_spec k k0); [done|]. by rewrite IH.
Qed.

(** The values of a record in the order of its keys are what a frame with
    exactly those columns holds for it. *)
Lemma cells_of_own_keys (r : Py.dict) :
  NoDup (Py.keys r) → map (fun c => default "" (Py.get r c)) (Py.keys r) = map snd r.
Proof.
  induction r as [|[k v] r IH]; simpl; [done|].
  intros [Hk Hnd]%NoDup_cons. rewrite String.eqb_refl. simpl. f_equal.
  rewrite <- IH by done. apply map_ext_in. intros c Hc%list_elem_of_In.
  destruct (String.eqb_spec c k) as [->|]; [done | reflexivity].
Qed.

(** ** rec_scraper.py: records through the three passes *)

(** A record with the eight fields of the output, in their order. *)
Definition rec_record (d : Py.dict) : Prop := Py.keys d = Rec.META_FIELDS.

Lemma rec_row_of_record urljoin headers section_name page_url r d :
  Rec.row_of urljoin headers section_name page_url r = Some d → rec_record d.
Proof.
  unfold Rec.row_of. destruct (td_text r); [done|]. by intros [= <-].
Qed.

Lemma table_rows_records urljoin soup section_name page_url :
  Forall rec_record (table_rows urljoin soup section_name page_url).
Proof.
  unfold table_rows. destruct (first_table soup) as [t|]; [|constructor].
  apply Forall_forall. intros d (r & _ & Hd)%list_elem_of_omap.
  by eapply rec_row_of_record.
Qed.

(** Pages are read, records are added at the end, the disk is left alone. *)
Definition collects (ok : Py.dict -> Prop) (w w' : world) : Prop :=
  files w' = files w ∧ ∃ more, rows w' = rows w ++ more ∧ Forall ok more.

#[local] Instance collects_preorder ok : PreOrder (collects ok).
Proof.
  split.
  - intros w. split; [done|]. exists []. by rewrite app_nil_r.
  - intros w1 w2 w3 [Hf1 (m1 & Hr1 & Hok1)] [Hf2 (m2 & Hr2 & Hok2)].
    split; [congruence|]. exists (m1 ++ m2).
    rewrite Hr2, Hr1, app_assoc. split; [done | by apply Forall_app].
Qed.

Lemma collects_safe_get_short ok E url : steps (collects ok) (safe_get_short E url).
Proof.
  intros w. unfold safe_get_short, driver_get, window_stop. run_monad.
  destruct (browse E (trace w) url) as [[e|] [e'|] polls wt d]; simpl;
    try destruct (is_timeout e); simpl;
    (split; [done|]; exists []; by rewrite app_nil_r).
Qed.

Lemma collects_rec_extract_table urljoin soup section_name page_url :
  steps (collects rec_record) (Rec.extract_table urljoin soup section_name page_url).
Proof.
  intros w. rewrite extract_table_appends. split; [done|].
  eexists. split; [reflexivity|]. apply table_rows_records.
Qed.

Lemma collects_rec_follow_next ok E soup : steps (collects ok) (Rec.follow_next E soup).
Proof.
  unfold Rec.follow_next. steps_try; [|intros e; steps_end].
  destruct (next_anchor soup) as [[[cls|] href]|]; cbn [a_class a_href]; try steps_end.
  destruct (Py.contains "is-disabled" cls); [steps_end|].
  destruct href as [h|]; [|steps_end].
  destruct (Py.truthy h); [|steps_end].
  steps_bind; [apply collects_safe_get_short | intros _; steps_end].
Qed.

Lemma collects_rec_pagination_loop E urljoin fuel section_name visited :
  steps (collects rec_record) (Rec.pagination_loop E urljoin fuel section_name visited).
Proof.
  revert visited. induction fuel as [|fuel IH]; intros visited; simpl.
  - steps_end.
  - steps_bind; [by apply steps_same; [apply _|] | intros w].
    case_bool_decide; [steps_end|].
    steps_bind; [apply collects_rec_extract_table | intros _].
    steps_bind; [apply collects_rec_follow_next | intros again].
    destruct again; [apply IH | steps_end].
Qed.




(** ** The download pass of rec_scraper.py *)

Lemma on_disk_mono (w w' : world) (p : string) :
  files w ⊆ files w' → on_disk w p = true → on_disk w' p = true.
Proof.
  unfold on_disk. intros Hsub [Hdir|Hfile]%orb_true_iff.
  - by rewrite Hdir.
  - apply bool_decide_eq_true in Hfile.
    rewrite (bool_decide_eq_true_2 _ (lookup_weaken_is_Some _ _ _ Hfile Hsub)).
    apply orb_true_r.
Qed.

Lemma subseteq_written (fs : gmap string content) (p : string) (c c' : content) :
  fs !! p = None → fs ⊆ <[p := c']> (<[p := c]> fs).
Proof. intros Hnone. rewrite insert_insert_eq. by apply insert_subseteq. Qed.

(** What the pass may do to a row: leave it, or record the path computed from
    its URL, and then something is on disk at that path. *)
Definition rec_filled (w' : world) (r r' : Py.dict) : Prop :=
  r' = r
  ∨ ∃ u, Py.get r "pdf_url" = Some u
         ∧ r' = Py.set r "local_pdf_path" (Rec.local_path_of u)
         ∧ on_disk w' (Rec.local_path_of u) = true.

Lemma rec_download_row_effect E row w :
  shown (snd (Rec.download_row E row w)) = shown w
  ∧ rows (snd (Rec.download_row E row w)) = rows w
  ∧ files w ⊆ files (snd (Rec.download_row E row w))
  ∧ match fst (Rec.download_row E row w) with
    | Return row' => rec_filled (snd (Rec.download_row E row w)) row row'
    | Raise e => Py.get row "pdf_url" = None
    | OutOfFuel => False
    end.
Proof.
  unfold Rec.download_row, rec_filled.
  destruct (Py.get row "pdf_url") as [u|] eqn:Hurl; [|by split_and!].
  destruct (Rec.looks_like_pdf u); [|split_and!; try done; by left].
  unfold path_exists, requests_get, open_wb, file_write. run_monad.
  destruct (on_disk w (Rec.local_path_of u)) eqn:Hdisk; simpl.
  { split_and!; try done. right. by exists u. }
  destruct (on_disk_false _ _ Hdisk) as [Hdir Hnone].
  destruct (http E (trace w) u) as [e|status chunks [|]]; simpl;
    try (split_and!; try done; by left).
  destruct (status =? 200)%nat; simpl; [|split_and!; try done; by left].
  rewrite Hdir. simpl. rewrite lookup_insert_eq. simpl.
  split_and!; try done; [by apply subseteq_written|].
  right. exists u. split_and!; try done. rewrite insert_insert_eq. apply (on_disk_stored w).
Qed.

Definition fills_paths (w w' : world) : Prop :=
  shown w' = shown w
  ∧ files w ⊆ files w'
  ∧ Forall2 (rec_filled w') (rows w) (rows w').

Lemma rec_filled_mono (w w' : world) (r r' : Py.dict) :
  files w ⊆ files w' → rec_filled w r r' → rec_filled w' r r'.
Proof.
  intros Hsub [->|(u & Hu & -> & Hdisk)]; [by left|].
  right. exists u. repeat split; [done|]. by eapply on_disk_mono.
Qed.

Lemma rec_filled_url (w : world) (r r' : Py.dict) :
  rec_filled w r r' → Py.get r' "pdf_url" = Py.get r "pdf_url".
Proof. intros [->|(u & Hu & -> & _)]; [done|]. by rewrite get_set. Qed.

Lemma fills_paths_refl (w : world) : fills_paths w w.
Proof.
  repeat split; [done|]. apply Forall2_same_length_lookup_2; [done|].
  intros i r r' Hr Hr'. left. congruence.
Qed.

Lemma fills_paths_trans (w1 w2 w3 : world) :
  fills_paths w1 w2 → fills_paths w2 w3 → fills_paths w1 w3.
Proof.
  intros (Hs1 & Hf1 & Hr1) (Hs2 & Hf2 & Hr2).
  repeat split; [congruence | by etrans |].
  eapply Forall2_trans; [|exact Hr1|exact Hr2].
  intros r1 r2 r3 H12 H23. simpl in *.
  pose proof (rec_filled_url _ _ _ H12) as Hurl.
  apply (rec_filled_mono _ w3) in H12; [|done].
  destruct H23 as [->|(u & Hu & -> & Hdisk)]; [done|].
  destruct H12 as [->|(u' & Hu' & -> & Hdisk')]; [right; by exists u|].
  right. exists u'. rewrite Hurl in Hu. assert (u' = u) as -> by congruence.
  by rewrite set_set.
Qed.

(** One round of [for row in self.rows:] *)
Definition rec_download_step (E : env) (i : nat) : M unit :=
  let* w := get_world in
  match rows w !! i with
  | Some row => let* row' := Rec.download_row E row in Rec.update_row i row'
  | None => ret tt
  end.

Definition has_url (r : Py.dict) : Prop := is_Some (Py.get r "pdf_url").

Lemma rec_download_step_fills E i w :
  Forall has_url (rows w) →
  ∃ w', rec_download_step E i w = (Return tt, w')
        ∧ fills_paths w w' ∧ Forall has_url (rows w').
Proof.
  intros Hurls. unfold rec_download_step. unfold bind at 1, get_world at 1.
  destruct (rows w !! i) as [row|] eqn:Hrow;
    [|exists w; split; [done|]; split; [apply fills_paths_refl | done]].
  pose proof (Forall_lookup_1 _ _ _ _ Hurls Hrow) as [u Hu].
  unfold bind at 1.
  destruct (rec_download_row_effect E row w) as (Hshown & Hrows & Hfiles & Hout).
  destruct (Rec.download_row E row w) as [[row'|e|] w1]; simpl in *;
    [|congruence|done].
  eexists. split; [reflexivity|]. unfold Rec.update_row, set_rows. simpl.
  rewrite Hrows. split; [repeat split; [done|done|]|].
  - simpl. match goal with |- Forall2 (rec_filled ?W0) _ _ => set (W := W0) end.
    assert (rec_filled W row row') as Hout' by (by apply (rec_filled_mono w1)).
    rewrite <- (list_insert_id (rows w) i row) at 1 by done.
    apply Forall2_insert; [|done].
    apply Forall2_same_length_lookup_2; [done|].
    intros j r r' Hr Hr'. left. congruence.
  - apply Forall_insert; [done|]. unfold has_url.
    rewrite (rec_filled_url _ _ _ Hout), Hu. by eexists.
Qed.

Lemma rec_download_steps_fill E (idxs : list nat) w :
  Forall has_url (rows w) →
  ∃ w', for_each idxs (rec_download_step E) w = (Return tt, w') ∧ fills_paths w w'.
Proof.
  revert w. induction idxs as [|i idxs IH]; intros w Hurls; simpl.
  - exists w. split; [done | apply fills_paths_refl].
  - unfold bind at 1.
    destruct (rec_download_step_fills E i w Hurls) as (w1 & -> & Hfill & Hurls1).
    destruct (IH w1 Hurls1) as (w2 & -> & Hfill2).
    exists w2. split; [done|]. by eapply fills_paths_trans.
Qed.

Lemma rec_download_pdfs_fills E w :
  Forall has_url (rows w) →
  ∃ w', Rec.download_pdfs E w = (Return tt, w') ∧ fills_paths w w'.
Proof.
  intros Hurls. unfold Rec.download_pdfs. unfold bind at 1, get_world at 1.
  apply (rec_download_steps_fill E _ w Hurls).
Qed.

(** X3.  The download pass of rec_scraper.py over rows that all carry a
    [pdf_url] never raises, whatever the server answers.  It keeps the rows
    in number and order and changes no field but [local_pdf_path]; and where
    it changes that one, the new value is the destination computed from the
    row's URL and something exists on disk at that path. *)
Theorem download_pass_fills_in_paths_only (E : env) (w : world) :
  Forall (fun r => is_Some (Py.get r "pdf_url")) (rows w) →
  ∃ w', Rec.download_pdfs E w = (Return tt, w')
        ∧ shown w' = shown w
        ∧ Forall2
            (fun r r' =>
               (∀ k, k ≠ "local_pdf_path" → Py.get r' k = Py.get r k)
               ∧ (Py.get r' "local_pdf_path" = Py.get r "local_pdf_path"
                  ∨ ∃ u, Py.get r "pdf_url" = Some u
                         ∧ Py.get r' "local_pdf_path" = Some (Rec.local_path_of u)
                         ∧ on_disk w' (Rec.local_path_of u) = true))
            (rows w) (rows w').
Proof.
  intros Hurls.
  destruct (rec_download_pdfs_fills E w Hurls) as (w' & Hrun & Hshown & _ & Hrows).
  exists w'. split; [done|]. split; [done|].
  eapply Forall2_impl; [exact Hrows|].
  intros r r' [->|(u & Hu & -> & Hdisk)]; [split; [done | by left]|].
  split.
  - intros k Hk. rewrite get_set. by destruct (String.eqb_spec k "local_pdf_path").
  - right. exists u. by rewrite get_set.
Qed.

Lemma download_pass_fills_in_paths_only_witness :
  ∃ w', Rec.download_pdfs first_missing two_reports = (Return tt, w')
        ∧ shown w' = shown two_reports
        ∧ Forall2
            (fun r r' =>
               (∀ k, k ≠ "local_pdf_path" → Py.get r' k = Py.get r k)
               ∧ (Py.get r' "local_pdf_path" = Py.get r "local_pdf_path"
                  ∨ ∃ u, Py.get r "pdf_url" = Some u
                         ∧ Py.get r' "local_pdf_path" = Some (Rec.local_path_of u)
                         ∧ on_disk w' (Rec.local_path_of u) = true))
            (rows two_reports) (rows w').
Proof.
  apply (download_pass_fills_in_paths_only first_missing two_reports).
  repeat constructor; by eexists.
Defined.

(** ** Characters of the names the downloaders build *)

Fixpoint all_chars (P : ascii -> Prop) (s : string) : Prop :=
  match s with
  | EmptyString => True
  | String c s' => P c ∧ all_chars P s'
  end.

Lemma append_cons (c : ascii) (s1 s2 : string) :
  String c s1 +:+ s2 = String c (s1 +:+ s2).
Proof. reflexivity. Qed.

Lemma all_chars_app (P : ascii -> Prop) (s1 s2 : string) :
  all_chars P (s1 +:+ s2) ↔ all_chars P s1 ∧ all_chars P s2.
Proof.
  induction s1 as [|c s1 IH].
  - change ("" +:+ s2) with s2. simpl. tauto.
  - rewrite append_cons. simpl. tauto.
Qed.

Lemma all_chars_impl (P Q : ascii -> Prop) (s : string) :
  (∀ c, P c → Q c) → all_chars P s → all_chars Q s.
Proof. intros HPQ. induction s as [|c s IH]; simpl; [done|]. intros [? ?]. auto. Qed.

Lemma all_chars_occurs (P : ascii -> Prop) (c : ascii) (s : string) :
  ¬ P c → all_chars P s → Py.occurs c s = false.
Proof.
  intros Hc. induction s as [|d s IH]; simpl; [done|]. intros [Hd Hs].
  destruct (Ascii.eqb_spec c d) as [->|_]; [done | by apply IH].
Qed.

Lemma occurs_all_chars (c : ascii) (s : string) :
  Py.occurs c s = false → all_chars (fun d => d ≠ c) s.
Proof.
  induction s as [|d s IH]; simpl; [done|].
  destruct (Ascii.eqb_spec c d) as [->|Hne]; [done|]. intros Hs. split; [done | by apply IH].
Qed.

Lemma all_chars_lstrip_by (P : ascii -> Prop) (drop : ascii -> bool) (s : string) :
  all_chars P s → all_chars P (Py.lstrip_by drop s).
Proof.
  induction s as [|c s IH]; simpl; [done|]. intros [Hc Hs].
  destruct (drop c); [by apply IH | by split].
Qed.

Lemma all_chars_rstrip_by (P : ascii -> Prop) (drop : ascii -> bool) (s : string) :
  all_chars P s → all_chars P (Py.rstrip_by drop s).
Proof.
  induction s as [|c s IH]; simpl; [done|]. intros [Hc Hs]. specialize (IH Hs).
  destruct (Py.rstrip_by drop s) as [|d r]; [by destruct (drop c) | by split].
Qed.

Lemma all_chars_strip_by (P : ascii -> Prop) (drop : ascii -> bool) (s : string) :
  all_chars P s → all_chars P (Py.strip_by drop s).
Proof. intros Hs. by apply all_chars_rstrip_by, all_chars_lstrip_by. Qed.

(** What [re.sub] leaves: the characters of the class, and underscores. *)
Lemma all_chars_sub_runs (keep : ascii -> bool) (in_run : bool) (s : string) :
  all_chars (fun c => keep c = true ∨ c = "_"%char) (Py.sub_runs keep in_run s).
Proof.
  revert in_run. induction s as [|c s IH]; intros in_run; simpl; [done|].
  destruct (keep c) eqn:Hc; [split; [by left | apply IH]|].
  destruct in_run; [apply IH | split; [by right | apply IH]].
Qed.

Lemma all_chars_sub_runs_of (P : ascii -> Prop) (keep : ascii -> bool) (in_run : bool)
    (s : string) :
  P "_"%char → all_chars P s → all_chars P (Py.sub_runs keep in_run s).
Proof.
  intros Hu. revert in_run. induction s as [|c s IH]; intros in_run; simpl; [done|].
  intros [Hc Hs]. destruct (keep c); [split; [done | by apply IH]|].
  destruct in_run; [by apply IH | split; [done | by apply IH]].
Qed.

Lemma occurs_basename (s : string) : Py.occurs "/" (Py.basename s) = false.
Proof.
  induction s as [|c s IH]; cbn [Py.basename Py.occurs]; [done|].
  destruct (Py.occurs "/" s) eqn:Hs; [done|].
  destruct (Ascii.eqb c "/") eqn:Hc; [done|].
  cbn [Py.occurs]. by rewrite Ascii.eqb_sym, Hc.
Qed.

(** [os.path.join] with a name that holds no slash puts one slash between
    the directory and the name. *)
Lemma path_join_pdfs (name : string) :
  Py.occurs "/" name = false → Py.path_join "pdfs" name = "pdfs/" +:+ name.
Proof.
  unfold Py.path_join. destruct name as [|c name]; [done|].
  cbn [Py.occurs String.prefix].
  destruct (Ascii.eqb "/" c) eqn:Hc; [done|]. intros _.
  destruct (ascii_dec "/" c) as [<-|_]; [by rewrite Ascii.eqb_refl in Hc | reflexivity].
Qed.

Lemma lower_app (s1 s2 : string) : Py.lower (s1 +:+ s2) = Py.lower s1 +:+ Py.lower s2.
Proof.
  induction s1 as [|c s1 IH]; [reflexivity|].
  rewrite append_cons. simpl. by rewrite IH.
Qed.

Lemma endswith_refl (s : string) : Py.endswith s s = true.
Proof. destruct s; cbn [Py.endswith]; by rewrite String.eqb_refl. Qed.

Lemma endswith_app (s1 s2 suffix : string) :
  Py.endswith s2 suffix = true → Py.endswith (s1 +:+ s2) suffix = true.
Proof.
  intros H. induction s1 as [|c s1 IH]; [done|].
  rewrite append_cons. cbn [Py.endswith]. by destruct (String.eqb _ _).
Qed.

(** A regular file directly inside the asset directory. *)
Definition inside_pdfs (p : string) : Prop :=
  ∃ name, p = "pdfs/" +:+ name
          ∧ Py.occurs "/" name = false
          ∧ name ∉ [""; "."; ".."].

Lemma inside_pdfs_join (name : string) :
  Py.occurs "/" name = false →
  is_asset_dir (Py.path_join "pdfs" name) = false →
  inside_pdfs (Py.path_join "pdfs" name).
Proof.
  intros Hname. rewrite (path_join_pdfs name Hname). intros Hdir.
  exists name. split_and!; [done | done |].
  apply bool_decide_eq_false in Hdir. intros Hin. apply Hdir.
  set_unfold. destruct Hin as [->|[->|[->|[]]]]; auto.
Qed.

(** ** The names of the downloaded files *)

Definition opens_inside_pdfs (e : event) : Prop :=
  match e with
  | FileOpen p => inside_pdfs p
  | _ => True
  end.

Lemma emits_open_wb_inside (P : event -> Prop) (p : string) :
  (is_asset_dir p = false → P (FileOpen p)) → emits P (open_wb p).
Proof.
  intros HP. unfold open_wb. destruct (is_asset_dir p); [apply emits_raise|].
  apply emits_bind; [apply emits_emit; by apply HP | intros _]. by apply emits_silent.
Qed.

Lemma emits_requests_get_any (P : event -> Prop) E url :
  (∀ u, P (HttpGet u)) → emits P (requests_get E url).
Proof.
  intros HP. unfold requests_get.
  apply emits_bind; [by apply emits_silent | intros w].
  apply emits_bind; [by apply emits_emit | intros _].
  destruct (http _ _ _) as [|? ? []]; auto with emits.
Qed.

Lemma rec_filename_no_slash (u : string) : Py.occurs "/" (Rec.filename_of u) = false.
Proof. apply occurs_basename. Qed.

Lemma emits_rec_download_row_inside E row :
  emits opens_inside_pdfs (Rec.download_row E row).
Proof.
  unfold Rec.download_row. destruct (Py.get row "pdf_url") as [u|]; [|apply emits_raise].
  destruct (Rec.looks_like_pdf u); [|apply emits_ret].
  apply emits_bind; [apply emits_path_exists | intros there].
  destruct there; simpl; [apply emits_ret|].
  apply emits_try_except.
  - apply emits_bind; [by apply emits_requests_get_any | intros r].
    destruct (_ =? _)%nat.
    + apply emits_bind.
      { apply emits_open_wb_inside. apply inside_pdfs_join, rec_filename_no_slash. }
      intros _. apply emits_bind; [apply emits_file_write | intros _]. apply emits_ret.
    + apply emits_bind; [by apply emits_emit | intros _]. apply emits_ret.
  - intros e. apply emits_bind; [by apply emits_emit | intros _]. apply emits_ret.
Qed.

Lemma emits_rec_download_pdfs_inside E : emits opens_inside_pdfs (Rec.download_pdfs E).
Proof.
  unfold Rec.download_pdfs.
  apply emits_bind; [by apply emits_silent | intros w0].
  apply emits_for_each. intros i.
  apply emits_bind; [by apply emits_silent | intros w].
  destruct (rows w !! i); [|apply emits_ret].
  apply emits_bind; [apply emits_rec_download_row_inside | intros row'].
  by apply emits_silent.
Qed.

(** The name proc_scraper.py gives a file: no slash in it, and the extension
    at its end. *)
Lemma proc_base_name_no_slash urlparse_path url prefix :
  Py.occurs "/" (Proc.base_name_of urlparse_path url prefix) = false.
Proof.
  unfold Proc.base_name_of.
  set (b0 := Py.basename (urlparse_path url)).
  assert (all_chars (fun c => c ≠ "/"%char) b0) as Hb0
    by apply occurs_all_chars, occurs_basename.
  set (b1 := if Py.truthy b0 then b0 else "document.pdf").
  assert (all_chars (fun c => c ≠ "/"%char) b1) as Hb1.
  { subst b1. destruct (Py.truthy b0); [done|]. simpl. by split_and!. }
  set (b2 := if Py.endswith (Py.lower b1) ".pdf" then b1 else b1 +:+ ".pdf").
  assert (all_chars (fun c => c ≠ "/"%char) b2) as Hb2.
  { subst b2. destruct (Py.endswith _ _); [done|].
    apply all_chars_app. split; [done|]. simpl. by split_and!. }
  apply (all_chars_occurs (fun c => c ≠ "/"%char)); [by intros H|].
  destruct (Py.truthy prefix); [|done].
  apply all_chars_app. split.
  - eapply all_chars_impl; [|apply all_chars_sub_runs].
    intros c [Hc| ->]; [|done]. intros ->. done.
  - apply all_chars_app. split; [simpl; by split_and! | done].
Qed.

Lemma proc_base_name_pdf urlparse_path url prefix :
  Py.endswith (Py.lower (Proc.base_name_of urlparse_path url prefix)) ".pdf" = true.
Proof.
  unfold Proc.base_name_of.
  set (b0 := Py.basename (urlparse_path url)).
  set (b1 := if Py.truthy b0 then b0 else "document.pdf").
  set (b2 := if Py.endswith (Py.lower b1) ".pdf" then b1 else b1 +:+ ".pdf").
  assert (Py.endswith (Py.lower b2) ".pdf" = true) as Hb2.
  { subst b2. destruct (Py.endswith (Py.lower b1) ".pdf") eqn:Hb1; [done|].
    rewrite lower_app. apply endswith_app. reflexivity. }
  destruct (Py.truthy prefix); [|done].
  rewrite !lower_app. by apply endswith_app, endswith_app.
Qed.

Lemma emits_write_chunks P p chunks complete : emits P (Proc.write_chunks p chunks complete).
Proof.
  induction chunks as [|chunk chunks IH]; simpl.
  - destruct complete; auto with emits.
  - apply emits_bind; [|intros _; apply IH].
    destruct (Py.truthy chunk); [apply emits_file_write | apply emits_ret].
Qed.

Lemma emits_proc_download_pdf_inside E urlparse_path url prefix :
  emits opens_inside_pdfs (Proc.download_pdf E urlparse_path url prefix).
Proof.
  unfold Proc.download_pdf. apply emits_try_except.
  - apply emits_bind; [apply emits_path_exists | intros there].
    destruct there; [apply emits_ret|].
    apply emits_bind.
    { unfold requests_get_stream.
      apply emits_bind; [by apply emits_silent | intros w].
      apply emits_bind; [by apply emits_emit | intros _].
      destruct (http _ _ _); auto with emits. }
    intros [[status chunks] complete]. apply emits_bind.
    { unfold raise_for_status. destruct (_ && _); auto with emits. }
    intros _. apply emits_bind.
    { apply emits_open_wb_inside. apply inside_pdfs_join, proc_base_name_no_slash. }
    intros _. apply emits_bind; [apply emits_write_chunks | intros _]. apply emits_ret.
  - intros e. apply emits_bind; [by apply emits_emit | intros _]. apply emits_ret.
Qed.

(** The slug of auto_scraper.py is made of word characters and hyphens. *)
Lemma slugify_chars (text : string) :
  all_chars (fun c => Py.is_word_or_hyphen c = true) (Auto.slugify text).
Proof.
  unfold Auto.slugify.
  set (s1 := Py.sub_runs Py.is_word_or_hyphen false (Py.strip text)).
  assert (all_chars (fun c => Py.is_word_or_hyphen c = true) s1) as Hs1.
  { eapply all_chars_impl; [|apply all_chars_sub_runs]. by intros c [Hc| ->]. }
  set (s2 := Py.sub_runs (fun c => negb (Ascii.eqb c "_")) false s1).
  assert (all_chars (fun c => Py.is_word_or_hyphen c = true) s2) as Hs2
    by (by apply all_chars_sub_runs_of).
  apply (all_chars_strip_by _ (Ascii.eqb "_")) in Hs2.
  destruct (Py.truthy _); [done|]. simpl. by split_and!.
Qed.

Lemma auto_filename_no_slash memo_no listing_type :
  Py.occurs "/" listing_type = false →
  Py.occurs "/" (Auto.filename_of memo_no listing_type) = false.
Proof.
  intros Hlt. unfold Auto.filename_of.
  apply (all_chars_occurs (fun c => c ≠ "/"%char)); [by intros H|].
  apply all_chars_app. split; [simpl; by split_and!|].
  apply all_chars_app. split; [by apply occurs_all_chars|].
  apply all_chars_app. split; [simpl; by split_and!|].
  apply all_chars_app. split; [|simpl; by split_and!].
  eapply all_chars_impl; [|apply slugify_chars]. by intros c Hc ->.
Qed.

Lemma emits_auto_download_pdf_inside E u memo_no listing_type :
  Py.occurs "/" listing_type = false →
  emits opens_inside_pdfs (Auto.download_pdf E u memo_no listing_type).
Proof.
  intros Hlt. unfold Auto.download_pdf. destruct (negb _); [apply emits_ret|].
  apply emits_bind; [apply emits_path_exists | intros there].
  destruct there; [apply emits_ret|].
  apply emits_try_except.
  - apply emits_bind; [by apply emits_requests_get_any | intros resp].
    apply emits_bind.
    { unfold raise_for_status. destruct (_ && _); auto with emits. }
    intros _. apply emits_bind.
    { apply emits_open_wb_inside. by apply inside_pdfs_join, auto_filename_no_slash. }
    intros _. apply emits_bind; [apply emits_file_write | intros _]. apply emits_ret.
  - intros e. apply emits_bind; [by apply emits_emit | intros _]. apply emits_ret.
Qed.

Lemma emits_opens {A} (P : event -> Prop) (m : M A) (w : world) (e : event) :
  emits P m → e ∈ trace (snd (m w)) → e ∈ trace w ∨ P e.
Proof.
  intros Hm. destruct (Hm w) as (t & -> & HP).
  intros [?|Hin]%elem_of_app; [by left | right].
  by eapply Forall_forall in HP.
Qed.

(** X4.  Every file a downloader opens for writing is a regular file directly
    inside [pdfs/]: its path is [pdfs/] and a name that holds no slash and is
    none of the empty name, [.] and [..], whatever the URL looks like.  For
    auto_scraper.py this needs a listing type without a slash, as its two
    callers pass. *)
Theorem downloads_write_inside_pdfs (E : env) (w : world) :
  (∀ p, FileOpen p ∈ trace (snd (Rec.download_pdfs E w)) →
        FileOpen p ∈ trace w ∨ inside_pdfs p)
  ∧ (∀ urlparse_path url prefix p,
       FileOpen p ∈ trace (snd (Proc.download_pdf E urlparse_path url prefix w)) →
       FileOpen p ∈ trace w ∨ inside_pdfs p)
  ∧ (∀ pdf_url memo_no listing_type p,
       Py.occurs "/" listing_type = false →
       FileOpen p ∈ trace (snd (Auto.download_pdf E pdf_url memo_no listing_type w)) →
       FileOpen p ∈ trace w ∨ inside_pdfs p).
Proof.
  split_and!.
  - intros p. apply (emits_opens opens_inside_pdfs _ w (FileOpen p)).
    apply emits_rec_download_pdfs_inside.
  - intros urlparse_path url prefix p.
    apply (emits_opens opens_inside_pdfs _ w (FileOpen p)).
    apply emits_proc_download_pdf_inside.
  - intros pdf_url memo_no listing_type p Hlt.
    apply (emits_opens opens_inside_pdfs _ w (FileOpen p)).
    by apply emits_auto_download_pdf_inside.
Qed.

(** X5.  The destination proc_scraper.py computes is [pdfs/] and a name that
    holds no slash and ends in [.pdf] in some spelling of its letters,
    whatever the URL and the prefix are: a URL without a file name gives
    [document.pdf], and a name without the extension is given it. *)
Theorem proc_destination_is_a_pdf_inside_pdfs (urlparse_path : string -> string)
    (url prefix : string) :
  let base_name := Proc.base_name_of urlparse_path url prefix in
  Proc.local_path_of urlparse_path url prefix = "pdfs/" +:+ base_name
  ∧ Py.occurs "/" base_name = false
  ∧ Py.endswith (Py.lower base_name) ".pdf" = true
  ∧ (Py.basename (urlparse_path url) = "" → prefix = "" → base_name = "document.pdf").
Proof.
  intros base_name. subst base_name. split_and!.
  - unfold Proc.local_path_of. apply path_join_pdfs, proc_base_name_no_slash.
  - apply proc_base_name_no_slash.
  - apply proc_base_name_pdf.
  - unfold Proc.base_name_of. by intros -> ->.
Qed.

(** ** A URL without a file name *)

(** X6.  In rec_scraper.py a URL that passes the [.pdf] test but has no file
    name before its query string (its path ends in a slash) is given the
    destination [pdfs/], the asset directory itself.  The directory exists, so
    the row is taken for downloaded: [pdfs/] is recorded as its local path and
    no request is made. *)
Theorem url_without_file_name_records_the_directory (E : env) (row : Py.dict)
    (u : string) (w : world) :
  Py.get row "pdf_url" = Some u →
  Rec.looks_like_pdf u = true →
  Rec.filename_of u = "" →
  Rec.download_row E row w = (Return (Py.set row "local_pdf_path" "pdfs/"), w).
Proof.
  intros Hurl Hpdf Hname.
  assert (Rec.local_path_of u = "pdfs/") as Hpath.
  { unfold Rec.local_path_of. by rewrite Hname. }
  rewrite <- Hpath. apply rec_download_row_skips; [done | done |].
  by rewrite Hpath.
Qed.

Lemma url_without_file_name_records_the_directory_witness :
  Rec.download_row serves_all
    (table_row "Form" "https://doe.gov.in/download/?file=form.pdf") fresh
  = (Return (Py.set (table_row "Form" "https://doe.gov.in/download/?file=form.pdf")
               "local_pdf_path" "pdfs/"), fresh).
Proof.
  apply (url_without_file_name_records_the_directory serves_all
           (table_row "Form" "https://doe.gov.in/download/?file=form.pdf")
           "https://doe.gov.in/download/?file=form.pdf" fresh);
    reflexivity.
Defined.

(** ** Files that were on disk before a download *)

(** Every file of [w] is a file of [w'], with the same content. *)
Definition keeps_files (w w' : world) : Prop := files w ⊆ files w'.

#[local] Instance keeps_files_preorder : PreOrder keeps_files.
Proof.
  split.
  - intros w. unfold keeps_files. reflexivity.
  - intros w1 w2 w3 H12 H23. unfold keeps_files in *. by etrans.
Qed.

Lemma keeps_files_same_files {A} (m : M A) :
  (∀ w, files (snd (m w)) = files w) → steps keeps_files m.
Proof. intros H w. unfold keeps_files. by rewrite H. Qed.

Lemma keeps_files_rec_download_row E row : steps keeps_files (Rec.download_row E row).
Proof. intros w. apply rec_download_row_effect. Qed.

Lemma keeps_files_rec_download_pdfs E : steps keeps_files (Rec.download_pdfs E).
Proof.
  unfold Rec.download_pdfs. steps_bind; [by apply keeps_files_same_files | intros w0].
  apply steps_for_each; [apply _|]. intros i.
  steps_bind; [by apply keeps_files_same_files | intros w].
  destruct (rows w !! i); [|steps_end].
  steps_bind; [apply keeps_files_rec_download_row | intros row'].
  by apply keeps_files_same_files.
Qed.

Lemma keeps_files_manuals_download_pdfs E : steps keeps_files (Manuals.download_pdfs E).
Proof.
  unfold Manuals.download_pdfs. steps_bind; [by apply keeps_files_same_files | intros w0].
  apply steps_for_each; [apply _|]. intros i.
  steps_bind; [by apply keeps_files_same_files | intros w].
  destruct (rows w !! i) as [r|]; [|steps_end].
  steps_bind; [|intros row'; by apply keeps_files_same_files].
  intros w1. rewrite manuals_download_row_is_rec. apply keeps_files_rec_download_row.
Qed.

Lemma keeps_files_auto_download_pdf E u memo_no listing_type :
  steps keeps_files (Auto.download_pdf E u memo_no listing_type).
Proof.
  intros w. unfold keeps_files, Auto.download_pdf. destruct (negb _); [done|].
  generalize (Auto.local_path_of memo_no listing_type). intros lp.
  unfold path_exists, requests_get, raise_for_status, open_wb, file_write. run_monad.
  destruct (on_disk w lp) eqn:Hdisk; simpl; [done|].
  destruct (on_disk_false _ _ Hdisk) as [Hdir Hnone].
  destruct (http E (trace w) u) as [e|status chunks [|]]; simpl; try done.
  destruct (_ && _); simpl; [done|].
  rewrite Hdir. simpl. rewrite lookup_insert_eq. simpl. by apply subseteq_written.
Qed.

Lemma file_write_files (p data : string) (w : world) :
  ∃ c w1, file_write p data w = (Return tt, w1) ∧ files w1 = <[p := c]> (files w).
Proof.
  unfold file_write, set_files.
  destruct (files w !! p) as [[b|cols cells]|]; by eexists _, _.
Qed.

(** The chunks of a body all go to the one file. *)
Lemma write_chunks_files (p : string) (chunks : list string) (complete : bool) (w : world) :
  files (snd (Proc.write_chunks p chunks complete w)) = files w
  ∨ ∃ c, files (snd (Proc.write_chunks p chunks complete w)) = <[p := c]> (files w).
Proof.
  revert w. induction chunks as [|chunk chunks IH]; intros w; cbn [Proc.write_chunks].
  - left. by destruct complete.
  - unfold bind. destruct (Py.truthy chunk); [|apply IH].
    destruct (file_write_files p chunk w) as (c & w1 & -> & Hw1). cbv beta iota.
    destruct (IH w1) as [Hsame|[c' Hput]]; right.
    + exists c. by rewrite Hsame.
    + exists c'. by rewrite Hput, Hw1, insert_insert_eq.
Qed.

Lemma keeps_files_proc_download_pdf E urlparse_path url prefix :
  steps keeps_files (Proc.download_pdf E urlparse_path url prefix).
Proof.
  intros w. unfold keeps_files, Proc.download_pdf.
  generalize (Proc.local_path_of urlparse_path url prefix). intros lp.
  unfold path_exists, requests_get_stream, raise_for_status, open_wb.
  unfold try_except, bind at 1. unfold bind at 1, get_world, ret at 1.
  destruct (on_disk w lp) eqn:Hdisk; [done|].
  destruct (on_disk_false _ _ Hdisk) as [Hdir Hnone].
  unfold bind at 1. unfold bind at 1, emit at 1.
  destruct (http E (trace w) url) as [e|status chunks complete]; [done|].
  unfold bind at 1. cbn [ret].
  destruct (_ && _); [done|]. cbn [ret]. rewrite Hdir.
  unfold bind at 1. unfold bind at 1, emit at 1. unfold set_files at 1.
  cbn [files shown rows trace].
  set (w1 := {| shown := shown w; rows := rows w;
                files := <[lp := Bytes ""]> (files w); trace := _ |}).
  unfold bind at 1.
  destruct (write_chunks_files lp chunks complete w1) as [Hsame|[c Hput]].
  - assert (files w ⊆ files (snd (Proc.write_chunks lp chunks complete w1))) as Hsub.
    { rewrite Hsame. subst w1. simpl. by apply insert_subseteq. }
    destruct (Proc.write_chunks lp chunks complete w1) as [[[]|e|] w2]; simpl in *; done.
  - assert (files w ⊆ files (snd (Proc.write_chunks lp chunks complete w1))) as Hsub.
    { rewrite Hput. subst w1. simpl. rewrite insert_insert_eq. by apply insert_subseteq. }
    destruct (Proc.write_chunks lp chunks complete w1) as [[[]|e|] w2]; simpl in *; done.
Qed.

(** X7.  No downloader touches a file that is already on disk: after the
    download pass of rec_scraper.py or manuals_scraper.py, and after a call of
    the downloader of auto_scraper.py or proc_scraper.py, every file that was
    there before is there with the content it had, whatever the server
    answered and however the call ended. *)
Theorem downloads_keep_existing_files (E : env) (w : world) :
  files w ⊆ files (snd (Rec.download_pdfs E w))
  ∧ files w ⊆ files (snd (Manuals.download_pdfs E w))
  ∧ (∀ pdf_url memo_no listing_type,
       files w ⊆ files (snd (Auto.download_pdf E pdf_url memo_no listing_type w)))
  ∧ (∀ urlparse_path url prefix,
       files w ⊆ files (snd (Proc.download_pdf E urlparse_path url prefix w))).
Proof.
  split_and!.
  - apply keeps_files_rec_download_pdfs.
  - apply keeps_files_manuals_download_pdfs.
  - intros. apply keeps_files_auto_download_pdf.
  - intros. apply keeps_files_proc_download_pdf.
Qed.

(** ** rec_scraper.py: from the pages to the sheet *)

Lemma collects_emit ok e : steps (collects ok) (emit e).
Proof. intros w. split; [done|]. exists []. by rewrite app_nil_r. Qed.

Lemma collects_rec_scrape E urljoin fuel :
  steps (collects rec_record) (Rec.scrape_main_and_archive E urljoin fuel).
Proof.
  unfold Rec.scrape_main_and_archive, Rec.handle_pagination.
  steps_bind; [apply collects_safe_get_short | intros _].
  steps_bind; [apply collects_rec_pagination_loop | intros _].
  steps_bind; [by apply steps_same; [apply _|] | intros w].
  destruct (archive_button (shown w)).
  - steps_bind; [apply collects_safe_get_short | intros _].
    apply collects_rec_pagination_loop.
  - apply collects_emit.
Qed.

Lemma rec_record_has_url (r : Py.dict) : rec_record r → has_url r.
Proof.
  intros Hr. unfold has_url. apply not_eq_None_Some. intros Hnone%get_None_keys.
  apply Hnone. rewrite Hr. set_solver.
Qed.

Lemma rec_filled_record (w : world) (r r' : Py.dict) :
  rec_record r → rec_filled w r r' → rec_record r'.
Proof.
  intros Hr [->|(u & _ & -> & _)]; [done|]. unfold rec_record.
  rewrite keys_set; [done|]. rewrite Hr. set_solver.
Qed.

Lemma fills_paths_records (w w' : world) :
  fills_paths w w' → Forall rec_record (rows w) → Forall rec_record (rows w').
Proof.
  intros (_ & _ & Hrows) Hall. induction Hrows as [|r r' rs rs' Hr _ IH]; [done|].
  apply Forall_cons in Hall as [Hok Hall].
  constructor; [by eapply rec_filled_record | by apply IH].
Qed.

(** What [save_csv] writes for records that have the eight fields. *)
Lemma rec_save_csv_sheet E w :
  Forall rec_record (rows w) →
  Rec.save_csv E w
  = (Return tt,
     {| shown := shown w; rows := rows w;
        files := <[Py.path_join "output" ("recruitment_rules_" +:+ now E +:+ ".csv")
                   := Sheet Rec.META_FIELDS (map (map snd) (rows w))]> (files w);
        trace := trace w
                 ++ [CsvWrite (Py.path_join "output"
                                 ("recruitment_rules_" +:+ now E +:+ ".csv"))] |}).
Proof.
  intros Hall. unfold Rec.save_csv, to_csv, DataFrame_columns. unfold_monad.
  cbn [columns cells shown rows files trace]. do 4 f_equal.
  rewrite map_map. apply map_ext_in. intros r Hr%list_elem_of_In.
  eapply Forall_forall in Hall; [|done]. rewrite map_map, <- Hall.
  apply cells_of_own_keys. rewrite Hall. by compute_done.
Qed.

(** X8.  A run of rec_scraper.py that returns has written every record
    whole: each record has the eight output fields, in their order, and the
    sheet holds one line per record, in the order of collection, with the
    record's eight values; nothing is dropped and nothing is filled in. *)
Theorem rec_run_writes_every_record (E : env) (urljoin : string -> string -> string)
    (fuel : nat) (w : world) :
  Forall (fun r => Py.keys r = Rec.META_FIELDS) (rows w) →
  fst (Rec.run E urljoin fuel w) = Return tt →
  let w' := snd (Rec.run E urljoin fuel w) in
  let out_path := Py.path_join "output" ("recruitment_rules_" +:+ now E +:+ ".csv") in
  Forall (fun r => Py.keys r = Rec.META_FIELDS) (rows w')
  ∧ files w' !! out_path = Some (Sheet Rec.META_FIELDS (map (map snd) (rows w'))).
Proof.
  intros Hstart Hret w' out_path. subst w' out_path.
  destruct (Rec.run E urljoin fuel w) as [o wf] eqn:Hrun. simpl in Hret. subst o.
  cbn [snd]. unfold Rec.run, try_finally, driver_quit, bind, ret in Hrun.
  pose proof (collects_rec_scrape E urljoin fuel w) as [_ (more & Hrows & Hmore)].
  destruct (Rec.scrape_main_and_archive E urljoin fuel w) as [[[]|e|] w1];
    simpl in Hrows; [|done|done].
  assert (Forall rec_record (rows w1)) as Hall1.
  { rewrite Hrows. by apply Forall_app. }
  destruct (rec_download_pdfs_fills E w1) as (w2 & Hdl & Hfill).
  { eapply Forall_impl; [exact Hall1 | apply rec_record_has_url]. }
  pose proof (fills_paths_records _ _ Hfill Hall1) as Hall2.
  rewrite Hdl, (rec_save_csv_sheet E w2 Hall2) in Hrun.
  injection Hrun as <-. cbn [rows files].
  split; [done|]. apply lookup_insert_eq.
Qed.

Lemma rec_run_writes_every_record_witness :
  let w' := snd (Rec.run rules_site urljoin_doe 5 fresh) in
  let out_path :=
    Py.path_join "output" ("recruitment_rules_" +:+ now rules_site +:+ ".csv") in
  Forall (fun r => Py.keys r = Rec.META_FIELDS) (rows w')
  ∧ files w' !! out_path = Some (Sheet Rec.META_FIELDS (map (map snd) (rows w'))).
Proof.
  apply (rec_run_writes_every_record rules_site urljoin_doe 5 fresh).
  - constructor.
  - vm_compute. reflexivity.
Defined.

(** The run on the two pages of rules: three records, the first with its
    file. *)
Example rules_site_sheet :
  files (snd (Rec.run rules_site urljoin_doe 5 fresh))
    !! "output/recruitment_rules_20240101_000000.csv"
  = Some (Sheet
            ["section_type"; "section_name"; "element_type"; "title"; "content";
             "url"; "pdf_url"; "local_pdf_path"]
            [["Table"; "Main Section"; "Row"; "Rules A";
              "Sr.No: 1 | Title: Rules A | Date: 2020 | Download: Download";
              "https://doe.gov.in/recruitment-rules";
              "https://doe.gov.in/files/a.pdf"; "pdfs/a.pdf"];
             ["Table"; "Main Section"; "Row"; "Rules B";
              "Sr.No: 2 | Title: Rules B | Date: 2021 | Download: ";
              "https://doe.gov.in/recruitment-rules"; ""; ""];
             ["Table"; "Main Section"; "Row"; "Rules C";
              "Sr.No: 3 | Title: Rules C | Date:  | Download: ";
              "https://doe.gov.in/recruitment-rules?page=1"; ""; ""]]).
Proof. vm_compute. reflexivity. Qed.

(** ** The listing loop of auto_scraper.py *)

(** What a page load of the long [safe_get] leaves in the trace and in the
    session. *)
Lemma safe_get_long_load E url w :
  ∃ t, trace (snd (safe_get_long E url w)) = trace w ++ t ∧ navs t = [url].
Proof.
  destruct (emits_safe_get_long E url w) as (t & Ht & _). exists t. split; [done|].
  pose proof (safe_get_long_navs E url w) as Hnavs.
  rewrite Ht, navs_app in Hnavs. by apply app_inv_head in Hnavs.
Qed.

Lemma safe_get_long_outcome E url w :
  fst (safe_get_long E url w) ≠ OutOfFuel
  ∧ (fst (safe_get_long E url w) = Return tt →
     shown (snd (safe_get_long E url w)) = lands_on (browse E (trace w) url)).
Proof.
  unfold safe_get_long, driver_get, window_stop, wait_until. run_monad.
  destruct (browse E (trace w) url) as [[[]|] [e1|] polls [[]|] d];
    simpl; rewrite ?wait_ready_returns; simpl; by split.
Qed.

Lemma auto_parse_table_load E urljoin soup page_url listing_type w :
  ∃ w' t, Auto.parse_table E urljoin soup page_url listing_type w = (Return tt, w')
          ∧ trace w' = trace w ++ t ∧ navs t = [].
Proof.
  destruct (auto_parse_table_returns E urljoin soup page_url listing_type w) as [w' Hrun].
  destruct (emits_auto_parse_table E urljoin soup page_url listing_type w)
    as (t & Ht & Hassets).
  rewrite Hrun in Ht. exists w', t. split; [done|]. split; [done|].
  by apply navs_asset_events.
Qed.

Lemma auto_listing_loop_loads E urljoin fuel listing_type visited current w :
  ∃ t, trace (snd (Auto.listing_loop E urljoin fuel listing_type visited current w))
       = trace w ++ t
       ∧ NoDup (navs t)
       ∧ ∀ u, u ∈ navs t → u ∉ visited.
Proof.
  revert visited current w. induction fuel as [|fuel IH]; intros visited current w.
  { exists []. rewrite app_nil_r. split_and!; [done | constructor | by intros u ?%elem_of_nil]. }
  cbn [Auto.listing_loop]. case_bool_decide as Hseen.
  { exists []. rewrite app_nil_r. split_and!; [done | constructor | by intros u ?%elem_of_nil]. }
  unfold bind at 1. unfold Auto.safe_get.
  destruct (safe_get_long_load E current w) as (t1 & Ht1 & Hn1).
  destruct (safe_get_long E current w) as [[[]|e|] w1]; simpl in Ht1.
  2,3: exists t1; rewrite Hn1; split_and!;
    [done | apply NoDup_singleton | by intros u ->%list_elem_of_singleton].
  unfold bind at 1, get_world at 1. unfold bind at 1.
  destruct (auto_parse_table_load E urljoin (shown w1) current listing_type w1)
    as (w2 & t2 & -> & Ht2 & Hn2).
  assert (∃ t, trace w2 = trace w ++ t ∧ navs t = [current]) as Hstop.
  { exists (t1 ++ t2). rewrite Ht2, Ht1, app_assoc. split; [done|].
    by rewrite navs_app, Hn1, Hn2. }
  assert (∃ t, trace w2 = trace w ++ t ∧ NoDup (navs t) ∧ ∀ u, u ∈ navs t → u ∉ visited)
    as Hend.
  { destruct Hstop as (t & Ht & Hn). exists t. rewrite Hn. split_and!;
      [done | apply NoDup_singleton | by intros u ->%list_elem_of_singleton]. }
  destruct (ul_pager (shown w1)) as [[[href|]]|]; cbn [next_link]; try exact Hend.
  destruct (Py.truthy_opt href); [|exact Hend].
  case_bool_decide as Hnext; [exact Hend|].
  destruct (IH ({[current]} ∪ visited) (urljoin Auto.BASE_URL (default "" href)) w2)
    as (t3 & Ht3 & Hnd3 & Hnew3).
  exists (t1 ++ t2 ++ t3). rewrite Ht3, Ht2, Ht1, <- !app_assoc. split; [done|].
  rewrite !navs_app, Hn1, Hn2. simpl. split.
  - apply NoDup_cons. split; [|done]. intros Hin. apply (Hnew3 _ Hin). set_solver.
  - intros u [->|Hin]%elem_of_cons; [done|]. specialize (Hnew3 _ Hin). set_solver.
Qed.

(** X9.  [paginate_listing] of auto_scraper.py loads no URL twice: the
    page loads of one call are pairwise different, whatever the pagers of the
    site offer. *)
Theorem paginate_listing_loads_no_url_twice (E : env)
    (urljoin : string -> string -> string) (fuel : nat) (start_url listing_type : string)
    (w : world) :
  ∃ t, trace (snd (Auto.paginate_listing E urljoin fuel start_url listing_type w))
       = trace w ++ t
       ∧ NoDup (navs t).
Proof.
  unfold Auto.paginate_listing.
  destruct (auto_listing_loop_loads E urljoin fuel listing_type ∅ start_url w)
    as (t & Ht & Hnd & _).
  by exists t.
Qed.

(** A loop that has used up the iterations it was given is still running. *)
Definition still_running {A} (o : outcome A) : bool :=
  match o with
  | OutOfFuel => true
  | _ => false
  end.

(** Every URL a pager of the site can lead to is in [L]. *)
Definition pagers_within (E : env) (urljoin : string -> string -> string)
    (L : gset string) : Prop :=
  ∀ t u h, ul_pager (lands_on (browse E t u)) = Some {| next_link := Some (Some h) |} →
           urljoin Auto.BASE_URL h ∈ L.

(** X10.  [paginate_listing] of auto_scraper.py ends on every site whose
    pagers lead to finitely many URLs: with [n] of them not yet visited, the
    loop is over within [n + 1] iterations, by a return or by an exception of
    a page load. *)
Theorem auto_listing_ends_on_finite_site (E : env) (urljoin : string -> string -> string)
    (L : gset string) (fuel : nat) (listing_type : string) (visited : gset string)
    (current : string) (w : world) :
  pagers_within E urljoin L →
  current ∈ L →
  size (L ∖ visited) < fuel →
  still_running (fst (Auto.listing_loop E urljoin fuel listing_type visited current w))
  = false.
Proof.
  intros Hsite. revert visited current w.
  induction fuel as [|fuel IH]; intros visited current w Hcur Hsize; [lia|].
  cbn [Auto.listing_loop]. case_bool_decide as Hseen; [done|].
  unfold bind at 1. unfold Auto.safe_get.
  destruct (safe_get_long_outcome E current w) as [Hfuel Hshown].
  destruct (safe_get_long E current w) as [[[]|e|] w1]; simpl in *; [|done|done].
  specialize (Hshown eq_refl).
  unfold bind at 1, get_world at 1. unfold bind at 1.
  destruct (auto_parse_table_returns E urljoin (shown w1) current listing_type w1)
    as [w2 ->].
  destruct (ul_pager (shown w1)) as [[[[h|]|]]|] eqn:Hpager; cbn [next_link]; try done.
  cbn [Py.truthy_opt default]. destruct (Py.truthy h); [|done].
  case_bool_decide as Hnext; [done|].
  apply IH.
  - rewrite Hshown in Hpager. by apply (Hsite _ _ _ Hpager).
  - assert (L ∖ ({[current]} ∪ visited) ⊂ L ∖ visited) as Hless by set_solver.
    apply subset_size in Hless. lia.
Qed.

Lemma auto_listing_ends_on_finite_site_witness :
  still_running
    (fst (Auto.listing_loop listing_site urljoin_doe 3 "Active" ∅ listing_url fresh))
  = false.
Proof.
  apply (auto_listing_ends_on_finite_site listing_site urljoin_doe
           {[listing_url; "https://doe.gov.in/pay-related-matters/88?page=1"]}
           3 "Active" ∅ listing_url fresh).
  - intros t u h. simpl. destruct (String.eqb u listing_url); simpl; [|done].
    intros [= <-]. vm_compute. set_solver.
  - set_solver.
  - rewrite difference_empty_L, size_union, !size_singleton; [lia|].
    apply disjoint_singleton_l. by intros ?%elem_of_singleton.
Defined.

(** ** The slug of auto_scraper.py *)


















(** ** auto_scraper.py: rows, records and the sheet *)

(** The fields of a record of auto_scraper.py, in the order of the literal. *)
Definition auto_fields : list string :=
  ["section_type"; "section_name"; "listing_type"; "element_type"; "sr_no";
   "office_memorandum_no"; "subject"; "date"; "download_text"; "file_size";
   "pdf_url"; "local_pdf_path"; "page_url"; "headers_snapshot"].

(** What a call of the downloader leaves: the rows and the session as they
    were, the files that were there, and a path that is empty or names the
    destination, at which something then exists. *)
Lemma auto_download_pdf_effect E u memo_no listing_type w :
  ∃ p w', Auto.download_pdf E u memo_no listing_type w = (Return p, w')
          ∧ rows w' = rows w ∧ shown w' = shown w ∧ files w ⊆ files w'
          ∧ (p = "" ∨ (p = Auto.local_path_of memo_no listing_type
                       ∧ on_disk w' p = true)).
Proof.
  unfold Auto.download_pdf. destruct (negb _); [eexists _, _; split_and!; by auto|].
  generalize (Auto.local_path_of memo_no listing_type). intros lp.
  unfold path_exists, requests_get, raise_for_status, open_wb, file_write. run_monad.
  destruct (on_disk w lp) eqn:Hdisk; simpl; [eexists _, _; split_and!; by auto|].
  destruct (on_disk_false _ _ Hdisk) as [Hdir Hnone].
  destruct (http E (trace w) u) as [e|status chunks [|]]; simpl;
    try (eexists _, _; split_and!; by auto).
  destruct (_ && _); simpl; [eexists _, _; split_and!; by auto|].
  rewrite Hdir. simpl. rewrite lookup_insert_eq. simpl.
  eexists _, _. split_and!; try done; [by apply subseteq_written|].
  right. split; [done|]. rewrite insert_insert_eq. apply (on_disk_stored w).
Qed.

(** The record [parse_table] makes of a row, read field by field. *)
Definition auto_record_of (urljoin : string -> string -> string) (w' : world)
    (page_url listing_type : string) (r : tr) (d : Py.dict) : Prop :=
  Py.keys d = auto_fields
  ∧ Py.get d "listing_type" = Some listing_type
  ∧ Py.get d "sr_no" = td_text r !! 0
  ∧ Py.get d "office_memorandum_no" = td_text r !! 1
  ∧ Py.get d "subject" = td_text r !! 2
  ∧ Py.get d "date" = td_text r !! 3
  ∧ Py.get d "pdf_url"
    = Some (match dl_link r with
            | Some (href, _) => urljoin Auto.BASE_URL href
            | None => ""
            end)
  ∧ Py.get d "page_url" = Some page_url
  ∧ (Py.get d "local_pdf_path" = Some ""
     ∨ ∃ memo_no, td_text r !! 1 = Some memo_no
                  ∧ Py.get d "local_pdf_path"
                    = Some (Auto.local_path_of memo_no listing_type)
                  ∧ on_disk w' (Auto.local_path_of memo_no listing_type) = true).

Lemma auto_record_of_mono urljoin w w' page_url listing_type r d :
  files w ⊆ files w' →
  auto_record_of urljoin w page_url listing_type r d →
  auto_record_of urljoin w' page_url listing_type r d.
Proof.
  intros Hsub (?&?&?&?&?&?&?&?&Hpath). split_and!; try done.
  destruct Hpath as [?|(memo_no & ? & ? & Hdisk)]; [by left|].
  right. exists memo_no. split_and!; try done. by eapply on_disk_mono.
Qed.

(** [len(tds) < 5] is the test that skips a row. *)
Definition has_five_cells (r : tr) : bool := (5 <=? length (td_text r))%nat.

Lemma auto_parse_row_effect E urljoin headers page_url listing_type r w :
  ∃ w' new, Auto.parse_row E urljoin headers page_url listing_type r w = (Return tt, w')
            ∧ rows w' = rows w ++ new ∧ shown w' = shown w ∧ files w ⊆ files w'
            ∧ if has_five_cells r
              then ∃ d, new = [d] ∧ auto_record_of urljoin w' page_url listing_type r d
              else new = [].
Proof.
  unfold Auto.parse_row, has_five_cells.
  destruct (td_text r) as [|c0 [|c1 [|c2 [|c3 [|c4 rest]]]]] eqn:Hcells;
    try (exists w, []; rewrite app_nil_r; by split_and!).
  unfold bind at 1.
  destruct (auto_download_pdf_effect E
              match dl_link r with
              | Some (href, _) => urljoin Auto.BASE_URL href
              | None => ""
              end c1 listing_type w) as (p & w1 & -> & Hrows & Hshown & Hfiles & Hp).
  unfold append_row, set_rows. eexists _, _. split; [reflexivity|].
  cbn [rows shown files]. rewrite Hrows. split_and!; try done.
  eexists. split; [reflexivity|].
  unfold auto_record_of. rewrite Hcells. split_and!; try reflexivity.
  destruct Hp as [->|[-> Hdisk]]; [by left|].
  right. exists c1. split_and!; try done.
Qed.

Lemma auto_parse_rows_effect E urljoin headers page_url listing_type trs w :
  ∃ w' new,
    for_each trs (Auto.parse_row E urljoin headers page_url listing_type) w
    = (Return tt, w')
    ∧ rows w' = rows w ++ new ∧ shown w' = shown w ∧ files w ⊆ files w'
    ∧ Forall2 (auto_record_of urljoin w' page_url listing_type)
        (List.filter has_five_cells trs) new.
Proof.
  revert w. induction trs as [|r trs IH]; intros w; cbn [for_each List.filter].
  { exists w, []. rewrite app_nil_r. by split_and!. }
  unfold bind at 1.
  destruct (auto_parse_row_effect E urljoin headers page_url listing_type r w)
    as (w1 & new1 & -> & Hrows1 & Hshown1 & Hfiles1 & Hnew1).
  destruct (IH w1) as (w2 & new2 & -> & Hrows2 & Hshown2 & Hfiles2 & Hnew2).
  exists w2, (new1 ++ new2). split; [done|].
  rewrite Hrows2, Hrows1, app_assoc. split_and!; [done | congruence | by etrans |].
  destruct (has_five_cells r).
  - destruct Hnew1 as (d & -> & Hd). constructor; [|done].
    by eapply auto_record_of_mono.
  - by rewrite Hnew1.
Qed.

Lemma auto_parse_table_effect E urljoin soup page_url listing_type w :
  ∃ w' new,
    Auto.parse_table E urljoin soup page_url listing_type w = (Return tt, w')
    ∧ rows w' = rows w ++ new
    ∧ files w ⊆ files w'
    ∧ match listing_table soup with
      | Some t =>
          Forall2 (auto_record_of urljoin w' page_url listing_type)
            (List.filter has_five_cells (tbody_tr t)) new
      | None => new = [] ∧ trace w' = trace w ++ [Print NoTable]
      end.
Proof.
  unfold Auto.parse_table. destruct (listing_table soup) as [t|].
  - destruct (auto_parse_rows_effect E urljoin (thead_th t) page_url listing_type
                (tbody_tr t) w) as (w' & new & Hrun & Hrows & _ & Hfiles & Hnew).
    by exists w', new.
  - eexists _, []. split; [reflexivity|]. simpl. rewrite app_nil_r. by split_and!.
Qed.


(** ** Frames of records that all have the same keys *)

Lemma add_keys_fresh (seen ks : list string) :
  NoDup (seen ++ ks) → foldl add_key seen ks = seen ++ ks.
Proof.
  revert seen. induction ks as [|k ks IH]; intros seen Hnd; simpl.
  - by rewrite app_nil_r.
  - unfold add_key at 2. rewrite bool_decide_eq_false_2.
    + rewrite IH; rewrite <- app_assoc; done.
    + apply NoDup_app in Hnd as (_ & Hdisj & _). intros Hin.
      apply (Hdisj k Hin). apply list_elem_of_here.
Qed.

Lemma add_keys_seen (seen ks : list string) :
  (∀ k, k ∈ ks → k ∈ seen) → foldl add_key seen ks = seen.
Proof.
  induction ks as [|k ks IH]; intros Hin; simpl; [done|].
  unfold add_key at 2. rewrite bool_decide_eq_true_2; [|apply Hin, list_elem_of_here].
  apply IH. intros k' Hk'. by apply Hin, list_elem_of_further.
Qed.

(** [pd.DataFrame(rows)] of records with one and the same list of keys has
    these keys for columns, in their order. *)
Lemma union_keys_uniform (ks : list string) (rs : list Py.dict) :
  NoDup ks → rs ≠ [] → Forall (fun r => Py.keys r = ks) rs → union_keys rs = ks.
Proof.
  intros Hnd Hrs Hall. unfold union_keys.
  destruct rs as [|r rs]; [done|]. apply Forall_cons in Hall as [Hr Hall]. simpl.
  rewrite Hr, (add_keys_fresh [] ks) by done. simpl.
  clear Hrs Hr. induction Hall as [|r' rs Hr' _ IH]; simpl; [done|].
  by rewrite Hr', add_keys_seen.
Qed.

Lemma uniform_frame_sheet (ks : list string) (rs : list Py.dict) :
  NoDup ks → rs ≠ [] → Forall (fun r => Py.keys r = ks) rs →
  columns (DataFrame rs) = ks
  ∧ map (map (default "")) (cells (DataFrame rs)) = map (map snd) rs.
Proof.
  intros Hnd Hrs Hall. unfold DataFrame, DataFrame_columns. cbn [columns cells].
  rewrite (union_keys_uniform ks rs) by done. split; [done|].
  rewrite map_map. apply map_ext_in. intros r Hr%list_elem_of_In.
  eapply Forall_forall in Hall; [|done]. simpl in Hall. rewrite map_map, <- Hall.
  apply cells_of_own_keys. by rewrite Hall.
Qed.

(** ** auto_scraper.py: from the pages to the sheet *)

(** Records are added at the end of [self.rows], and nothing else happens to
    it. *)
Definition gathers (ok : Py.dict -> Prop) (w w' : world) : Prop :=
  ∃ more, rows w' = rows w ++ more ∧ Forall ok more.

#[local] Instance gathers_preorder ok : PreOrder (gathers ok).
Proof.
  split.
  - intros w. exists []. by rewrite app_nil_r.
  - intros w1 w2 w3 (m1 & Hr1 & Hok1) (m2 & Hr2 & Hok2). exists (m1 ++ m2).
    rewrite Hr2, Hr1, app_assoc. split; [done | by apply Forall_app].
Qed.

Lemma gathers_same_rows {A} ok (m : M A) :
  (∀ w, rows (snd (m w)) = rows w) → steps (gathers ok) m.
Proof. intros H w. exists []. by rewrite H, app_nil_r. Qed.

Lemma safe_get_long_rows E url w : rows (snd (safe_get_long E url w)) = rows w.
Proof.
  unfold safe_get_long, driver_get, window_stop, wait_until. run_monad.
  destruct (browse E (trace w) url) as [[[]|] [e1|] polls [[]|] d];
    simpl; rewrite ?wait_ready_returns; by simpl.
Qed.

Definition auto_record (d : Py.dict) : Prop := Py.keys d = auto_fields.

Lemma gathers_auto_parse_table E urljoin soup page_url listing_type :
  steps (gathers auto_record) (Auto.parse_table E urljoin soup page_url listing_type).
Proof.
  intros w.
  destruct (auto_parse_table_effect E urljoin soup page_url listing_type w)
    as (w' & new & -> & Hrows & _ & Hnew).
  exists new. split; [done|].
  destruct (listing_table soup) as [t|]; [|destruct Hnew as [-> _]; constructor].
  clear Hrows. induction Hnew as [|r d trs ds Hd _ IH]; constructor; [apply Hd | done].
Qed.

Lemma gathers_auto_listing_loop E urljoin fuel listing_type visited current :
  steps (gathers auto_record) (Auto.listing_loop E urljoin fuel listing_type visited current).
Proof.
  revert visited current. induction fuel as [|fuel IH]; intros visited current; simpl.
  - steps_end.
  - case_bool_decide; [steps_end|].
    steps_bind; [apply gathers_same_rows, safe_get_long_rows | intros _].
    steps_bind; [by apply gathers_same_rows | intros w].
    steps_bind; [apply gathers_auto_parse_table | intros _].
    destruct (ul_pager _) as [[[href|]]|]; cbn [next_link]; try steps_end.
    destruct (Py.truthy_opt href); [|steps_end].
    case_bool_decide; [steps_end | apply IH].
Qed.

(** X13.  A run of auto_scraper.py that returns with at least one
    record has written every record whole: each record has the fourteen fields
    of the record literal, the sheet has these fourteen columns in that order,
    and it holds one line per record, in the order of collection, with the
    record's values. *)
Theorem auto_run_writes_every_record (E : env) (urljoin : string -> string -> string)
    (fuel : nat) (w : world) :
  Forall (fun r => Py.keys r = auto_fields) (rows w) →
  fst (Auto.run E urljoin fuel w) = Return tt →
  let w' := snd (Auto.run E urljoin fuel w) in
  let out_path :=
    Py.path_join "output" ("autonomous_bodies_pay_related_" +:+ now E +:+ ".csv") in
  Forall (fun r => Py.keys r = auto_fields) (rows w')
  ∧ (rows w' ≠ [] →
     files w' !! out_path = Some (Sheet auto_fields (map (map snd) (rows w')))).
Proof.
  intros Hstart Hret w' out_path. subst w' out_path.
  destruct (Auto.run E urljoin fuel w) as [o wf] eqn:Hrun. simpl in Hret. subst o.
  cbn [snd]. unfold Auto.run in Hrun. apply try_finally_returns in Hrun.
  cbv zeta in Hrun. unfold Auto.paginate_listing in Hrun.
  apply bind_returns in Hrun as ([] & w1 & Hget & Hrun).
  apply bind_returns in Hrun as (w1' & w1'' & [= <- <-] & Hrun).
  apply bind_returns in Hrun as ([] & w2 & Hmain & Hrun).
  apply bind_returns in Hrun as ([] & w3 & Harchive & Hrun).
  apply bind_returns in Hrun as (w3' & w3'' & [= <- <-] & Hrun).
  assert (Forall auto_record (rows w3)) as Hall.
  { assert (gathers auto_record w w3) as (more & -> & Hmore); [|by apply Forall_app].
    etrans; [|etrans].
    - eapply (gathers_same_rows auto_record (Auto.safe_get E _)), safe_get_long_rows.
    - rewrite Hget. simpl.
      pose proof (gathers_auto_listing_loop E urljoin fuel "Active" ∅
                    (urljoin Auto.BASE_URL Auto.MAIN_PATH) w1) as H.
      rewrite Hmain in H. exact H.
    - destruct (_ <$> _) as [u|].
      + pose proof (gathers_auto_listing_loop E urljoin fuel "Archive" ∅ u w2) as H.
        rewrite Harchive in H. exact H.
      + injection Harchive as <-. exists []. by rewrite app_nil_r. }
  destruct (rows w3) as [|r rs] eqn:Hrows.
  { injection Hrun as <-. simpl. rewrite Hrows. by split. }
  rewrite <- Hrows in *.
  destruct (uniform_frame_sheet auto_fields (rows w3)) as [Hcols Hcells];
    [by compute_done | by rewrite Hrows | done |].
  unfold to_csv in Hrun. unfold_monad. rewrite Hcols, Hcells in Hrun.
  injection Hrun as <-. cbn [rows files]. split; [done|]. intros _.
  apply lookup_insert_eq.
Qed.

Lemma auto_run_writes_every_record_witness :
  let w' := snd (Auto.run listing_site urljoin_doe 5 fresh) in
  let out_path :=
    Py.path_join "output"
      ("autonomous_bodies_pay_related_" +:+ now listing_site +:+ ".csv") in
  Forall (fun r => Py.keys r = auto_fields) (rows w')
  ∧ (rows w' ≠ [] →
     files w' !! out_path = Some (Sheet auto_fields (map (map snd) (rows w')))).
Proof.
  apply (auto_run_writes_every_record listing_site urljoin_doe 5 fresh).
  - constructor.
  - vm_compute. reflexivity.
Defined.

(** ** manuals_scraper.py: a run whose archive fails *)

Lemma for_each_ext {A} (xs : list A) (f g : A -> M unit) (w : world) :
  (∀ x w, f x w = g x w) → for_each xs f w = for_each xs g w.
Proof.
  intros Hfg. revert w. induction xs as [|x xs IH]; intros w; simpl; [done|].
  unfold bind. rewrite Hfg. destruct (g x w) as [[[]|e|] w1]; [apply IH|done|done].
Qed.

Lemma manuals_download_pdfs_is_rec E w :
  Manuals.download_pdfs E w = Rec.download_pdfs E w.
Proof.
  unfold Manuals.download_pdfs, Rec.download_pdfs. unfold bind at 1 3, get_world at 1 3.
  apply for_each_ext. intros i w1. unfold bind, get_world.
  destruct (rows w1 !! i) as [r|]; [|reflexivity].
  by rewrite manuals_download_row_is_rec.
Qed.

Lemma manuals_save_csv_sheet E w :
  Forall rec_record (rows w) →
  Manuals.save_csv E w
  = (Return tt,
     {| shown := shown w; rows := rows w;
        files := <[Py.path_join "output" ("manuals_" +:+ now E +:+ ".csv")
                   := Sheet Manuals.META_FIELDS (map (map snd) (rows w))]> (files w);
        trace := trace w
                 ++ [CsvWrite (Py.path_join "output" ("manuals_" +:+ now E +:+ ".csv"))] |}).
Proof.
  intros Hall. unfold Manuals.save_csv, to_csv, DataFrame_columns. unfold_monad.
  cbn [columns cells shown rows files trace]. do 4 f_equal.
  rewrite map_map. apply map_ext_in. intros r Hr%list_elem_of_In.
  eapply Forall_forall in Hall; [|done]. rewrite map_map.
  change Manuals.META_FIELDS with Rec.META_FIELDS. rewrite <- Hall.
  apply cells_of_own_keys. rewrite Hall. by compute_done.
Qed.

Lemma collects_manuals_scrape_section E urljoin fuel section_url section_name :
  steps (collects rec_record) (Manuals.scrape_section E urljoin fuel section_url section_name).
Proof.
  unfold Manuals.scrape_section, Manuals.handle_pagination, Rec.handle_pagination.
  steps_bind; [apply collects_safe_get_short | intros _].
  apply collects_rec_pagination_loop.
Qed.

(** The archive part of [run]: the [try] block with its handler. *)
Definition manuals_archive (E : env) (urljoin : string -> string -> string)
    (archive_manuals : document -> option (option string)) (fuel : nat) : M unit :=
  try_except
    (let* w := get_world in
     match archive_manuals (shown w) with
     | None => raise WebDriverException
     | Some archive_link =>
         if Py.truthy_opt archive_link
         then Manuals.scrape_section E urljoin fuel (default "" archive_link)
                "Archived Manuals"
         else ret tt
     end)
    any_exception
    (fun _ => print NoArchive).

Lemma collects_manuals_archive E urljoin archive_manuals fuel :
  steps (collects rec_record) (manuals_archive E urljoin archive_manuals fuel).
Proof.
  unfold manuals_archive. steps_try; [|intros e; apply collects_emit].
  steps_bind; [by apply steps_same; [apply _|] | intros w].
  destruct (archive_manuals (shown w)) as [link|]; [|steps_end].
  destruct (Py.truthy_opt link); [apply collects_manuals_scrape_section | steps_end].
Qed.

Lemma no_raise_manuals_archive E urljoin archive_manuals fuel :
  no_raise (manuals_archive E urljoin archive_manuals fuel).
Proof. apply no_raise_catch_all. by intros e w e'. Qed.

(** An exception came out. *)
Definition raised {A} (o : outcome A) : bool :=
  match o with
  | Raise _ => true
  | _ => false
  end.

(** X14.  In manuals_scraper.py nothing that goes wrong with the archive
    is fatal: once the section of the active manuals has been scraped, the run
    raises nothing, whether the archive link is missing, has no [href], or
    leads to a page the browser cannot load; the archive is given up with a
    notice.  If the run returns, the records collected till then, those of the
    active section among them, have gone through the download pass and are in
    the sheet, one line for each with its eight values. *)
Theorem manuals_run_survives_the_archive (E : env) (urljoin : string -> string -> string)
    (archive_manuals : document -> option (option string)) (fuel : nat) (w : world) :
  Forall (fun r => Py.keys r = Manuals.META_FIELDS) (rows w) →
  fst (Manuals.scrape_section E urljoin fuel (urljoin Manuals.BASE_URL Manuals.PAGE_PATH)
         "Active Manuals" w) = Return tt →
  let active :=
    snd (Manuals.scrape_section E urljoin fuel
           (urljoin Manuals.BASE_URL Manuals.PAGE_PATH) "Active Manuals" w) in
  let r := Manuals.run E urljoin archive_manuals fuel w in
  let out := Py.path_join "output" ("manuals_" +:+ now E +:+ ".csv") in
  raised (fst r) = false
  ∧ (fst r = Return tt →
     files (snd r) !! out
     = Some (Sheet Manuals.META_FIELDS (map (map snd) (rows (snd r))))
     ∧ length (rows active) ≤ length (rows (snd r))).
Proof.
  intros Hstart Hactive active r out. subst active r out.
  unfold Manuals.run, try_finally, driver_quit. cbv zeta.
  fold (manuals_archive E urljoin archive_manuals fuel).
  unfold bind.
  pose proof (collects_manuals_scrape_section E urljoin fuel
                (urljoin Manuals.BASE_URL Manuals.PAGE_PATH) "Active Manuals" w)
    as [_ (more1 & Hrows1 & Hmore1)].
  destruct (Manuals.scrape_section E urljoin fuel _ "Active Manuals" w)
    as [[[]|e|] w1]; simpl in Hactive, Hrows1 |- *; try done.
  assert (Forall rec_record (rows w1)) as Hall1.
  { rewrite Hrows1. by apply Forall_app. }
  pose proof (no_raise_manuals_archive E urljoin archive_manuals fuel w1) as Hno.
  pose proof (collects_manuals_archive E urljoin archive_manuals fuel w1)
    as [_ (more2 & Hrows2 & Hmore2)].
  destruct (manuals_archive E urljoin archive_manuals fuel w1) as [[[]|e|] w2];
    simpl in Hrows2, Hno |- *; [|by destruct (Hno e)|done].
  assert (Forall rec_record (rows w2)) as Hall2.
  { rewrite Hrows2. by apply Forall_app. }
  rewrite manuals_download_pdfs_is_rec.
  destruct (rec_download_pdfs_fills E w2) as (w3 & -> & Hfill).
  { eapply Forall_impl; [exact Hall2 | apply rec_record_has_url]. }
  pose proof (fills_paths_records _ _ Hfill Hall2) as Hall3.
  rewrite (manuals_save_csv_sheet E w3 Hall3). cbn [fst snd rows files raised].
  split; [done|]. intros _. split; [apply lookup_insert_eq|].
  destruct Hfill as (_ & _ & Hlen%Forall2_length). rewrite <- Hlen, Hrows2, length_app. lia.
Qed.

Lemma manuals_run_survives_the_archive_witness :
  let active :=
    snd (Manuals.scrape_section manuals_site urljoin_doe 5
           (urljoin_doe Manuals.BASE_URL Manuals.PAGE_PATH) "Active Manuals" fresh) in
  let r := Manuals.run manuals_site urljoin_doe manuals_archive_link 5 fresh in
  let out := Py.path_join "output" ("manuals_" +:+ now manuals_site +:+ ".csv") in
  raised (fst r) = false
  ∧ (fst r = Return tt →
     files (snd r) !! out
     = Some (Sheet Manuals.META_FIELDS (map (map snd) (rows (snd r))))
     ∧ length (rows active) ≤ length (rows (snd r))).
Proof.
  apply (manuals_run_survives_the_archive manuals_site urljoin_doe manuals_archive_link
           5 fresh).
  - constructor.
  - vm_compute. reflexivity.
Defined.

(** The run on the site whose archive cannot be loaded: the failed load, the
    notice, and then the download and the sheet. *)
Example manuals_run_with_a_broken_archive :
  fst (Manuals.run manuals_site urljoin_doe manuals_archive_link 5 fresh) = Return tt
  ∧ trace (snd (Manuals.run manuals_site urljoin_doe manuals_archive_link 5 fresh))
    = [Nav "https://doe.gov.in/manuals"; Nav "https://doe.gov.in/archive/manuals";
       Print NoArchive; HttpGet "https://doe.gov.in/files/manual.pdf";
       FileOpen "pdfs/manual.pdf"; CsvWrite "output/manuals_20240101_000000.csv"].
Proof. split; vm_compute; reflexivity. Qed.

(** ** proc_scraper.py: the parser of a page *)

Lemma write_chunks_effect (p : string) (chunks : list string) (complete : bool) (w : world) :
  ∃ o w', Proc.write_chunks p chunks complete w = (o, w')
          ∧ (o = Return tt ∨ o = Raise RequestException)
          ∧ rows w' = rows w ∧ shown w' = shown w ∧ trace w' = trace w
          ∧ (files w' = files w ∨ ∃ c, files w' = <[p := c]> (files w)).
Proof.
  revert w. induction chunks as [|chunk chunks IH]; intros w; cbn [Proc.write_chunks].
  - destruct complete; eexists _, _; (split; [reflexivity|]); split_and!; by auto.
  - unfold bind. destruct (Py.truthy chunk); [|apply IH].
    destruct (file_write_files p chunk w) as (c & w1 & Hw & Hw1).
    assert (rows w1 = rows w ∧ shown w1 = shown w ∧ trace w1 = trace w) as (Hr & Hs & Ht).
    { revert Hw. unfold file_write, set_files.
      destruct (files w !! p) as [[]|]; by intros [= <-]. }
    rewrite Hw. cbv beta iota.
    destruct (IH w1) as (o & w2 & -> & Ho & Hr2 & Hs2 & Ht2 & Hf2).
    exists o, w2. split; [done|]. split_and!; [done|congruence..|].
    right. destruct Hf2 as [->|[c' ->]]; [by exists c|].
    exists c'. by rewrite Hw1, insert_insert_eq.
Qed.

(** What a call of the downloader leaves: the rows and the session as they
    were, the files that were there, no page load, and a path that is empty or
    names the destination, at which something then exists. *)
Lemma proc_download_pdf_effect E urlparse_path url prefix w :
  ∃ p w' t, Proc.download_pdf E urlparse_path url prefix w = (Return p, w')
            ∧ rows w' = rows w ∧ shown w' = shown w ∧ files w ⊆ files w'
            ∧ trace w' = trace w ++ t ∧ navs t = []
            ∧ (p = "" ∨ (p = Proc.local_path_of urlparse_path url prefix
                         ∧ on_disk w' p = true)).
Proof.
  unfold Proc.download_pdf.
  generalize (Proc.local_path_of urlparse_path url prefix). intros lp.
  unfold path_exists, requests_get_stream, raise_for_status, open_wb.
  unfold try_except, bind at 1. unfold bind at 1, get_world, ret at 1.
  destruct (on_disk w lp) eqn:Hdisk.
  { exists lp, w, []. rewrite app_nil_r. split_and!; by auto. }
  destruct (on_disk_false _ _ Hdisk) as [Hdir Hnone].
  unfold bind at 1. unfold bind at 1, emit at 1.
  destruct (http E (trace w) url) as [e|status chunks complete].
  { eexists "", _, _. unfold_monad. cbn [fst snd]. split; [reflexivity|].
    cbn [rows shown files trace]. rewrite <- app_assoc. split_and!; by auto. }
  unfold bind at 1. cbn [ret].
  destruct (_ && _).
  { eexists "", _, _. unfold_monad. cbn [fst snd]. split; [reflexivity|].
    cbn [rows shown files trace]. rewrite <- app_assoc. split_and!; by auto. }
  cbn [ret]. rewrite Hdir.
  unfold bind at 1. unfold bind at 1, emit at 1. unfold set_files at 1.
  cbn [files shown rows trace].
  set (w1 := {| shown := shown w; rows := rows w;
                files := <[lp := Bytes ""]> (files w); trace := _ |}).
  unfold bind at 1.
  destruct (write_chunks_effect lp chunks complete w1)
    as (o & w2 & -> & Ho & Hr2 & Hs2 & Ht2 & Hf2).
  assert (files w ⊆ files w2 ∧ on_disk w2 lp = true) as [Hsub Hthere].
  { destruct Hf2 as [Hf2|[c Hf2]]; rewrite <- (world_eta w2), Hf2; subst w1;
      cbn [files]; rewrite ?insert_insert_eq;
      (split; [by apply insert_subseteq | apply (on_disk_stored w)]). }
  subst w1. cbn [rows shown trace] in Hr2, Hs2, Ht2.
  destruct Ho as [->| ->].
  - exists lp, w2, [HttpGet url; FileOpen lp]. split; [reflexivity|].
    rewrite Ht2, <- app_assoc. split_and!; by auto.
  - eexists "", _, _. unfold_monad. cbn [fst snd]. split; [reflexivity|].
    cbn [rows shown files trace]. rewrite Ht2, <- !app_assoc. split_and!; by auto.
Qed.
(** What the parser of a page may do between two states: add records at the
    end of [self.rows], as many as it reports, and fetch files for them; the
    session stays on its page, no file that was there is touched, and without
    a record there is no fetch at all. *)
Definition parsed (w w' : world) (n : nat) (new : list Py.dict) : Prop :=
  rows w' = rows w ++ new ∧ length new = n ∧ shown w' = shown w
  ∧ files w ⊆ files w' ∧ (new = [] → files w' = files w)
  ∧ ∃ t, trace w' = trace w ++ t ∧ navs t = [].

Lemma parsed_nothing (w : world) : parsed w w 0 [].
Proof.
  unfold parsed. rewrite app_nil_r. split_and!; try done.
  exists []. by rewrite app_nil_r.
Qed.

Lemma parsed_more (w w1 w2 : world) (n1 n2 : nat) (new1 new2 : list Py.dict) :
  parsed w w1 n1 new1 → parsed w1 w2 n2 new2 → parsed w w2 (n1 + n2) (new1 ++ new2).
Proof.
  intros (Hr1 & Hl1 & Hs1 & Hf1 & He1 & t1 & Ht1 & Hn1)
         (Hr2 & Hl2 & Hs2 & Hf2 & He2 & t2 & Ht2 & Hn2).
  unfold parsed. split_and!.
  - by rewrite Hr2, Hr1, app_assoc.
  - rewrite length_app. lia.
  - congruence.
  - by etrans.
  - intros [-> ->]%app_eq_nil. by rewrite He2, He1.
  - exists (t1 ++ t2). rewrite Ht2, Ht1, app_assoc, navs_app, Hn1, Hn2. done.
Qed.

Lemma parsed_notice (w : world) (m : message) :
  parsed w {| shown := shown w; rows := rows w; files := files w;
              trace := trace w ++ [Print m] |} 0 [].
Proof.
  unfold parsed. cbn [rows shown files trace]. rewrite app_nil_r.
  split_and!; try done. by exists [Print m].
Qed.

(** The spans the parser looks through in the download cell of a row: its
    [span.file] elements, or the cell itself when it has none. *)
Definition proc_spans (r : Proc.om_row) : list Proc.file_span :=
  match Proc.om_file_spans r with
  | [] => [Proc.om_download_td r]
  | spans => spans
  end.

Definition has_link (s : Proc.file_span) : bool :=
  match Proc.span_link s with
  | Some _ => true
  | None => false
  end.

(** The links of a row, each with its row: none for a row of fewer than five
    cells. *)
Definition proc_links_of (r : Proc.om_row) : list (Proc.om_row * Proc.file_span) :=
  if (5 <=? length (Proc.om_cells r))%nat
  then map (pair r) (List.filter has_link (proc_spans r))
  else [].

(** The links of a page, in document order. *)
Definition proc_links (table_of : document -> option Proc.om_table) (soup : document)
  : list (Proc.om_row * Proc.file_span) :=
  match table_of soup with
  | Some t =>
      match Proc.om_tbody t with
      | Some trs => flat_map proc_links_of trs
      | None => []
      end
  | None => []
  end.

(** The record of a link, as the record literal of [parse_table_page] fills
    it; the local path is empty, or it is the destination of the download
    and something is on disk there. *)
Definition proc_record_of (urljoin : string -> string -> string)
    (urlparse_path : string -> string) (w' : world) (page_url section_type : string)
    (l : Proc.om_row * Proc.file_span) (d : Py.dict) : Prop :=
  ∃ sr_no office_mem_no title date_text a_href a_text local_path,
    Proc.om_cells l.1 !! 0 = Some sr_no
    ∧ Proc.om_cells l.1 !! 1 = Some office_mem_no
    ∧ Proc.om_cells l.1 !! 2 = Some title
    ∧ Proc.om_cells l.1 !! 3 = Some date_text
    ∧ Proc.span_link l.2 = Some (a_href, a_text)
    ∧ d = [("section_type", section_type);
           ("section_name", Proc.SECTION_NAME);
           ("sr_no", sr_no);
           ("office_memorandum_no", office_mem_no);
           ("title", title);
           ("date", date_text);
           ("pdf_label", if Py.truthy a_text then a_text else "Download");
           ("pdf_size", Proc.size_of (Proc.span_text l.2));
           ("pdf_url", urljoin Proc.BASE_URL (Py.strip a_href));
           ("local_pdf_path", local_path);
           ("page_url", page_url)]
    ∧ (local_path = ""
       ∨ (local_path
          = Proc.local_path_of urlparse_path (urljoin Proc.BASE_URL (Py.strip a_href))
              (section_type +:+ "_sr" +:+ sr_no)
          ∧ on_disk w' local_path = true)).

Lemma proc_record_of_mono urljoin urlparse_path w w' page_url section_type l d :
  files w ⊆ files w' →
  proc_record_of urljoin urlparse_path w page_url section_type l d →
  proc_record_of urljoin urlparse_path w' page_url section_type l d.
Proof.
  intros Hsub (sr_no & memo & title & date_text & a_href & a_text & lp
               & ? & ? & ? & ? & ? & ? & Hpath).
  exists sr_no, memo, title, date_text, a_href, a_text, lp. split_and!; try done.
  destruct Hpath as [?|[? Hdisk]]; [by left|]. right. split; [done|].
  by eapply on_disk_mono.
Qed.

Lemma proc_records_mono urljoin urlparse_path w w' page_url section_type ls ds :
  files w ⊆ files w' →
  Forall2 (proc_record_of urljoin urlparse_path w page_url section_type) ls ds →
  Forall2 (proc_record_of urljoin urlparse_path w' page_url section_type) ls ds.
Proof.
  intros Hsub Hall. eapply Forall2_impl; [exact Hall|].
  intros l d. by apply proc_record_of_mono.
Qed.

Section ProcPages.
Context (E : env) (urljoin : string -> string -> string) (urlparse_path : string -> string).
Context (table_of : document -> option Proc.om_table).

Lemma proc_parse_span_effect section_type page_url (r : Proc.om_row)
    sr_no office_mem_no title date_text (s : Proc.file_span) (w : world) :
  Proc.om_cells r !! 0 = Some sr_no → Proc.om_cells r !! 1 = Some office_mem_no →
  Proc.om_cells r !! 2 = Some title → Proc.om_cells r !! 3 = Some date_text →
  ∃ n w' new,
    Proc.parse_span E urljoin urlparse_path section_type page_url sr_no office_mem_no
      title date_text s w = (Return n, w')
    ∧ parsed w w' n new
    ∧ Forall2 (proc_record_of urljoin urlparse_path w' page_url section_type)
        (map (pair r) (List.filter has_link [s])) new.
Proof.
  intros H0 H1 H2 H3. unfold Proc.parse_span, has_link. cbn [List.filter].
  destruct (Proc.span_link s) as [[a_href a_text]|] eqn:Hlink.
  2: { exists 0, w, []. split_and!; [done | apply parsed_nothing | constructor]. }
  unfold bind at 1.
  destruct (proc_download_pdf_effect E urlparse_path
              (urljoin Proc.BASE_URL (Py.strip a_href))
              (section_type +:+ "_sr" +:+ sr_no) w)
    as (lp & w1 & t & -> & Hrows & Hshown & Hfiles & Htrace & Hnavs & Hlp).
  unfold append_row, set_rows, bind, ret. eexists 1, _, [_]. split; [reflexivity|].
  split.
  - unfold parsed. cbn [rows shown files trace]. rewrite Hrows.
    split_and!; try done. by exists t.
  - constructor; [|constructor].
    exists sr_no, office_mem_no, title, date_text, a_href, a_text, lp.
    cbn [fst snd]. by split_and!.
Qed.

Lemma proc_parse_spans_effect section_type page_url (r : Proc.om_row)
    sr_no office_mem_no title date_text (spans : list Proc.file_span) (w : world) :
  Proc.om_cells r !! 0 = Some sr_no → Proc.om_cells r !! 1 = Some office_mem_no →
  Proc.om_cells r !! 2 = Some title → Proc.om_cells r !! 3 = Some date_text →
  ∃ n w' new,
    count_each spans
      (Proc.parse_span E urljoin urlparse_path section_type page_url sr_no office_mem_no
         title date_text) w = (Return n, w')
    ∧ parsed w w' n new
    ∧ Forall2 (proc_record_of urljoin urlparse_path w' page_url section_type)
        (map (pair r) (List.filter has_link spans)) new.
Proof.
  intros H0 H1 H2 H3. revert w.
  induction spans as [|s spans IH]; intros w; cbn [count_each].
  { exists 0, w, []. split_and!; [done | apply parsed_nothing | constructor]. }
  unfold bind at 1.
  destruct (proc_parse_span_effect section_type page_url r sr_no office_mem_no title
              date_text s w H0 H1 H2 H3) as (n1 & w1 & new1 & -> & Hp1 & Hnew1).
  unfold bind at 1.
  destruct (IH w1) as (n2 & w2 & new2 & -> & Hp2 & Hnew2).
  exists (n1 + n2), w2, (new1 ++ new2). split; [done|].
  split; [by eapply parsed_more|].
  change (s :: spans) with ([s] ++ spans). rewrite List.filter_app, map_app.
  apply Forall2_app; [|done].
  eapply proc_records_mono; [|exact Hnew1]. apply Hp2.
Qed.

Lemma proc_parse_row_effect section_type page_url (r : Proc.om_row) (w : world) :
  ∃ n w' new,
    Proc.parse_row E urljoin urlparse_path section_type page_url r w = (Return n, w')
    ∧ parsed w w' n new
    ∧ Forall2 (proc_record_of urljoin urlparse_path w' page_url section_type)
        (proc_links_of r) new.
Proof.
  unfold Proc.parse_row, proc_links_of.
  destruct (Proc.om_cells r) as [|c0 [|c1 [|c2 [|c3 [|c4 rest]]]]] eqn:Hcells;
    try (exists 0, w, []; split_and!; [done | apply parsed_nothing | constructor]).
  change (5 <=? length (c0 :: c1 :: c2 :: c3 :: c4 :: rest))%nat with true.
  apply proc_parse_spans_effect; by rewrite Hcells.
Qed.

Lemma proc_parse_rows_effect section_type page_url (trs : list Proc.om_row) (w : world) :
  ∃ n w' new,
    count_each trs (Proc.parse_row E urljoin urlparse_path section_type page_url) w
    = (Return n, w')
    ∧ parsed w w' n new
    ∧ Forall2 (proc_record_of urljoin urlparse_path w' page_url section_type)
        (flat_map proc_links_of trs) new.
Proof.
  revert w. induction trs as [|r trs IH]; intros w; cbn [count_each flat_map].
  { exists 0, w, []. split_and!; [done | apply parsed_nothing | constructor]. }
  unfold bind at 1.
  destruct (proc_parse_row_effect section_type page_url r w)
    as (n1 & w1 & new1 & -> & Hp1 & Hnew1).
  unfold bind at 1.
  destruct (IH w1) as (n2 & w2 & new2 & -> & Hp2 & Hnew2).
  exists (n1 + n2), w2, (new1 ++ new2). split; [done|].
  split; [by eapply parsed_more|].
  apply Forall2_app; [|done].
  eapply proc_records_mono; [|exact Hnew1]. apply Hp2.
Qed.

Lemma proc_parse_table_page_effect soup page_url section_type (w : world) :
  ∃ n w' new,
    Proc.parse_table_page E urljoin urlparse_path table_of soup page_url section_type w
    = (Return n, w')
    ∧ parsed w w' n new
    ∧ Forall2 (proc_record_of urljoin urlparse_path w' page_url section_type)
        (proc_links table_of soup) new.
Proof.
  unfold Proc.parse_table_page, proc_links.
  destruct (table_of soup) as [t|].
  - destruct (Proc.om_tbody t) as [trs|]; [apply proc_parse_rows_effect|].
    exists 0, w, []. split_and!; [done | apply parsed_nothing | constructor].
  - eexists 0, _, []. split_and!; [reflexivity | apply parsed_notice | constructor].
Qed.

End ProcPages.


(** ** proc_scraper.py: the pages of a section *)

Lemma safe_get_long_frame E url w :
  rows (snd (safe_get_long E url w)) = rows w
  ∧ files (snd (safe_get_long E url w)) = files w.
Proof.
  unfold safe_get_long, driver_get, window_stop, wait_until. run_monad.
  destruct (browse E (trace w) url) as [[[]|] [e1|] polls [[]|] d];
    simpl; rewrite ?wait_ready_returns; by simpl.
Qed.

Definition proc_record (d : Py.dict) : Prop := Py.keys d = Proc.cols.

Lemma proc_records_of urljoin urlparse_path w page_url section_type ls ds :
  Forall2 (proc_record_of urljoin urlparse_path w page_url section_type) ls ds →
  Forall proc_record ds.
Proof.
  induction 1 as [|l d ls ds Hd _ IH]; constructor; [|done].
  by destruct Hd as (?&?&?&?&?&?&?&_&_&_&_&_&->&_).
Qed.

(** What the loop over the pages has done when it stops, however it stops:
    [k] pages loaded, the pages [page_index], [page_index + 1], ... in this
    order, and [new] records added. *)
Definition walked (urljoin : string -> string -> string)
    (table_of : document -> option Proc.om_table) (path : string) (page_index : nat)
    (w : world) (o : outcome unit) (w' : world) (k : nat) (new : list Py.dict) : Prop :=
  (∃ t, trace w' = trace w ++ t
        ∧ navs t = map (Proc.page_url_of urljoin path) (seq page_index k))
  ∧ rows w' = rows w ++ new
  ∧ Forall proc_record new
  ∧ files w ⊆ files w'
  ∧ (new = [] → files w' = files w)
  ∧ match o with
    | Return _ => 1 ≤ k ∧ k - 1 ≤ length new ∧ proc_links table_of (shown w') = []
    | Raise _ => 1 ≤ k ∧ k - 1 ≤ length new
    | OutOfFuel => k ≤ length new
    end.

Lemma proc_section_loop_walk E urljoin urlparse_path table_of fuel path section_type
    page_index w :
  ∃ k new,
    k ≤ fuel
    ∧ (fst (Proc.section_loop E urljoin urlparse_path table_of fuel path section_type
              page_index w) = OutOfFuel → k = fuel)
    ∧ walked urljoin table_of path page_index w
        (fst (Proc.section_loop E urljoin urlparse_path table_of fuel path section_type
                page_index w))
        (snd (Proc.section_loop E urljoin urlparse_path table_of fuel path section_type
                page_index w)) k new.
Proof.
  revert page_index w. induction fuel as [|fuel IH]; intros page_index w.
  { exists 0, []. cbn [Proc.section_loop out_of_fuel fst snd]. unfold walked.
    rewrite app_nil_r. split_and!; try done. exists []. by rewrite app_nil_r. }
  cbn [Proc.section_loop]. unfold Proc.safe_get.
  set (url := Proc.page_url_of urljoin path page_index).
  destruct (safe_get_long_load E url w) as (t1 & Ht1 & Hn1).
  destruct (safe_get_long_frame E url w) as [Hr1 Hf1].
  destruct (safe_get_long_outcome E url w) as [Hfuel1 _].
  unfold bind.
  destruct (safe_get_long E url w) as [[[]|e|] w1]; cbn [fst snd] in *; [| |done].
  2: { exists 1, []. unfold walked. rewrite app_nil_r, Hf1.
       split_and!; try done; [lia | by exists t1]. }
  unfold get_world.
  destruct (proc_parse_table_page_effect E urljoin urlparse_path table_of (shown w1) url
              section_type w1) as (n & w2 & new1 & -> & Hp & Hnew1).
  destruct Hp as (Hr2 & Hlen & Hs2 & Hf2 & He2 & t2 & Ht2 & Hn2).
  pose proof (proc_records_of _ _ _ _ _ _ _ Hnew1) as Hrec1.
  destruct (Nat.eqb_spec n 0) as [->|Hn].
  - apply nil_length_inv in Hlen as ->. apply Forall2_nil_inv_r in Hnew1.
    rewrite app_nil_r in Hr2. specialize (He2 eq_refl).
    assert (∃ t, trace w2 = trace w ++ t
                 ∧ navs t = map (Proc.page_url_of urljoin path) (seq page_index 1)) as Hpages.
    { exists (t1 ++ t2). rewrite Ht2, Ht1, app_assoc, navs_app, Hn1, Hn2. done. }
    exists 1, []. split; [lia|].
    destruct (page_index =? 0)%nat; cbn [print emit ret fst snd]; (split; [done|]);
      unfold walked; cbn [rows shown files trace]; rewrite app_nil_r;
      split_and!; try done; try congruence; try (simpl; lia);
      try (by rewrite He2, Hf1).
    destruct Hpages as (t & Ht & Hn). exists (t ++ [Print NoData]).
    by rewrite Ht, <- app_assoc, navs_app, Hn, app_nil_r.
  - destruct (IH (S page_index) w2)
      as (k & new2 & Hk & Hout & (t3 & Ht3 & Hn3) & Hr3 & Hrec3 & Hf3 & He3 & Hend).
    exists (S k), (new1 ++ new2). split; [lia|]. split; [intros Ho; f_equal; by apply Hout|].
    unfold walked. split_and!.
    + exists (t1 ++ t2 ++ t3). rewrite Ht3, Ht2, Ht1, <- !app_assoc. split; [done|].
      by rewrite !navs_app, Hn1, Hn2, Hn3.
    + by rewrite Hr3, Hr2, Hr1, app_assoc.
    + by apply Forall_app.
    + etrans; [|exact Hf3]. by rewrite <- Hf1.
    + intros [-> _]%app_eq_nil. simpl in Hlen. lia.
    + rewrite length_app.
      destruct (fst (Proc.section_loop _ _ _ _ _ _ _ _ _)); simpl; split_and?; try lia;
        by destruct Hend as (? & ? & ?).
Qed.

(** X16.  [scrape_section] of proc_scraper.py loads the pages of a
    section in order and nothing else: the path, then the path with
    [?page=1], [?page=2], and so on, without a gap and without a repeat.  When
    it returns it has loaded at least one page, every page before the last
    has given a record, and the page it stopped on holds no link in a row of
    five cells.  The records it adds all have the eleven fields, and no file
    that was on disk is touched. *)
Theorem scrape_section_walks_the_pages_in_order (E : env)
    (urljoin : string -> string -> string) (urlparse_path : string -> string)
    (table_of : document -> option Proc.om_table) (fuel : nat)
    (path section_type : string) (w : world) :
  let r := Proc.scrape_section E urljoin urlparse_path table_of fuel path section_type w in
  ∃ k t new,
    trace (snd r) = trace w ++ t
    ∧ navs t = map (Proc.page_url_of urljoin path) (seq 0 k)
    ∧ k ≤ fuel
    ∧ rows (snd r) = rows w ++ new
    ∧ Forall (fun d => Py.keys d = Proc.cols) new
    ∧ files w ⊆ files (snd r)
    ∧ (fst r = Return tt →
       1 ≤ k ∧ k - 1 ≤ length new ∧ proc_links table_of (shown (snd r)) = []).
Proof.
  intros r. subst r. unfold Proc.scrape_section.
  destruct (proc_section_loop_walk E urljoin urlparse_path table_of fuel path section_type
              0 w) as (k & new & Hk & _ & (t & Ht & Hn) & Hr & Hrec & Hf & _ & Hend).
  exists k, t, new. split_and!; try done.
  intros Hret. by rewrite Hret in Hend.
Qed.

(** Every page the browser is sent to loads, and holds a link in a row of
    five cells. *)
Definition never_empty (E : env) (table_of : document -> option Proc.om_table) : Prop :=
  ∀ t u, get_raises (browse E t u) = None
         ∧ wait_raises (browse E t u) = None
         ∧ proc_links table_of (lands_on (browse E t u)) ≠ [].

(** X17.  The loop of [scrape_section] in proc_scraper.py has no way
    out but a page without records.  On a site that has a record on every
    page it is sent to (one that takes no notice of [?page=N], say) the loop
    never ends: whatever number of iterations it is given, it uses them all,
    loading one page and adding at least one record in each. *)
Theorem scrape_section_needs_an_empty_page (E : env)
    (urljoin : string -> string -> string) (urlparse_path : string -> string)
    (table_of : document -> option Proc.om_table) (path section_type : string)
    (fuel : nat) (w : world) :
  never_empty E table_of →
  let r := Proc.scrape_section E urljoin urlparse_path table_of fuel path section_type w in
  fst r = OutOfFuel
  ∧ navs (trace (snd r))
    = navs (trace w) ++ map (Proc.page_url_of urljoin path) (seq 0 fuel)
  ∧ length (rows w) + fuel ≤ length (rows (snd r)).
Proof.
  intros Hsite r. subst r. unfold Proc.scrape_section.
  assert (∀ page_index w,
            fst (Proc.section_loop E urljoin urlparse_path table_of fuel path section_type
                   page_index w) = OutOfFuel) as Hloop.
  { clear w. induction fuel as [|fuel IH]; intros page_index w; [done|].
    cbn [Proc.section_loop]. unfold Proc.safe_get.
    set (url := Proc.page_url_of urljoin path page_index).
    destruct (Hsite (trace w) url) as (Hget & Hwait & Hlinks).
    destruct (safe_get_long_outcome E url w) as [_ Hshown].
    assert (fst (safe_get_long E url w) = Return tt) as Hret.
    { unfold safe_get_long, driver_get, window_stop, wait_until. run_monad.
      destruct (browse E (trace w) url) as [g s polls wr d]. simpl in Hget, Hwait.
      subst g wr. simpl. rewrite ?wait_ready_returns. by simpl. }
    specialize (Hshown Hret). unfold bind.
    destruct (safe_get_long E url w) as [o w1]. simpl in Hret, Hshown. subst o.
    unfold get_world.
    destruct (proc_parse_table_page_effect E urljoin urlparse_path table_of (shown w1) url
                section_type w1) as (n & w2 & new1 & -> & Hp & Hnew1).
    destruct Hp as (_ & Hlen & _).
    destruct (Nat.eqb_spec n 0) as [->|Hn]; [|apply IH].
    apply nil_length_inv in Hlen as ->. apply Forall2_nil_inv_r in Hnew1.
    by rewrite Hshown in Hnew1. }
  destruct (proc_section_loop_walk E urljoin urlparse_path table_of fuel path section_type
              0 w) as (k & new & Hk & Hout & (t & Ht & Hn) & Hr & _ & _ & _ & Hend).
  rewrite Hloop in Hend, Hout |- *. specialize (Hout eq_refl). subst k.
  split; [done|]. rewrite Ht, navs_app, Hn, Hr, length_app. split; [done | lia].
Qed.

Lemma scrape_section_needs_an_empty_page_witness :
  let r := Proc.scrape_section serves_all urljoin_doe url_path_doe orders_every_page 3
             "/orders-circulars/459" "Current" fresh in
  fst r = OutOfFuel
  ∧ navs (trace (snd r))
    = navs (trace fresh)
      ++ map (Proc.page_url_of urljoin_doe "/orders-circulars/459") (seq 0 3)
  ∧ length (rows fresh) + 3 ≤ length (rows (snd r)).
Proof.
  apply (scrape_section_needs_an_empty_page serves_all urljoin_doe url_path_doe
           orders_every_page "/orders-circulars/459" "Current" 3 fresh).
  intros t u. split_and!; [reflexivity | reflexivity | discriminate].
Defined.

(** ** proc_scraper.py: from the pages to the sheet *)

(** What [save_csv] writes for records that have the eleven fields: none of
    the columns has to be added, and the reordering changes nothing. *)
Lemma proc_save_csv_sheet E w :
  Forall proc_record (rows w) → rows w ≠ [] →
  Proc.save_csv E w
  = (Return tt,
     {| shown := shown w; rows := rows w;
        files := <[Py.path_join "output" ("procurement_policy_om_" +:+ now E +:+ ".csv")
                   := Sheet Proc.cols (map (map snd) (rows w))]> (files w);
        trace := trace w
                 ++ [CsvWrite (Py.path_join "output"
                                 ("procurement_policy_om_" +:+ now E +:+ ".csv"))] |}).
Proof.
  intros Hall Hrows. unfold Proc.save_csv. unfold bind at 1, get_world at 1.
  destruct (rows w) as [|r rs] eqn:Hrs; [done|]. rewrite <- Hrs in *.
  unfold to_csv. unfold_monad. rewrite (written_cells (rows w) Proc.cols).
  cbn [columns reindex]. do 4 f_equal.
  apply map_ext_in. intros d Hd%list_elem_of_In.
  eapply Forall_forall in Hall; [|done]. unfold proc_record in Hall. rewrite <- Hall.
  apply cells_of_own_keys. rewrite Hall. by compute_done.
Qed.

(** X18.  A run of proc_scraper.py that returns has written every
    record whole, or nothing at all: each record has the eleven fields of the
    record literal; with at least one record the sheet has these eleven
    columns and one line per record, in the order of collection, with the
    record's values; with no record there is no sheet and the disk is as it
    was before the run. *)
Theorem proc_run_writes_every_record (E : env) (urljoin : string -> string -> string)
    (urlparse_path : string -> string) (table_of : document -> option Proc.om_table)
    (fuel : nat) (w : world) :
  Forall (fun r => Py.keys r = Proc.cols) (rows w) →
  fst (Proc.run E urljoin urlparse_path table_of fuel w) = Return tt →
  let w' := snd (Proc.run E urljoin urlparse_path table_of fuel w) in
  let out_path :=
    Py.path_join "output" ("procurement_policy_om_" +:+ now E +:+ ".csv") in
  Forall (fun r => Py.keys r = Proc.cols) (rows w')
  ∧ (rows w' ≠ [] →
     files w' !! out_path = Some (Sheet Proc.cols (map (map snd) (rows w'))))
  ∧ (rows w' = [] → files w' = files w).
Proof.
  intros Hstart Hret w' out_path. subst w' out_path.
  destruct (Proc.run E urljoin urlparse_path table_of fuel w) as [o wf] eqn:Hrun.
  simpl in Hret. subst o. cbn [snd].
  unfold Proc.run in Hrun. apply try_finally_returns in Hrun.
  apply bind_returns in Hrun as ([] & w1 & Hcurrent & Hrun).
  apply bind_returns in Hrun as ([] & w2 & Harchive & Hsave).
  unfold Proc.scrape_section in Hcurrent, Harchive.
  destruct (proc_section_loop_walk E urljoin urlparse_path table_of fuel
              "/orders-circulars/459" "Current" 0 w)
    as (k1 & new1 & _ & _ & _ & Hr1 & Hrec1 & _ & He1 & _).
  rewrite Hcurrent in Hr1, He1. cbn [snd] in Hr1, He1.
  destruct (proc_section_loop_walk E urljoin urlparse_path table_of fuel
              "/archive/orders-circulars/459" "Archive" 0 w1)
    as (k2 & new2 & _ & _ & _ & Hr2 & Hrec2 & _ & He2 & _).
  rewrite Harchive in Hr2, He2. cbn [snd] in Hr2, He2.
  assert (Forall proc_record (rows w2)) as Hall.
  { rewrite Hr2, Hr1. apply Forall_app. split; [apply Forall_app; by split | done]. }
  destruct (decide (rows w2 = [])) as [Hnone|Hsome].
  - unfold Proc.save_csv in Hsave. unfold bind at 1, get_world at 1 in Hsave.
    rewrite Hnone in Hsave. injection Hsave as <-. cbn [rows files].
    split_and!; [by rewrite Hnone | done |]. intros _.
    rewrite Hr2, Hr1 in Hnone.
    apply app_eq_nil in Hnone as [[_ ->]%app_eq_nil ->].
    by rewrite He2, He1.
  - rewrite (proc_save_csv_sheet E w2 Hall Hsome) in Hsave. injection Hsave as <-.
    cbn [rows files]. split_and!; [done | | done]. intros _. apply lookup_insert_eq.
Qed.

Lemma proc_run_writes_every_record_witness :
  let w' := snd (Proc.run serves_all urljoin_doe url_path_doe orders_first_page 5 fresh) in
  let out_path :=
    Py.path_join "output" ("procurement_policy_om_" +:+ now serves_all +:+ ".csv") in
  Forall (fun r => Py.keys r = Proc.cols) (rows w')
  ∧ (rows w' ≠ [] →
     files w' !! out_path = Some (Sheet Proc.cols (map (map snd) (rows w'))))
  ∧ (rows w' = [] → files w' = files fresh).
Proof.
  apply (proc_run_writes_every_record serves_all urljoin_doe url_path_doe
           orders_first_page 5 fresh).
  - constructor.
  - vm_compute. reflexivity.
Defined.

(** The run on the section with one memorandum: the first page and its file,
    the page after it, which is empty, the archive, which is empty too, and
    the sheet. *)
Example orders_run :
  trace (snd (Proc.run serves_all urljoin_doe url_path_doe orders_first_page 5 fresh))
  = [Nav "https://doe.gov.in/orders-circulars/459";
     HttpGet "https://doe.gov.in/files/om.pdf";
     FileOpen "pdfs/Current_sr1_om.pdf";
     Nav "https://doe.gov.in/orders-circulars/459?page=1";
     Nav "https://doe.gov.in/archive/orders-circulars/459";
     Print NoData;
     CsvWrite "output/procurement_policy_om_20240101_000000.csv"]
  ∧ map (fun d => (Py.get d "pdf_size", Py.get d "local_pdf_path"))
      (rows (snd (Proc.run serves_all urljoin_doe url_path_doe orders_first_page 5 fresh)))
    = [(Some "559.58 KB", Some "pdfs/Current_sr1_om.pdf")].
Proof. split; vm_compute; reflexivity. Qed.

(** ** rti_scraper.py: the paragraphs above the table *)
















(** The paragraphs of the page above: two of the three texts before the table
    are kept, and the text after it is not read. *)
Example rti_intro_paragraphs :
  map (fun d => (Py.get d "title", Py.get d "content"))
    (rows (snd (Rti.extract_main_paragraphs rti_intro (blank "") "https://doe.gov.in/rti"
                  fresh)))
  = [(Some "Intro Paragraph 1",
      Some "The Right to Information Act came into force in 2005.");
     (Some "Intro Paragraph 2",
      Some "Every public authority appoints an information officer.")].
Proof. vm_compute. reflexivity. Qed.

(** ** rti_scraper.py: the page pass *)








(** The page pass on a page with two paragraphs above a table of one row. *)
Example rti_page_pass :
  map (fun d => Py.get d "title")
    (rows (snd (Rti.scrape_main_page rules_site urljoin_doe rti_intro 5 fresh)))
  = [Some "Intro Paragraph 1"; Some "Intro Paragraph 2"; Some "Rules C"].
Proof. vm_compute. reflexivity. Qed.
